(** * ConsensusCruncher: the command-line driver, embedded and verified

    A shallow embedding of [ConsensusCruncher.py]: the two sub-commands
    [fastq2bam] and [consensus], the helper [sort_index], and the argument
    handling of the [__main__] block.  The script is an orchestrator: it
    builds paths and command lines, moves files around and starts external
    programs.  The embedding therefore threads a world (file system plus the
    trace of started programs) through an exception monad, and keeps the
    effect of the external programs behind an interface ([Host]). *)

From Stdlib Require Import Ascii ZArith QArith Lia Bool.
From stdpp Require Import base gmap strings list.

Local Open Scope stdpp_scope.

(** ** Python strings

    A Python [str] is modelled by a Rocq [string]; code points are limited
    to those below 256. *)

Module PyStr.

Fixpoint startswith (p s : string) : bool :=
  match p, s with
  | EmptyString, _ => true
  | String a p', String b s' => if Ascii.eqb a b then startswith p' s' else false
  | String _ _, EmptyString => false
  end.

(** [s.split(sep, 1)[0]] for a non-empty [sep]: what precedes the first
    occurrence of [sep], or all of [s] when there is none. *)
Fixpoint before_first (sep s : string) : string :=
  match s with
  | EmptyString => EmptyString
  | String c s' =>
      if startswith sep s then EmptyString else String c (before_first sep s')
  end.

(** The white space of [str.split()] without separator, below 256. *)
Definition is_whitespace (c : ascii) : bool :=
  let n := nat_of_ascii c in
  ((9 <=? n) && (n <=? 13)) || ((28 <=? n) && (n <=? 32))
  || (n =? 133) || (n =? 160).

Fixpoint lstrip (s : string) : string :=
  match s with
  | EmptyString => EmptyString
  | String c s' => if is_whitespace c then lstrip s' else s
  end.

Fixpoint take_word (s : string) : string :=
  match s with
  | EmptyString => EmptyString
  | String c s' => if is_whitespace c then EmptyString else String c (take_word s')
  end.

(** [s.split(None, 1)[0]]: the first white-space delimited word; [None]
    stands for the [IndexError] of indexing an empty list. *)
Definition first_word (s : string) : option string :=
  match lstrip s with
  | EmptyString => None
  | w => Some (take_word w)
  end.

(** [s.split(c)] for a one-character separator. *)
Fixpoint split_char (c : ascii) (s : string) : list string :=
  match s with
  | EmptyString => [EmptyString]
  | String a s' =>
      if Ascii.eqb a c then EmptyString :: split_char c s'
      else match split_char c s' with
           | w :: ws => String a w :: ws
           | [] => [String a EmptyString]
           end
  end.

(** [os.path.basename]: what follows the last slash. *)
Fixpoint basename_from (cur s : string) : string :=
  match s with
  | EmptyString => String.rev cur
  | String c s' =>
      if Ascii.eqb c "/" then basename_from EmptyString s'
      else basename_from (String c cur) s'
  end.
Definition basename (s : string) : string := basename_from EmptyString s.

(** [os.path.dirname]: what precedes the last slash (the root and
    trailing-slash corner cases of [posixpath] are not needed here). *)
Fixpoint dirname_from (seen cur s : string) : string :=
  match s with
  | EmptyString => seen
  | String c s' =>
      if Ascii.eqb c "/" then dirname_from (seen +:+ String.rev cur) (String c EmptyString) s'
      else dirname_from seen (String c cur) s'
  end.
Definition dirname (s : string) : string := dirname_from EmptyString EmptyString s.

(** All the directories [os.makedirs] has to make sure of: every prefix
    of the path that ends before a slash, and the path itself. *)
Fixpoint prefixes_from (cur s : string) : list string :=
  match s with
  | EmptyString => [String.rev cur]
  | String c s' =>
      if Ascii.eqb c "/"
      then (if String.eqb cur EmptyString then [] else [String.rev cur])
             ++ prefixes_from (String c cur) s'
      else prefixes_from (String c cur) s'
  end.
Definition prefixes (s : string) : list string := prefixes_from EmptyString s.

Fixpoint mem (c : ascii) (s : string) : bool :=
  match s with
  | EmptyString => false
  | String a s' => Ascii.eqb a c || mem c s'
  end.

Fixpoint existsb (f : ascii -> bool) (s : string) : bool :=
  match s with
  | EmptyString => false
  | String a s' => f a || existsb f s'
  end.

Fixpoint filter (f : ascii -> bool) (s : string) : string :=
  match s with
  | EmptyString => EmptyString
  | String a s' => if f a then String a (filter f s') else filter f s'
  end.

(** [sep.join(l)] *)
Fixpoint join (sep : string) (l : list string) : string :=
  match l with
  | [] => EmptyString
  | [x] => x
  | x :: rest => x +:+ sep +:+ join sep rest
  end.

Fixpoint contains (needle s : string) : bool :=
  match s with
  | EmptyString => startswith needle EmptyString
  | String _ s' => startswith needle s || contains needle s'
  end.

End PyStr.

(** ** Python values, exceptions and the world *)

Inductive subcmd := Fastq2bam | Consensus.

Global Instance subcmd_eq_dec : EqDecision subcmd.
Proof. solve_decision. Defined.

(** The values the [argparse] namespace of this script can hold.  A float is
    kept by its [repr], the only thing the script does with it being to
    format it into a command line. *)
Inductive pyval :=
| PyNone
| PyBool (b : bool)
| PyStr (s : string)
| PyFloat (repr : string)
| PyFunc (f : subcmd).

Global Instance pyval_eq_dec : EqDecision pyval.
Proof. solve_decision. Defined.

(** [str(v)], as used by ['{}'.format(v)]. *)
Definition py_str (v : pyval) : string :=
  match v with
  | PyNone => "None"
  | PyBool true => "True"
  | PyBool false => "False"
  | PyStr s => s
  | PyFloat r => r
  | PyFunc Fastq2bam => "<function fastq2bam>"
  | PyFunc Consensus => "<function consensus>"
  end.

(** [v is True], [v is False], [v is None] *)
Definition is_True (v : pyval) : bool := bool_decide (v = PyBool true).
Definition is_False (v : pyval) : bool := bool_decide (v = PyBool false).
Definition is_None (v : pyval) : bool := bool_decide (v = PyNone).

Inductive exn :=
| AttributeError (attr : string)
| TypeError
| ValueError (msg : string)
| IndexError
| FileNotFoundError (path : string)
| FileExistsError (path : string)
| NotADirectoryError (path : string)
| NoSectionError (section : string)
| SystemExit (code : Z).

(** What the script asks of the operating system. *)
Inductive event :=
| Ev_system (cmd : string)                (* os.system(cmd) *)
| Ev_spawn (argv : list string)           (* Popen(argv, ...) and call(argv) *)
| Ev_help.                                (* print_help() *)

(** The file system: the regular files and the directories that exist.
    Paths are kept as the script spells them; what the user may write to
    is the host's to say. *)
Record FS := { files : gset string; dirs : gset string }.

Record World := { fs : FS; trace : list event }.

(** The machine the script runs on: where the script is installed, what an
    external program does to the file system, what the text files hold,
    [float] of a string (rendered by [repr]; [None] where Python raises
    [ValueError]), and the paths the user has write permission on. *)
Record Host := {
  code_dir : string;
  tool_effect : event -> FS -> FS;
  file_text : string -> string;
  float_of_string : string -> option string;
  writable : string -> bool
}.

(** *** The monad: state and exceptions; the state survives a raise. *)

Inductive result (A : Type) :=
| Ret (a : A)
| Raise (e : exn).
Arguments Ret {A} a.
Arguments Raise {A} e.

Definition M (A : Type) : Type := World -> result A * World.

Definition ret {A} (a : A) : M A := fun w => (Ret a, w).
Definition raise {A} (e : exn) : M A := fun w => (Raise e, w).
Definition bind {A B} (m : M A) (k : A -> M B) : M B :=
  fun w => match m w with
           | (Ret a, w') => k a w'
           | (Raise e, w') => (Raise e, w')
           end.

Global Instance M_ret : MRet M := @ret.
Global Instance M_bind : MBind M := fun A B k m => bind m k.

Definition get_fs : M FS := fun w => (Ret (fs w), w).
Definition put_fs (f : FS) : M unit :=
  fun w => (Ret tt, {| fs := f; trace := trace w |}).
Definition of_option {A} (o : option A) (e : exn) : M A :=
  match o with Some a => ret a | None => raise e end.

(** *** Namespace access *)

(** [args.name]: a missing attribute raises. *)
Definition getattr (args : gmap string pyval) (name : string) : M pyval :=
  of_option (args !! name) (AttributeError name).

(** A value used where Python needs a [str] (path functions, [+] with a
    string literal): anything else is a [TypeError]. *)
Definition as_str (v : pyval) : M string :=
  match v with PyStr s => ret s | _ => raise TypeError end.

(** *** File-system primitives *)

(** A path exists when a file or a directory is kept under that very
    spelling: paths are not normalised, so [/out/] and [/out] are two
    paths here. *)
Definition path_exists (f : FS) (p : string) : bool :=
  bool_decide (p ∈ files f) || bool_decide (p ∈ dirs f).

(** [os.path.exists] *)
Definition os_path_exists (p : string) : M bool :=
  f ← get_fs ; ret (path_exists f p).

(** [os.makedirs(p)]: raises when [p] exists, creates the missing
    ancestors otherwise; an ancestor that is a regular file is an error. *)
Definition os_makedirs (p : string) : M unit :=
  f ← get_fs;
  if path_exists f p then raise (FileExistsError p)
  else match List.find (fun q => bool_decide (q ∈ files f)) (PyStr.prefixes p) with
       | Some q => raise (NotADirectoryError q)
       | None => put_fs {| files := files f;
                           dirs := dirs f ∪ list_to_set (PyStr.prefixes p) |}
       end.

(** [os.rename(src, dst)] on regular files (the script renames nothing
    else): [src] must exist and so must the directory of [dst]. *)
Definition os_rename (src dst : string) : M unit :=
  f ← get_fs;
  if negb (bool_decide (src ∈ files f)) then raise (FileNotFoundError src)
  else if negb (bool_decide (PyStr.dirname dst ∈ dirs f)) then raise (FileNotFoundError dst)
  else put_fs {| files := (files f ∖ {[src]}) ∪ {[dst]}; dirs := dirs f |}.

(** [os.remove(p)] *)
Definition os_remove (p : string) : M unit :=
  f ← get_fs;
  if bool_decide (p ∈ files f)
  then put_fs {| files := files f ∖ {[p]}; dirs := dirs f |}
  else raise (FileNotFoundError p).

(** [open(p, 'w')]: creates or truncates [p]; its directory must exist. *)
Definition open_w (p : string) : M unit :=
  f ← get_fs;
  if bool_decide (PyStr.dirname p ∈ dirs f)
  then put_fs {| files := files f ∪ {[p]}; dirs := dirs f |}
  else raise (FileNotFoundError p).

(** ** More of Python's library *)

(** ['...{}...{}'.format(a, b)]: every [{}] takes the next argument.  (The
    templates of the script have as many fields as arguments.) *)
Fixpoint format (template : string) (args : list string) : string :=
  match template with
  | EmptyString => EmptyString
  | String c t' =>
      match t' with
      | String d t'' =>
          if Ascii.eqb c "{" && Ascii.eqb d "}"
          then match args with
               | a :: rest => a +:+ format t'' rest
               | [] => format t'' []
               end
          else String c (format t' args)
      | EmptyString => String c EmptyString
      end
  end.

Definition LF : ascii := ascii_of_nat 10.
Definition CR : ascii := ascii_of_nat 13.
Definition TAB : ascii := ascii_of_nat 9.

(** The line boundaries of [str.splitlines], below 256. *)
Definition is_linebreak (c : ascii) : bool :=
  let n := nat_of_ascii c in
  ((10 <=? n) && (n <=? 13)) || ((28 <=? n) && (n <=? 30)) || (n =? 133).

(** [s.splitlines()]: carriage return plus line feed is one boundary, and a
    final boundary opens no empty last line. *)
Fixpoint splitlines (s : string) : list string :=
  match s with
  | EmptyString => []
  | String c s' =>
      if is_linebreak c then
        EmptyString ::
          match s' with
          | String d s'' =>
              if Ascii.eqb c CR && Ascii.eqb d LF then splitlines s'' else splitlines s'
          | EmptyString => splitlines s'
          end
      else match splitlines s' with
           | w :: rest => String c w :: rest
           | [] => [String c EmptyString]
           end
  end.

(** The newline translation of a file opened in text mode. *)
Fixpoint universal_newlines (s : string) : string :=
  match s with
  | EmptyString => EmptyString
  | String c s' =>
      if Ascii.eqb c CR then
        String LF
          match s' with
          | String d s'' =>
              if Ascii.eqb d LF then universal_newlines s'' else universal_newlines s'
          | EmptyString => universal_newlines s'
          end
      else String c (universal_newlines s')
  end.

(** [re.findall(r'[^A|C|G|T|N]', s)] is non-empty, and
    [re.search("[^ACGTN]", s) is not None]: some character of [s] is
    outside the class, whose members are the characters between the
    brackets after the caret. *)
Definition outside_class (members s : string) : bool :=
  PyStr.existsb (fun c => negb (PyStr.mem c members)) s.

(** ** The script *)

Section Script.

Variable host : Host.

(** [open(p, "r").read()]: the file must exist; text mode translates the
    line ends. *)
Definition read_text (p : string) : M string :=
  f ← get_fs;
  if bool_decide (p ∈ files f)
  then mret (universal_newlines (file_text host p))
  else raise (FileNotFoundError p).

(** [os.access(p, os.W_OK)]: the path exists and the user may write to
    it. *)
Definition os_access_W (p : string) : M bool :=
  f ← get_fs; mret (path_exists f p && writable host p).

(** Starting an external program: the start is logged and the file system
    becomes what the program leaves behind. *)
Definition run (ev : event) : M unit :=
  fun w => (Ret tt, {| fs := tool_effect host ev (fs w); trace := trace w ++ [ev] |}).

Definition os_system (cmd : string) : M unit := run (Ev_system cmd).
Definition Popen (argv : list string) : M unit := run (Ev_spawn argv).
Definition call (argv : list string) : M unit := run (Ev_spawn argv).
Definition print_help : M unit :=
  fun w => (Ret tt, {| fs := fs w; trace := trace w ++ [Ev_help] |}).

(** *** [sort_index(bam, samtools)] *)
Definition sort_index (bam : string) (samtools : pyval) : M string :=
  let identifier := PyStr.before_first ".bam" bam in
  let sorted_bam := format "{}.sorted.bam" [identifier] in
  st ← as_str samtools;
  Popen (PyStr.split_char " " (st +:+ " view -bu " +:+ bam));;
  open_w sorted_bam;;
  Popen (PyStr.split_char " " (st +:+ " sort -"));;
  os_remove bam;;
  call (PyStr.split_char " " (format "{} index {}" [st; sorted_bam]));;
  mret sorted_bam.

(** *** [fastq2bam(args)] *)
Definition fastq2bam (args : gmap string pyval) : M unit :=
  output ← getattr args "output";
  let fastq_dir := format "{}/fastq_tag" [py_str output] in
  let bam_dir := format "{}/bamfiles" [py_str output] in
  (* Check if dir exists and there's permission to write *)
  ex1 ← os_path_exists fastq_dir;
  (if negb ex1
   then out ← as_str output; ok ← os_access_W out;
        if ok : bool then os_makedirs fastq_dir else mret tt
   else mret tt);;
  ex2 ← os_path_exists bam_dir;
  (if negb ex2
   then out ← as_str output; ok ← os_access_W out;
        if ok : bool then os_makedirs bam_dir else mret tt
   else mret tt);;
  (* Set file variables *)
  fastq1 ← getattr args "fastq1";
  f1 ← as_str fastq1;
  name ← getattr args "name";
  filename ← match name with
             | PyNone => of_option (PyStr.first_word (PyStr.basename f1)) IndexError
             | PyStr EmptyString => raise (ValueError "empty separator")
             | PyStr sep => mret (PyStr.before_first sep (PyStr.basename f1))
             | _ => raise TypeError
             end;
  let outfile := format "{}/{}" [fastq_dir; filename] in
  (* Extract barcodes *)
  blist ← getattr args "blist";
  bpattern ← getattr args "bpattern";
  fastq2 ← getattr args "fastq2";
  (if negb (is_None blist) && negb (is_None bpattern) then
     os_system (format
       "{}/ConsensusCruncher/extract_barcodes.py --read1 {} --read2 {} --outfile {} --bpattern {} --blist {}"
       [code_dir host; py_str fastq1; py_str fastq2; outfile; py_str bpattern; py_str blist])
   else if is_None blist then
     os_system (format
       "{}/ConsensusCruncher/extract_barcodes.py --read1 {} --read2 {} --outfile {} --bpattern {}"
       [code_dir host; py_str fastq1; py_str fastq2; outfile; py_str bpattern])
   else
     os_system (format
       "{}/ConsensusCruncher/extract_barcodes.py --read1 {} --read2 {} --outfile {} --blist {}"
       [code_dir host; py_str fastq1; py_str fastq2; outfile; py_str blist]));;
  (* BWA Align *)
  bwa ← getattr args "bwa";
  bwa_s ← as_str bwa;
  let bwa_cmd := bwa_s +:+ " mem -M -t4 -R" in
  let bwa_id := "@RG" +:+ String TAB "ID:1" +:+ String TAB "SM:" +:+ filename
                +:+ String TAB "PL:Illumina" in
  ref ← getattr args "ref";
  let bwa_args := format "{} {}_barcode_R1.fastq {}_barcode_R2.fastq"
                    [py_str ref; outfile; outfile] in
  Popen (PyStr.split_char " " bwa_cmd ++ [bwa_id] ++ PyStr.split_char " " bwa_args);;
  (* Sort BAM *)
  samtools ← getattr args "samtools";
  st ← as_str samtools;
  Popen (PyStr.split_char " " (st +:+ " view -bhS -"));;
  open_w (format "{}/{}.bam" [bam_dir; filename]);;
  Popen (PyStr.split_char " " (st +:+ " sort -"));;
  (* Index BAM *)
  call (PyStr.split_char " " (format "{} index {}/{}.bam" [py_str samtools; bam_dir; filename])).

(** *** [consensus(args)] *)

(** The singleton-correction block, lines 211 to 273 of the script. *)
Definition singleton_correction_block (args : gmap string pyval)
    (sample_dir identifier sscs sing : string) : M unit :=
  os_makedirs (sample_dir +:+ "/sscs_sc");;
  (* Move stats and time tracker file to next dir *)
  os_rename (format "{}/dcs/{}.stats.txt" [sample_dir; identifier])
            (format "{}/sscs/{}.stats.txt" [sample_dir; identifier]);;
  os_rename (format "{}/dcs/{}.time_tracker.txt" [sample_dir; identifier])
            (format "{}/sscs/{}.time_tracker.txt" [sample_dir; identifier]);;
  bedfile ← getattr args "bedfile";
  (if is_False bedfile then
     os_system (format "{}/ConsensusCruncher/singleton_correction.py --singleton {}"
                  [code_dir host; sing])
   else
     os_system (format "{}/ConsensusCruncher/singleton_correction.py --singleton {} --bedfile {}"
                  [code_dir host; sing; py_str bedfile]));;
  (* Sort and index BAM files *)
  samtools ← getattr args "samtools";
  let sscs_cor := format "{}/sscs_sc/{}.sscs.correction.bam" [sample_dir; identifier] in
  os_rename (format "{}/sscs/{}.sscs.correction.bam" [sample_dir; identifier]) sscs_cor;;
  sscs_cor ← sort_index sscs_cor samtools;
  let sing_cor := format "{}/sscs_sc/{}.singleton.correction.bam" [sample_dir; identifier] in
  os_rename (format "{}/sscs/{}.singleton.correction.bam" [sample_dir; identifier]) sing_cor;;
  sing_cor ← sort_index sing_cor samtools;
  let uncorrected := format "{}/sscs_sc/{}.uncorrected.bam" [sample_dir; identifier] in
  os_rename (format "{}/sscs/{}.uncorrected.bam" [sample_dir; identifier]) uncorrected;;
  uncorrected ← sort_index uncorrected samtools;
  (* SSCS + SC: merge corrected singletons with consensus sequences *)
  let sscs_sc := format "{}/sscs_sc/{}.sscs.sc.bam" [sample_dir; identifier] in
  call (PyStr.split_char " "
          (format "{} merge {} {} {} {}" [py_str samtools; sscs_sc; sscs; sscs_cor; sing_cor]));;
  sscs_sc ← sort_index sscs_sc samtools;
  (* DCS + SC *)
  os_makedirs (sample_dir +:+ "/dcs_sc");;
  let dcs_sc := format "{}/dcs_sc/{}.dcs.sc.bam" [sample_dir; identifier] in
  (* Move stats and time tracker file to next dir *)
  os_rename (format "{}/sscs/{}.stats.txt" [sample_dir; identifier])
            (format "{}/dcs_sc/{}.stats.txt" [sample_dir; identifier]);;
  os_rename (format "{}/sscs/{}.time_tracker.txt" [sample_dir; identifier])
            (format "{}/dcs_sc/{}.time_tracker.txt" [sample_dir; identifier]);;
  (if is_False bedfile then
     os_system (format "{}/ConsensusCruncher/DCS_maker.py --infile {} --outfile {}"
                  [code_dir host; sscs_sc; dcs_sc])
   else
     os_system (format "{}/ConsensusCruncher/DCS_maker.py --infile {} --outfile {} --bedfile {}"
                  [code_dir host; sscs_sc; dcs_sc; py_str bedfile]));;
  (* Sort and index BAM files *)
  dcs_sc ← sort_index dcs_sc samtools;
  let sscs_sc_sing := format "{}/dcs_sc/{}.sscs.sc.singleton.bam" [sample_dir; identifier] in
  sscs_sc_sing ← sort_index sscs_sc_sing samtools;
  (* All Unique Molecules: merge DCS_SC + SSCS_SC singletons + uncorrected singletons *)
  let all_unique := format "{}/dcs_sc/{}.all.unique.dcs.bam" [sample_dir; identifier] in
  call (PyStr.split_char " "
          (format "{} merge {} {} {} {}"
             [py_str samtools; all_unique; dcs_sc; sscs_sc_sing; uncorrected]));;
  all_unique ← sort_index all_unique samtools;
  mret tt.

(** The removal of intermediate files, lines 287 to 301. *)
Definition cleanup_block (sample_dir identifier : string) : M unit :=
  os_remove (format "{}/{}.time_tracker.txt" [sample_dir; identifier]);;
  os_remove (format "{}/sssc/{}.badReads.bam" [sample_dir; identifier]);;
  (* Remove SSCSs that could not be formed into DCSs *)
  os_remove (format "{}/dcs/{}.sscs.singleton.sorted.bam" [sample_dir; identifier]);;
  os_remove (format "{}/dcs/{}.sscs.singleton.sorted.bam.bai" [sample_dir; identifier]);;
  (* Remove singleton correction files and only keep merged files *)
  os_remove (format "{}/sssc_sc/{}.singleton.correction.sorted.bam" [sample_dir; identifier]);;
  os_remove (format "{}/sssc_sc/{}.singleton.correction.sorted.bam.bai" [sample_dir; identifier]);;
  os_remove (format "{}/sssc_sc/{}.sscs.correction.sorted.bam" [sample_dir; identifier]);;
  os_remove (format "{}/sssc_sc/{}.sscs.correction.sorted.bam.bai" [sample_dir; identifier]);;
  os_remove (format "{}/sssc_sc/{}.uncorrected.sorted.bam" [sample_dir; identifier]);;
  os_remove (format "{}/sssc_sc/{}.uncorrected.sorted.bam.bai" [sample_dir; identifier]);;
  (* Remove SSCS_SC that could not be formed into DCSs *)
  os_remove (format "{}/dcs_sc/{}.sscs.sc.singleton.sorted.bam" [sample_dir; identifier]);;
  os_remove (format "{}/dcs_sc/{}.sscs.sc.singleton.sorted.bam.bai" [sample_dir; identifier]).

(** The relocation of statistics, timing log, plot and family table to
    the sample's directory, lines 276 to 283. *)
Definition relocation_block (sample_dir identifier : string) : M unit :=
  os_rename (format "{}/dcs_sc/{}.stats.txt" [sample_dir; identifier])
            (format "{}/{}.stats.txt" [sample_dir; identifier]);;
  os_rename (format "{}/dcs_sc/{}.time_tracker.txt" [sample_dir; identifier])
            (format "{}/{}.time_tracker.txt" [sample_dir; identifier]);;
  os_rename (format "{}/sscs/{}_tag_fam_size.png" [sample_dir; identifier])
            (format "{}/{}_tag_fam_size.png" [sample_dir; identifier]);;
  os_rename (format "{}/sscs/{}.read_families.txt" [sample_dir; identifier])
            (format "{}/{}.read_families.txt" [sample_dir; identifier]).

Definition consensus (args : gmap string pyval) : M unit :=
  (* Create sample directory to hold consensus sequences *)
  bam ← getattr args "bam";
  bam_s ← as_str bam;
  let identifier := PyStr.before_first ".bam" (PyStr.basename bam_s) in
  c_output ← getattr args "c_output";
  let sample_dir := format "{}/{}" [py_str c_output; identifier] in
  (* Check if dir exists and there's permission to write *)
  ex ← os_path_exists sample_dir;
  (if negb ex
   then output ← getattr args "output"; out ← as_str output; ok ← os_access_W out;
        if ok : bool then os_makedirs sample_dir else mret tt
   else mret tt);;
  (* SSCS *)
  os_makedirs (sample_dir +:+ "/sscs");;
  let sscs := format "{}/sscs/{}.sscs.bam" [sample_dir; identifier] in
  let sing := format "{}/sscs/{}.singleton.bam" [sample_dir; identifier] in
  (* Run SSCS_maker *)
  bedfile ← getattr args "bedfile";
  cutoff ← getattr args "cutoff";
  (if is_False bedfile then
     os_system (format "{}/ConsensusCruncher/SSCS_maker.py --infile {} --outfile {} --cutoff {}"
                  [code_dir host; py_str bam; sscs; py_str cutoff])
   else
     os_system (format
       "{}/ConsensusCruncher/SSCS_maker.py --infile {} --outfile {} --cutoff {} --bedfile {}"
       [code_dir host; py_str bam; sscs; py_str cutoff; py_str bedfile]));;
  (* Sort and index BAM files *)
  samtools ← getattr args "samtools";
  sscs ← sort_index sscs samtools;
  sing ← sort_index sing samtools;
  (* DCS *)
  os_makedirs (sample_dir +:+ "/dcs");;
  let dcs := format "{}/dcs/{}.dcs.bam" [sample_dir; identifier] in
  let sscs_sing := format "{}/dcs/{}.sscs.singleton.bam" [sample_dir; identifier] in
  (* Move stats and time tracker file to next dir *)
  os_rename (format "{}/sscs/{}.stats.txt" [sample_dir; identifier])
            (format "{}/dcs/{}.stats.txt" [sample_dir; identifier]);;
  os_rename (format "{}/sscs/{}.time_tracker.txt" [sample_dir; identifier])
            (format "{}/dcs/{}.time_tracker.txt" [sample_dir; identifier]);;
  (* Run DCS_maker *)
  (if is_False bedfile then
     os_system (format "{}/ConsensusCruncher/DCS_maker.py --infile {} --outfile {}"
                  [code_dir host; sscs; dcs])
   else
     os_system (format "{}/ConsensusCruncher/DCS_maker.py --infile {} --outfile {} --bedfile {}"
                  [code_dir host; sscs; dcs; py_str bedfile]));;
  (* Sort and index BAM files *)
  dcs ← sort_index dcs samtools;
  sscs_sing ← sort_index sscs_sing samtools;
  (* Singleton Correction (SC) *)
  scorrect ← getattr args "scorrect";
  (if is_True scorrect
   then singleton_correction_block args sample_dir identifier sscs sing
   else mret tt);;
  (* Move stats and time tracker file to sample dir *)
  relocation_block sample_dir identifier;;
  (* Remove intermediate files *)
  cleanup ← getattr args "cleanup";
  (if is_True cleanup then cleanup_block sample_dir identifier else mret tt).

(** *** The argument parsers of the [__main__] block

    [argparse] is modelled for command lines made of [flag value] pairs
    with the option strings written out in full; the value is the string
    that [argparse] hands to the option. *)

Inductive argtype := TStr | TBool | TFloat.

Record action := {
  flags : list string;
  dest : string;
  atype : argtype;
  choices : option (list pyval);
  default_kw : option pyval
}.

(** [type(s)] for the three types the script uses; [bool] of a string is
    [False] for the empty string only. *)
Definition convert (t : argtype) (s : string) : option pyval :=
  match t with
  | TStr => Some (PyStr s)
  | TBool => Some (PyBool (negb (String.eqb s "")))
  | TFloat => PyFloat <$> float_of_string host s
  end.

(** A value given on the command line: converted, then checked against
    [choices]. *)
Definition get_value (a : action) (s : string) : option pyval :=
  v ← convert (atype a) s;
  match choices a with
  | Some cs => if bool_decide (v ∈ cs) then Some v else None
  | None => Some v
  end.

(** A sub-parser: what [set_defaults] had stored when the arguments were
    added, the arguments, and the function stored by the last
    [set_defaults(func=...)]. *)
Record parser := {
  early_defaults : gmap string pyval;
  actions : list action;
  func : subcmd
}.

Definition parser_defaults (p : parser) : gmap string pyval :=
  <["func" := PyFunc (func p)]> (early_defaults p).

(** The default of an argument: the [default=] keyword when given, else
    the parser-level default of its [dest], else [None]. *)
Definition action_default (p : parser) (a : action) : pyval :=
  match default_kw a with
  | Some v => v
  | None => default PyNone (early_defaults p !! dest a)
  end.

(** The argument an option string belongs to.  Only the option strings
    themselves are looked for: an unambiguous beginning of a long option,
    which [argparse] takes for the option, finds nothing here. *)
Definition find_action (p : parser) (flag : string) : option action :=
  List.find (fun a => bool_decide (flag ∈ flags a)) (actions p).

(** The namespace before the command line is read: the defaults of the
    arguments first, then the parser-level defaults not yet present. *)
Definition initial_namespace (p : parser) : gmap string pyval :=
  foldl (fun ns a => match ns !! dest a with
                     | None => <[dest a := action_default p a]> ns
                     | Some _ => ns
                     end) ∅ (actions p)
  ∪ parser_defaults p.

(** Reading the options from left to right; the result also lists the
    [dest]s that were seen.  [None] is the parser's error exit. *)
Fixpoint consume (p : parser) (opts : list (string * string))
    (ns : gmap string pyval) (seen : list string)
    : option (gmap string pyval * list string) :=
  match opts with
  | [] => Some (ns, seen)
  | (flag, s) :: rest =>
      a ← find_action p flag;
      v ← get_value a s;
      consume p rest (<[dest a := v]> ns) (dest a :: seen)
  end.

(** A string default of an argument that was not seen is converted by the
    argument's type at the end. *)
Definition convert_default (p : parser) (seen : list string)
    (ons : option (gmap string pyval)) (a : action) : option (gmap string pyval) :=
  ns ← ons;
  if bool_decide (dest a ∈ seen) then Some ns
  else match action_default p a with
       | PyStr s =>
           if bool_decide (ns !! dest a = Some (PyStr s))
           then v ← convert (atype a) s; Some (<[dest a := v]> ns)
           else Some ns
       | _ => Some ns
       end.

(** [parse_known_args] of a sub-parser. *)
Definition parse_sub (p : parser) (opts : list (string * string))
    : option (gmap string pyval) :=
  '(ns, seen) ← consume p opts (initial_namespace p) [];
  foldl (convert_default p seen) (Some ns) (actions p).

(** *** The [__main__] block *)

Definition fastq1_help : string := "FASTQ containing Read 1 of paired-end reads.".
Definition fastq2_help : string := "FASTQ containing Read 2 of paired-end reads.".
Definition output_help : string :=
  "Output directory, where barcode extracted FASTQ and BAM files will be placed in "
  +:+ "subdirectories 'fastq_tag' and 'bamfiles' respectively (dir will be created if they "
  +:+ "do not exist).".
Definition bwa_help : string := "Path to executable bwa.".
Definition samtools_help : string := "Path to executable samtools".
Definition ref_help : string := "Reference (BWA index).".
Definition cinput_help : string := "Input BAM file.".
Definition coutput_help : string :=
  "Output directory, where a folder will be created for the BAM file and consensus sequences are "
  +:+ "outputted.".
Definition cleanup_help : string := "Remove intermediate files.".

(** Line 349: the default region list. *)
Definition bedfile : string := format "{}/ConsensusCruncher/cytoBand.txt" [code_dir host].

(** Lines 355 to 369: the dictionary [defaults]. *)
Definition base_defaults : gmap string pyval :=
  list_to_map
    [ ("fastq1", PyStr fastq1_help);
      ("fastq2", PyStr fastq2_help);
      ("output", PyStr output_help);
      ("name", PyStr "_R");
      ("bwa", PyStr bwa_help);
      ("ref", PyStr ref_help);
      ("samtools", PyStr samtools_help);
      ("bpattern", PyNone);
      ("blist", PyNone);
      ("bam", PyStr cinput_help);
      ("c_output", PyStr coutput_help);
      ("scorrect", PyBool true);
      ("bedfile", PyStr bedfile);
      ("cutoff", PyFloat "0.7");
      ("cleanup", PyStr cleanup_help) ].

Definition arg (fl : list string) (d : string) (t : argtype) : action :=
  {| flags := fl; dest := d; atype := t; choices := None; default_kw := None |}.

(** Lines 383 to 391. *)
Definition fastq2bam_actions : list action :=
  [ arg ["--fastq1"] "fastq1" TStr;
    arg ["--fastq2"] "fastq2" TStr;
    arg ["-o"; "--output"] "output" TStr;
    arg ["-n"; "--name"] "name" TStr;
    arg ["-b"; "--bwa"] "bwa" TStr;
    arg ["-r"; "--ref"] "ref" TStr;
    arg ["-s"; "--samtools"] "samtools" TStr;
    arg ["-p"; "--bpattern"] "bpattern" TStr;
    arg ["-l"; "--blist"] "blist" TStr ].

(** Lines 395 to 403. *)
Definition consensus_actions : list action :=
  [ arg ["-i"; "--input"] "bam" TStr;
    arg ["-o"; "--output"] "c_output" TStr;
    arg ["-s"; "--samtools"] "samtools" TStr;
    {| flags := ["--scorrect"]; dest := "scorrect"; atype := TBool;
       choices := Some [PyBool true; PyBool false]; default_kw := None |};
    {| flags := ["-b"; "--bedfile"]; dest := "bedfile"; atype := TStr;
       choices := None; default_kw := Some (PyStr bedfile) |};
    arg ["-c"; "--cutoff"] "cutoff" TFloat;
    {| flags := ["--cleanup"]; dest := "cleanup"; atype := TBool;
       choices := Some [PyBool true; PyBool false]; default_kw := None |} ].

(** What [configparser] reads from the file given with [-c]: the items of
    the two sections, a section being [None] when the file lacks it. *)
Record config_file := {
  sec_fastq2bam : option (gmap string string);
  sec_consensus : option (gmap string string)
}.

(** The command line: [-c FILE] before the sub-command, the sub-command,
    and its options. *)
Record cmdline := {
  cl_config : option (string * config_file);
  cl_sub : option (subcmd * list (string * string))
}.

(** Lines 354 to 380: the parser-level defaults of the two sub-parsers.
    Without a configuration file [set_defaults] is not called. *)
Definition config_defaults (cl : cmdline)
    : M (gmap string pyval * gmap string pyval) :=
  match cl_config cl with
  | None => mret (∅, ∅)
  | Some (_, cfg) =>
      items_a ← of_option (sec_fastq2bam cfg) (NoSectionError "fastq2bam");
      let defaults_a := (PyStr <$> items_a) ∪ base_defaults in
      items_b ← of_option (sec_consensus cfg) (NoSectionError "consensus");
      let defaults_b := (PyStr <$> items_b) ∪ defaults_a in
      mret (defaults_a, defaults_b)
  end.

Definition sub_a (d : gmap string pyval) : parser :=
  {| early_defaults := d; actions := fastq2bam_actions; func := Fastq2bam |}.
Definition sub_b (d : gmap string pyval) : parser :=
  {| early_defaults := d; actions := consensus_actions; func := Consensus |}.

Definition subcmd_name (c : subcmd) : string :=
  match c with Fastq2bam => "fastq2bam" | Consensus => "consensus" end.

Definition sub_parser (da db : gmap string pyval) (c : subcmd) : parser :=
  match c with Fastq2bam => sub_a da | Consensus => sub_b db end.

(** Line 407, [main_p.parse_args()]: the attributes of the sub-parser's
    namespace are copied over those of the main parser. *)
Definition parse_args (da db : gmap string pyval) (cl : cmdline)
    : M (gmap string pyval) :=
  let config := match cl_config cl with
                | Some (path, _) => PyStr path
                | None => PyNone
                end in
  match cl_sub cl with
  | None => mret (<["config" := config]> (<["subparser_name" := PyNone]> ∅))
  | Some (c, opts) =>
      ns ← of_option (parse_sub (sub_parser da db c) opts) (SystemExit 2);
      mret (ns ∪ <["config" := config]> (<["subparser_name" := PyStr (subcmd_name c)]> ∅))
  end.

(** [args.func(args)] *)
Definition call_func (args : gmap string pyval) : M unit :=
  f ← getattr args "func";
  match f with
  | PyFunc Fastq2bam => fastq2bam args
  | PyFunc Consensus => consensus args
  | _ => raise TypeError
  end.

(** [args.name is None], and Python's lazy [or]. *)
Definition attr_is_None (args : gmap string pyval) (name : string) : M bool :=
  v ← getattr args name; mret (is_None v).

Fixpoint any_of (tests : list (M bool)) : M bool :=
  match tests with
  | [] => mret false
  | t :: rest => b ← t; if b : bool then mret true else any_of rest
  end.

(** Lines 412 to 433.  [sub_a.error] prints the usage and leaves with
    exit status 2. *)
Definition dispatch_fastq2bam (args : gmap string pyval) : M unit :=
  (* Check if required arguments provided *)
  missing ← any_of (attr_is_None args <$>
                      ["fastq1"; "fastq2"; "output"; "bwa"; "ref"; "samtools"]);
  if missing : bool then raise (SystemExit 2)
  else
    (* Check if either barcode pattern or list is set *)
    bpattern ← getattr args "bpattern";
    none ← (if is_None bpattern then attr_is_None args "blist" else mret false);
    if none : bool then raise (SystemExit 2)
    else
      (* Check proper barcode design provided for barcode pattern *)
      pat ← as_str bpattern;
      if outside_class "A|C|G|T|N" pat
      then raise (ValueError
             "Invalid barcode pattern containing characters other than A, C, G, T, and N.")
      else
        blist ← getattr args "blist";
        if negb (is_None blist) then
          (* Check list for faulty barcodes in list *)
          path ← as_str blist;
          text ← read_text path;
          let blist := splitlines text in
          if outside_class "ACGTN" (PyStr.join "" blist)
          then raise (ValueError
                 "List contains invalid barcodes. Please specify barcodes with A|C|G|T.")
          else call_func args
        else call_func args.

(** Lines 434 to 440. *)
Definition dispatch_consensus (args : gmap string pyval) : M unit :=
  missing ← any_of (attr_is_None args <$> ["bam"; "c_output"; "samtools"]);
  if missing : bool then raise (SystemExit 2)
  else call_func args.

Definition dispatch (args : gmap string pyval) : M unit :=
  name ← getattr args "subparser_name";
  if is_None name then print_help
  else if bool_decide (name = PyStr "fastq2bam") then dispatch_fastq2bam args
  else if bool_decide (name = PyStr "consensus") then dispatch_consensus args
  else print_help.

(** Lines 352 to 407: from the command line to the namespace [args]. *)
Definition read_args (cl : cmdline) : M (gmap string pyval) :=
  '(da, db) ← config_defaults cl;
  parse_args da db cl.

Definition main (cl : cmdline) : M unit :=
  args ← read_args cl;
  dispatch args.

End Script.

(** ** A host that honours the file contracts *)

Module Contract.

Fixpoint arg_after (flag : string) (ws : list string) : option string :=
  match ws with
  | a :: rest =>
      match rest with
      | b :: _ => if String.eqb a flag then Some b else arg_after flag rest
      | [] => None
      end
  | [] => None
  end.

Definition add_files (l : list string) (f : FS) : FS :=
  {| files := files f ∪ list_to_set l; dirs := dirs f |}.

Fixpoint strip_prefix (p s : string) : option string :=
  match p, s with
  | EmptyString, _ => Some s
  | String a p', String b s' => if Ascii.eqb a b then strip_prefix p' s' else None
  | String _ _, EmptyString => None
  end.

(** What follows the first occurrence of [sep] in [s]. *)
Fixpoint after_first (sep s : string) : string :=
  match strip_prefix sep s with
  | Some r => r
  | None => match s with
            | String _ s' => after_first sep s'
            | EmptyString => EmptyString
            end
  end.

(** Modelled from the spec: the engine scripts ([SSCS_maker.py],
    [DCS_maker.py], [singleton_correction.py], [extract_barcodes.py]) are
    not part of the source under study.  Each is given the artifacts that
    section 6 of the specification lists for it (consensus, singleton,
    unpaired and correction alignment files, the statistics file, the
    timing log, the family-size plot), under the names the driver looks
    for next to the file named on the command line. *)
Definition system_effect (cmd : string) (f : FS) : FS :=
  let ws := PyStr.split_char " " cmd in
  let script := hd EmptyString ws in
  if PyStr.contains "/SSCS_maker.py" script then
    match arg_after "--outfile" ws with
    | Some out =>
        let d := PyStr.dirname out in
        let id := PyStr.before_first ".sscs" (PyStr.basename out) in
        add_files [ out;
                    format "{}/{}.singleton.bam" [d; id];
                    format "{}/{}.badReads.bam" [d; id];
                    format "{}/{}.stats.txt" [d; id];
                    format "{}/{}.time_tracker.txt" [d; id];
                    format "{}/{}_tag_fam_size.png" [d; id];
                    format "{}/{}.read_families.txt" [d; id] ] f
    | None => f
    end
  else if PyStr.contains "/DCS_maker.py" script then
    match arg_after "--outfile" ws with
    | Some out =>
        let d := PyStr.dirname out in
        let base := PyStr.basename out in
        let id := PyStr.before_first ".dcs" base in
        let stage := PyStr.before_first ".bam" (after_first ".dcs" base) in
        add_files [ out; format "{}/{}.sscs{}.singleton.bam" [d; id; stage] ] f
    | None => f
    end
  else if PyStr.contains "/singleton_correction.py" script then
    match arg_after "--singleton" ws with
    | Some sing =>
        let d := PyStr.dirname sing in
        let id := PyStr.before_first ".singleton" (PyStr.basename sing) in
        add_files [ format "{}/{}.sscs.correction.bam" [d; id];
                    format "{}/{}.singleton.correction.bam" [d; id];
                    format "{}/{}.uncorrected.bam" [d; id] ] f
    | None => f
    end
  else if PyStr.contains "/extract_barcodes.py" script then
    match arg_after "--outfile" ws with
    | Some out => add_files [ out +:+ "_barcode_R1.fastq"; out +:+ "_barcode_R2.fastq" ] f
    | None => f
    end
  else f.

(** Modelled from the spec: [samtools] and [bwa] are external programs.
    [samtools index] writes the index next to its input, [samtools merge]
    writes its first operand; [view], [sort] and [bwa mem] write to their
    standard output only. *)
Definition spawn_effect (argv : list string) (f : FS) : FS :=
  match argv with
  | _ :: verb :: target :: _ =>
      if String.eqb verb "index" then add_files [target +:+ ".bai"] f
      else if String.eqb verb "merge" then add_files [target] f
      else f
  | _ => f
  end.

Definition effect (ev : event) (f : FS) : FS :=
  match ev with
  | Ev_system cmd => system_effect cmd f
  | Ev_spawn argv => spawn_effect argv f
  | Ev_help => f
  end.

(** Decimal literals with one dot and digits on both sides of it, which
    [float] reads and [repr] prints back unchanged when they are written
    in shortest form.  This is one host's reading, for the runs below:
    [float] itself reads more (['1'], ['1e-1'], ['.5']) and prints
    ['0.70'] back as ['0.7']; what holds of every host does not rest on
    it. *)
Definition is_digit (c : ascii) : bool :=
  let n := nat_of_ascii c in (48 <=? n) && (n <=? 57).

Definition decimal_literal (s : string) : option string :=
  match PyStr.split_char "." s with
  | [i; d] =>
      if negb (String.eqb i "") && negb (String.eqb d "")
         && negb (PyStr.existsb (fun c => negb (is_digit c)) (i +:+ d))
      then Some s else None
  | _ => None
  end.

Definition host (texts : string -> string) : Host :=
  {| code_dir := "/opt/cc";
     tool_effect := effect;
     file_text := texts;
     float_of_string := decimal_literal;
     writable := fun _ => true |}.

End Contract.

(** ** The SSCS caller *)

Module Sscs.

Inductive base := A | C | G | T | N.

Global Instance base_eq_dec : EqDecision base.
Proof. solve_decision. Defined.

(** A read is kept by its bases, from the alignment start that the reads
    of a family share; a family is the list of its reads, in the order
    the grouper hands them over. *)
Definition read := list base.
Definition family := list read.

(** Modelled from the spec: the bases of one alignment column, from the
    reads that cover it ("every alignment column covered by at least one
    read"). *)
Definition column (fam : family) (i : nat) : list base :=
  omap (λ r : read, r !! i) fam.


(** Modelled from the spec: the tally of section 4.3, the script
    [SSCS_maker.py] not being part of the source under study.  Bases are
    entered in the order in which they are first seen. *)
Fixpoint tally_add (b : base) (t : list (base * nat)) : list (base * nat) :=
  match t with
  | [] => [(b, 1)]
  | (b', n) :: rest =>
      if bool_decide (b = b') then (b', S n) :: rest else (b', n) :: tally_add b rest
  end.

Definition tally (col : list base) : list (base * nat) :=
  foldl (λ t b, tally_add b t) [] col.

(** Modelled from the spec: the majority base is the one with the
    highest tally, the first seen winning a tie. *)
Fixpoint majority (t : list (base * nat)) : option (base * nat) :=
  match t with
  | [] => None
  | (b, n) :: rest =>
      match majority rest with
      | Some (b', n') => if n <? n' then Some (b', n') else Some (b, n)
      | None => Some (b, n)
      end
  end.



(** Modelled from the spec: "a column is called with the majority base
    if [count(base) / family_size ≥ cutoff]; else the column is called
    N", the comparison being one of exact rationals. *)
Definition call_column (cutoff : Q) (family_size : nat) (col : list base) : base :=
  match majority (tally col) with
  | Some (b, n) =>
      if Qle_bool cutoff (Z.of_nat n # Pos.of_nat family_size) then b else N
  | None => N
  end.

(** Modelled from the spec: the alignment window of a family, the union
    span of its reads, which start together. *)
Definition span (fam : family) : nat := foldr (λ r m, length r `max` m) 0 fam.

(** Modelled from the spec: the consensus has one call per column of the
    window; a family of size one gives the bases of its read verbatim. *)
Definition sscs_call (cutoff : Q) (fam : family) : list base :=
  match fam with
  | [r] => r
  | _ => (λ i, call_column cutoff (length fam) (column fam i)) <$> seq 0 (span fam)
  end.

End Sscs.

(** ** Runs on a host that honours the contracts *)

Module Runs.

Definition host : Host := Contract.host (λ _, "").

(** One aligned-read file, an output directory with the sample's
    directory already made, and nothing else. *)
Definition world : World :=
  {| fs := {| files := {["/data/s1.bam"]};
              dirs := {["/data"]} ∪ {["/out"]} ∪ {["/out/s1"]} |};
     trace := [] |}.

(** The [os.system] command lines of a trace: the calls of the engine
    scripts. *)
Definition engine_calls (t : list event) : list string :=
  omap (λ ev, match ev with Ev_system cmd => Some cmd | _ => None end) t.

(** The [samtools merge] calls of a trace. *)
Definition merges (t : list event) : list (list string) :=
  omap (λ ev, match ev with
              | Ev_spawn (st :: verb :: rest) =>
                  if String.eqb verb "merge" then Some (st :: verb :: rest) else None
              | _ => None
              end) t.

Definition consensus_cmd (opts : list (string * string)) : cmdline :=
  {| cl_config := None; cl_sub := Some (Consensus, opts) |}.

Definition basic : list (string * string) :=
  [("-i", "/data/s1.bam"); ("-o", "/out"); ("-s", "samtools"); ("-c", "0.7")].

(** The namespace a command line is parsed to (empty when the parser
    leaves with an error). *)
Definition parsed (cl : cmdline) (w : World) : gmap string pyval :=
  match fst (read_args host cl w) with
  | Ret args => args
  | Raise _ => ∅
  end.

End Runs.

(** A configuration file for the precedence of the command line. *)
Module Precedence.

(** A configuration file that sets, among others, the input file, the
    cut-off and the two switches of [consensus]. *)
Definition config : config_file :=
  {| sec_fastq2bam := Some (list_to_map [("output", "/cfg/out")]);
     sec_consensus := Some (list_to_map
       [("bam", "/cfg/other.bam"); ("c_output", "/cfg/out"); ("samtools", "/cfg/samtools");
        ("cutoff", "0.5"); ("scorrect", "False"); ("cleanup", "False")]) |}.

Definition with_config (opts : list (string * string)) : cmdline :=
  {| cl_config := Some ("config.ini", config); cl_sub := Some (Consensus, opts) |}.

(** A configuration file whose [consensus] section names the tool, the
    output directory, the cut-off and a region list. *)
Definition config_regions : config_file :=
  {| sec_fastq2bam := Some ∅;
     sec_consensus := Some (list_to_map
       [("samtools", "/cfg/samtools"); ("c_output", "/out"); ("cutoff", "0.5");
        ("bedfile", "/cfg/regions.bed")]) |}.

(** [ConsensusCruncher.py -c config.ini consensus -i /data/s1.bam -s samtools]. *)
Definition with_regions : cmdline :=
  {| cl_config := Some ("config.ini", config_regions);
     cl_sub := Some (Consensus, [("-i", "/data/s1.bam"); ("-s", "samtools")]) |}.

End Precedence.

(** A [fastq2bam] call with its required arguments. *)
Module ListOnly.

Definition world : World :=
  {| fs := {| files := {["/data/s1_R1.fastq"]} ∪ {["/data/s1_R2.fastq"]}
                       ∪ {["/data/barcodes.txt"]};
              dirs := {["/data"]} ∪ {["/out"]} |};
     trace := [] |}.

Definition required : list (string * string) :=
  [("--fastq1", "/data/s1_R1.fastq"); ("--fastq2", "/data/s1_R2.fastq");
   ("-o", "/out"); ("-n", "_R"); ("-b", "bwa"); ("-r", "/ref/hg19.fa");
   ("-s", "samtools")].

Definition cmd (opts : list (string * string)) : cmdline :=
  {| cl_config := None; cl_sub := Some (Fastq2bam, required ++ opts) |}.

End ListOnly.

(** Configuration files and command lines for the further properties. *)
Module Scenes.

(** A file whose [fastq2bam] section names the tools and whose
    [consensus] section sets a region list and the correction switch. *)
Definition config : config_file :=
  {| sec_fastq2bam := Some (list_to_map [("samtools", "/cfg/samtools"); ("bwa", "/cfg/bwa")]);
     sec_consensus := Some (list_to_map
       [("bedfile", "/cfg/regions.bed"); ("scorrect", "False"); ("c_output", "/out")]) |}.

(** A file whose [consensus] section alone names [samtools]. *)
Definition config_consensus_only : config_file :=
  {| sec_fastq2bam := Some ∅;
     sec_consensus := Some (list_to_map [("samtools", "/cfg/samtools")]) |}.

(** A file without a [fastq2bam] section. *)
Definition config_one_section : config_file :=
  {| sec_fastq2bam := None;
     sec_consensus := Some (list_to_map [("samtools", "/cfg/samtools")]) |}.

Definition consensus_with (cfg : config_file) (opts : list (string * string)) : cmdline :=
  {| cl_config := Some ("config.ini", cfg); cl_sub := Some (Consensus, opts) |}.

Definition fastq2bam_with (cfg : config_file) (opts : list (string * string)) : cmdline :=
  {| cl_config := Some ("config.ini", cfg); cl_sub := Some (Fastq2bam, opts) |}.

Definition fastq2bam_cmd (opts : list (string * string)) : cmdline :=
  {| cl_config := None; cl_sub := Some (Fastq2bam, opts) |}.

(** A host whose barcode list is well formed, with both kinds of line
    end. *)
Definition valid_list_host : Host :=
  Contract.host (λ _, "ACGT" +:+ String LF ("NNAC" +:+ String CR (String LF "TTGA"))).

(** A host whose barcode list has a faulty second line. *)
Definition faulty_list_host : Host :=
  Contract.host (λ _, "ACGT" +:+ String LF "ACXT").

(** A consensus file in a directory whose name has [.bam] in it. *)
Definition nested_world : World :=
  {| fs := {| files := {["/runs/x.bam.d/s1.sscs.bam"]};
              dirs := {["/runs"]} ∪ {["/runs/x.bam.d"]} |};
     trace := [] |}.


(** An output directory without the sample's directory. *)
Definition fresh_world : World :=
  {| fs := {| files := {["/data/s1.bam"]}; dirs := {["/data"]} ∪ {["/out"]} |};
     trace := [] |}.

(** A sample that has been through the command once. *)
Definition second_run_world : World :=
  {| fs := {| files := {["/data/s1.bam"]};
              dirs := {["/data"]} ∪ {["/out"]} ∪ {["/out/s1"]} ∪ {["/out/s1/sscs"]} |};
     trace := [] |}.

End Scenes.

(** ** The vocabulary of the statements *)

Section Vocabulary.

Variable host : Host.

(** What the command line says about a [dest]: the converted value of the
    last option that stores into it. *)
Fixpoint cli_value (p : parser) (opts : list (string * string)) (d : string)
    : option pyval :=
  match opts with
  | [] => None
  | (flag, s) :: rest =>
      match cli_value p rest d with
      | Some v => Some v
      | None =>
          a ← find_action p flag;
          if bool_decide (dest a = d) then get_value host a s else None
      end
  end.

(** The last value given to an option string on the command line. *)
Fixpoint last_value (flag : string) (opts : list (string * string)) : option string :=
  match opts with
  | [] => None
  | (f, s) :: rest =>
      match last_value flag rest with
      | Some v => Some v
      | None => if String.eqb f flag then Some s else None
      end
  end.

(** The two [type=bool] options of [consensus]. *)
Definition bool_options : list (string * string) :=
  [("--scorrect", "scorrect"); ("--cleanup", "cleanup")].

(** The arguments [fastq2bam] cannot do without. *)
Definition required_fastq2bam : list string :=
  ["fastq1"; "fastq2"; "output"; "bwa"; "ref"; "samtools"].

(** A character that makes a barcode list invalid: not a line end and
    not one of A, C, G, T, N. *)
Definition invalid_in_list (c : ascii) : bool :=
  negb (is_linebreak c) && negb (PyStr.mem c "ACGTN").

(** The first argument of a parser that stores into [d]. *)
Definition first_for (p : parser) (d : string) : option action :=
  List.find (λ a, bool_decide (dest a = d)) (actions p).

(** An attribute all of whose arguments have [type=str] stays a string
    once it is one. *)
Definition str_valued (ns : gmap string pyval) (d : string) : Prop :=
  ∃ s, ns !! d = Some (PyStr s).

(** The parser-level defaults of [consensus] that a command line leads
    to: none without a configuration file, else the dictionary
    [defaults] updated with the two sections. *)
Definition consensus_defaults (cl : cmdline) (db : gmap string pyval) : Prop :=
  match cl_config cl with
  | None => db = ∅
  | Some (_, cfg) =>
      ∃ ia ib, sec_fastq2bam cfg = Some ia ∧ sec_consensus cfg = Some ib
               ∧ db = (PyStr <$> ib) ∪ ((PyStr <$> ia) ∪ base_defaults host)
  end.


(** Some option of the command line stores into the argument. *)
Definition given (a : action) (opts : list (string * string)) : bool :=
  List.existsb (λ o, bool_decide (o.1 ∈ flags a)) opts.

(** What an argument left off the command line ends with: its default, a
    string default being converted by the argument's type. *)
Definition converted_default (p : parser) (a : action) : option pyval :=
  match action_default p a with
  | PyStr s => convert host (atype a) s
  | v => Some v
  end.

(** The parser-level defaults of the two sub-parsers that a command line
    leads to. *)
Definition sub_defaults (cl : cmdline) (da db : gmap string pyval) : Prop :=
  match cl_config cl with
  | None => da = ∅ ∧ db = ∅
  | Some (_, cfg) =>
      ∃ ia ib, sec_fastq2bam cfg = Some ia ∧ sec_consensus cfg = Some ib
               ∧ da = (PyStr <$> ia) ∪ base_defaults host
               ∧ db = (PyStr <$> ib) ∪ da
  end.

(** A command line whose options are all option strings of the parser,
    written in full.  [argparse] also takes an unambiguous beginning of
    a long option for the option; such command lines are outside the
    embedding, whose parser refuses them. *)
Definition written_in_full (p : parser) (opts : list (string * string)) : Prop :=
  Forall (fun o => is_Some (find_action p o.1)) opts.

(** The attributes each sub-command tests for [None] before it runs. *)
Definition required (c : subcmd) : list string :=
  match c with
  | Fastq2bam => required_fastq2bam
  | Consensus => ["bam"; "c_output"; "samtools"]
  end.

(** A configuration file, when one is given, has both sections. *)
Definition sections_present (cl : cmdline) : Prop :=
  ∀ path cfg, cl_config cl = Some (path, cfg) →
              is_Some (sec_fastq2bam cfg) ∧ is_Some (sec_consensus cfg).

(** Two strings that differ at a position both of them have. *)
Fixpoint clash (s t : string) : bool :=
  match s, t with
  | String a s', String b t' => negb (Ascii.eqb a b) || clash s' t'
  | _, _ => false
  end.

(** Two endings neither of which ends the other. *)
Definition ends_differ (s t : string) : bool := clash (String.rev s) (String.rev t).

(** A template cut at its first field: the text before the field and
    the template after it. *)
Fixpoint cut_field (t : string) : option (string * string) :=
  match t with
  | EmptyString => None
  | String c t' =>
      match t' with
      | String d t'' =>
          if Ascii.eqb c "{" && Ascii.eqb d "}" then Some (EmptyString, t'')
          else '(m, s) ← cut_field t'; Some (String c m, s)
      | EmptyString => None
      end
  end.

(** The templates of the script's file names: a field and a suffix, or
    two fields with text between them and a suffix. *)
Definition template1 (t : string) : option string :=
  match cut_field t with
  | Some (EmptyString, s) => if cut_field s is None then Some s else None
  | _ => None
  end.

Definition template2 (t : string) : option (string * string) :=
  match cut_field t with
  | Some (EmptyString, r) =>
      match cut_field r with
      | Some (m, s) => if cut_field s is None then Some (m, s) else None
      | None => None
      end
  | _ => None
  end.

(** A program that does not write the file [p]. *)
Definition leaves_out (p : string) (ev : event) : Prop :=
  ∀ f, p ∉ files f → p ∉ files (tool_effect host ev f).

(** A computation that only adds to the trace, and that does not create
    the file [p] unless a program it starts does. *)
Definition tracks {A} (p : string) (m : M A) : Prop :=
  ∀ w r w', m w = (r, w') →
    ∃ l, trace w' = trace w ++ l
         ∧ (Forall (leaves_out p) l → p ∉ files (fs w) → p ∉ files (fs w')).

(** A computation that cannot return without the file [p], unless a
    program it starts writes the file. *)
Definition blocked {A} (p : string) (m : M A) : Prop :=
  ∀ w r w', m w = (r, w') →
    ∃ l, trace w' = trace w ++ l
         ∧ (Forall (leaves_out p) l → p ∉ files (fs w) → ∃ e, r = Raise e).

(** What a trace says of the engine scripts and of [samtools merge]. *)
Definition engine_call (ev : event) : option string :=
  match ev with Ev_system cmd => Some cmd | _ => None end.

Definition merge_call (ev : event) : option (list string) :=
  match ev with
  | Ev_spawn (st :: verb :: rest) =>
      if String.eqb verb "merge" then Some (st :: verb :: rest) else None
  | _ => None
  end.

(** A computation that only adds to the trace: when it returns, the
    programs it has started that [proj] picks out are those of [l], in
    this order, and its value is as [Q] says; when it raises, it has
    started the first few of them. *)
Definition emits {A X} (proj : event → option X) (m : M A) (l : list X) (Q : A → Prop)
    : Prop :=
  ∀ w r w', m w = (r, w') →
    ∃ new, trace w' = trace w ++ new
           ∧ match r with
             | Ret a => omap proj new = l ∧ Q a
             | Raise _ => omap proj new `prefix_of` l
             end.

(** The two attributes the main parser sets. *)
Definition main_attrs (cl : cmdline) (c : subcmd) : gmap string pyval :=
  <["config" := match cl_config cl with
                | Some (path, _) => PyStr path
                | None => PyNone
                end]> (<["subparser_name" := PyStr (subcmd_name c)]> ∅).

End Vocabulary.

(** * Theorems *)

(** ** Python's library at work *)

Example basename_ex : PyStr.basename "/data/bam/sample1.bam" = "sample1.bam".
Proof. reflexivity. Qed.
Example dirname_ex : PyStr.dirname "/data/bam/sample1.bam" = "/data/bam".
Proof. reflexivity. Qed.
Example prefixes_ex : PyStr.prefixes "/out/s1/sscs" = ["/out"; "/out/s1"; "/out/s1/sscs"].
Proof. reflexivity. Qed.
Example before_first_ex : PyStr.before_first ".bam" "s1.sscs.bam" = "s1.sscs".
Proof. reflexivity. Qed.
Example split_char_ex : PyStr.split_char " " "samtools view -bu x.bam"
                        = ["samtools"; "view"; "-bu"; "x.bam"].
Proof. reflexivity. Qed.
Example format_ex : format "{}/sscs/{}.sscs.bam" ["/out/s1"; "s1"] = "/out/s1/sscs/s1.sscs.bam".
Proof. reflexivity. Qed.
Example splitlines_ex :
  splitlines (String "A" (String CR (String LF (String "C" (String LF (String LF
                (String "G" (String LF ""))))))))
  = ["A"; "C"; ""; "G"].
Proof. reflexivity. Qed.

(** The scenarios of section 8. *)
Example two_of_three :
  Sscs.sscs_call (Qmake 7 10) [[Sscs.A]; [Sscs.A]; [Sscs.G]] = [Sscs.N].
Proof. reflexivity. Qed.
Example four_of_five :
  Sscs.sscs_call (Qmake 7 10) [[Sscs.A]; [Sscs.A]; [Sscs.A]; [Sscs.A]; [Sscs.G]]
  = [Sscs.A].
Proof. reflexivity. Qed.
Example seven_of_ten :
  Sscs.sscs_call (Qmake 7 10)
    [[Sscs.A]; [Sscs.G]; [Sscs.A]; [Sscs.A]; [Sscs.G];
     [Sscs.A]; [Sscs.A]; [Sscs.G]; [Sscs.A]; [Sscs.A]] = [Sscs.A].
Proof. reflexivity. Qed.
Example tie_goes_to_first_seen :
  Sscs.sscs_call (Qmake 1 2) [[Sscs.G; Sscs.A]; [Sscs.A; Sscs.G]] = [Sscs.G; Sscs.A].
Proof. reflexivity. Qed.

(** ** Facts about the parsers *)

Section ParserFacts.

Variable host : Host.

Lemma consume_cli_value p opts : ∀ ns seen ns' seen' d,
  consume host p opts ns seen = Some (ns', seen') →
  match cli_value host p opts d with
  | Some v => ns' !! d = Some v ∧ d ∈ seen'
  | None => ns' !! d = ns !! d ∧ (d ∈ seen' ↔ d ∈ seen)
  end.
Proof.
  induction opts as [|[flag s] rest IH]; intros ns seen ns' seen' d H; simpl in *.
  - by simplify_eq.
  - destruct (find_action p flag) as [a|] eqn:Ha; simpl in *; [|done].
    destruct (get_value host a s) as [v|] eqn:Hv; simpl in *; [|done].
    specialize (IH _ _ _ _ d H).
    destruct (cli_value host p rest d) as [v'|]; [done|].
    destruct IH as [Hns Hseen]. case_bool_decide as Hd.
    + subst d. rewrite Hns, lookup_insert_eq. split; [done|].
      apply Hseen, elem_of_cons. by left.
    + rewrite Hns, lookup_insert_ne by done. split; [done|].
        rewrite Hseen, elem_of_cons. split; [by intros [->|?] | by right].
Qed.

Lemma convert_default_None p seen a : convert_default host p seen None a = None.
Proof. done. Qed.

Lemma convert_defaults_None p seen acts :
  foldl (convert_default host p seen) None acts = None.
Proof. induction acts as [|a acts IH]; simpl; [done|]. exact IH. Qed.

(** Converting the defaults leaves alone what the command line has set. *)
Lemma convert_defaults_seen p seen acts : ∀ ns ns' d,
  foldl (convert_default host p seen) (Some ns) acts = Some ns' →
  d ∈ seen → ns' !! d = ns !! d.
Proof.
  induction acts as [|a acts IH]; intros ns ns' d H Hd.
  - simpl in H. by simplify_eq.
  - change (foldl (convert_default host p seen)
              (convert_default host p seen (Some ns) a) acts = Some ns') in H.
    destruct (convert_default host p seen (Some ns) a) as [ns1|] eqn:H1;
      [|by rewrite convert_defaults_None in H].
    rewrite (IH _ _ _ H Hd).
    unfold convert_default in H1; simpl in H1.
    case_bool_decide as Hs; [by simplify_eq|].
    destruct (action_default p a); simplify_eq; try done.
    case_bool_decide; [|by simplify_eq].
    destruct (convert host (atype a) s); simplify_eq/=.
    apply lookup_insert_ne. intros Heq. by rewrite Heq in Hs.
Qed.

(** The command line decides: an argument given on the command line is
    parsed to its converted command-line value, whatever the defaults. *)
Lemma parse_sub_cli_value p opts ns d v :
  parse_sub host p opts = Some ns →
  cli_value host p opts d = Some v →
  ns !! d = Some v.
Proof.
  unfold parse_sub. intros H Hv.
  destruct (consume host p opts (initial_namespace p) []) as [[ns1 seen]|] eqn:Hc;
    simpl in H; [|done].
  pose proof (consume_cli_value _ _ _ _ _ _ d Hc) as Hd. rewrite Hv in Hd.
  destruct Hd as [Hns Hseen].
  by rewrite (convert_defaults_seen _ _ _ _ _ _ H Hseen).
Qed.

Lemma find_action_in p flag a :
  find_action p flag = Some a → a ∈ actions p ∧ flag ∈ flags a.
Proof.
  unfold find_action. intros H. apply find_some in H as [Hin Hf].
  split; [by apply list_elem_of_In | by apply bool_decide_eq_true in Hf].
Qed.

(** The options are looked up in the arguments of the sub-command only:
    parser-level defaults play no part in what the command line says. *)
Lemma cli_value_defaults da db c opts d :
  cli_value host (sub_parser host da db c) opts d = cli_value host (sub_parser host ∅ ∅ c) opts d.
Proof.
  induction opts as [|[flag s] rest IH]; simpl; [done|].
  rewrite IH. by destruct c.
Qed.

(** What [read_args] returns comes from [parse_sub]. *)
Lemma read_args_inv cl w args w' c opts :
  read_args host cl w = (Ret args, w') →
  cl_sub cl = Some (c, opts) →
  ∃ da db ns, parse_sub host (sub_parser host da db c) opts = Some ns
              ∧ ∀ d v, ns !! d = Some v → args !! d = Some v.
Proof.
  unfold read_args, parse_args, config_defaults, mbind, M_bind, bind, mret, M_ret, ret.
  intros H Hsub. rewrite Hsub in H.
  destruct (cl_config cl) as [[path cfg]|]; simpl in H.
  - destruct (sec_fastq2bam cfg) as [ia|]; simpl in H; [|done].
    destruct (sec_consensus cfg) as [ib|]; simpl in H; [|done].
    match type of H with context [parse_sub host ?p opts] =>
      destruct (parse_sub host p opts) as [ns|] eqn:Hp end; simpl in H; [|done].
    simplify_eq. eexists _, _, ns. split; [exact Hp|].
    intros d v Hd. by apply lookup_union_Some_l.
  - match type of H with context [parse_sub host ?p opts] =>
      destruct (parse_sub host p opts) as [ns|] eqn:Hp end; simpl in H; [|done].
    simplify_eq. eexists _, _, ns. split; [exact Hp|].
    intros d v Hd. by apply lookup_union_Some_l.
Qed.

Lemma bool_option_action da db flag d :
  (flag, d) ∈ bool_options →
  ∃ a, find_action (sub_parser host da db Consensus) flag = Some a
       ∧ dest a = d ∧ flags a = [flag] ∧ atype a = TBool
       ∧ choices a = Some [PyBool true; PyBool false].
Proof.
  unfold bool_options. rewrite !elem_of_cons, elem_of_nil.
  intros [H|[H|[]]]; simplify_eq; eexists; (split; [reflexivity|done]).
Qed.

(** Python's [bool] of a string passes the [choices] check. *)
Lemma get_value_bool a s :
  atype a = TBool → choices a = Some [PyBool true; PyBool false] →
  get_value host a s = Some (PyBool (negb (String.eqb s ""))).
Proof.
  unfold get_value. intros -> ->. simpl.
  by destruct (String.eqb s "").
Qed.

Lemma cli_value_bool_option da db flag d opts :
  (flag, d) ∈ bool_options →
  cli_value host (sub_parser host da db Consensus) opts d
  = (λ s, PyBool (negb (String.eqb s ""))) <$> last_value flag opts.
Proof.
  intros Hfd. destruct (bool_option_action da db _ _ Hfd) as (a & Ha & Hd & Hfl & Ht & Hc).
  remember (sub_parser host da db Consensus) as p eqn:Hp.
  induction opts as [|[f s] rest IH]; simpl; [done|].
  rewrite IH. destruct (last_value flag rest) as [v|]; simpl; [done|].
  destruct (String.eqb_spec f flag) as [->|Hne].
  - rewrite Ha. simpl. rewrite bool_decide_true by done.
    by apply get_value_bool.
  - destruct (find_action p f) as [a'|] eqn:Ha'; simpl; [|done].
    case_bool_decide as Hd'; [|done]. exfalso.
    apply find_action_in in Ha' as [Hin Hf]. subst p. simpl in Hin.
    unfold bool_options in Hfd. rewrite !elem_of_cons, elem_of_nil in Hfd.
    unfold consensus_actions, arg in Hin.
    rewrite !elem_of_cons, elem_of_nil in Hin.
    destruct Hfd as [Heq|[Heq|[]]]; injection Heq as -> ->;
      repeat (destruct Hin as [Hin|Hin];
              [subst a'; simpl in Hd', Hf; try discriminate Hd';
               rewrite ?elem_of_cons, ?elem_of_nil in Hf; by destruct Hf as [?|[]]|]);
      destruct Hin.
Qed.

End ParserFacts.

Ltac by_compute :=
  match goal with
  | |- let _ := _ in _ => intro; by_compute
  | |- _ ∧ _ => split; by_compute
  | |- _ ∈ _ => apply (bool_decide_unpack _); vm_compute; exact I
  | |- _ ∉ _ => apply (bool_decide_unpack _); vm_compute; exact I
  | |- _ => vm_compute; reflexivity
  end.

(** ** Command line against configuration file *)

(** The command line goes first: for either sub-command and whatever
    the configuration file holds, an argument given on the command line
    is parsed to the value the command line gives it (the last option
    that stores into it, converted by the argument's type). *)
Theorem command_line_overrides_config host cl w args w' c opts d v :
  read_args host cl w = (Ret args, w') →
  cl_sub cl = Some (c, opts) →
  cli_value host (sub_parser host ∅ ∅ c) opts d = Some v →
  args !! d = Some v.
Proof.
  intros Hr Hsub Hv.
  destruct (read_args_inv host _ _ _ _ _ _ Hr Hsub) as (da & db & ns & Hp & Hargs).
  apply Hargs. eapply parse_sub_cli_value; [exact Hp|].
  by rewrite cli_value_defaults.
Qed.

Lemma command_line_overrides_config_witness :
  let cl := Precedence.with_config Runs.basic in
  let args := Runs.parsed cl Runs.world in
  read_args Runs.host cl Runs.world = (Ret args, Runs.world)
  ∧ cl_sub cl = Some (Consensus, Runs.basic)
  ∧ cli_value Runs.host (sub_parser Runs.host ∅ ∅ Consensus) Runs.basic "bam"
    = Some (PyStr "/data/s1.bam")
  ∧ args !! "bam" = Some (PyStr "/data/s1.bam").
Proof.
  intros cl args.
  assert (read_args Runs.host cl Runs.world = (Ret args, Runs.world)) as H1
    by (vm_cast_no_check (eq_refl (Ret args, Runs.world))).
  assert (cli_value Runs.host (sub_parser Runs.host ∅ ∅ Consensus) Runs.basic "bam"
          = Some (PyStr "/data/s1.bam")) as H2
    by (vm_cast_no_check (eq_refl (Some (PyStr "/data/s1.bam")))).
  split; [exact H1|]. split; [reflexivity|]. split; [exact H2|].
  exact (command_line_overrides_config Runs.host cl Runs.world args Runs.world
           Consensus Runs.basic "bam" (PyStr "/data/s1.bam") H1 eq_refl H2).
Defined.

(** C9, at an input where it fails: the configuration file names the
    tool, the output directory, the cut-off and a region list, and the
    command line gives the input file and the tool.  The tool is the one
    of the command line, and the output directory and the cut-off, left
    off the command line, are those of the file; but the region list,
    left off the command line as well, is not the one of the file: the
    argument is added with [default=bedfile], which goes before what
    [set_defaults] took from the file, and the SSCS maker is started on
    the [cytoBand.txt] beside the script. *)
Theorem config_region_list_is_not_used :
  let cl := Precedence.with_regions in
  let args := Runs.parsed cl Runs.world in
  let r := main Runs.host cl Runs.world in
  sec_consensus Precedence.config_regions
    ≫= (lookup "bedfile") = Some "/cfg/regions.bed"
  ∧ fst (read_args Runs.host cl Runs.world) = Ret args
  ∧ args !! "bam" = Some (PyStr "/data/s1.bam")
  ∧ args !! "samtools" = Some (PyStr "samtools")
  ∧ args !! "c_output" = Some (PyStr "/out")
  ∧ args !! "cutoff" = Some (PyFloat "0.5")
  ∧ args !! "bedfile" = Some (PyStr "/opt/cc/ConsensusCruncher/cytoBand.txt")
  ∧ head (Runs.engine_calls (trace (snd r)))
    = Some ("/opt/cc/ConsensusCruncher/SSCS_maker.py --infile /data/s1.bam "
            +:+ "--outfile /out/s1/sscs/s1.sscs.bam --cutoff 0.5 "
            +:+ "--bedfile /opt/cc/ConsensusCruncher/cytoBand.txt").
Proof. by_compute. Qed.



(** ** The checks of the [fastq2bam] command *)

Section Fastq2bamChecks.

Variable host : Host.

(** The tests on the namespace read it and nothing else. *)
Lemma any_of_attrs_world args ks w :
  ∃ r, any_of (attr_is_None args <$> ks) w = (r, w).
Proof.
  induction ks as [|k ks IH]; simpl; [by eexists|].
  unfold mbind, M_bind, bind, attr_is_None, getattr, of_option at 1.
  destruct (args !! k) as [v|]; simpl; [|by eexists].
  destruct (is_None v); [by eexists|exact IH].
Qed.

Lemma any_of_attrs_present args ks w :
  (∀ k, k ∈ ks → ∃ v, args !! k = Some v ∧ v ≠ PyNone) →
  any_of (attr_is_None args <$> ks) w = (Ret false, w).
Proof.
  induction ks as [|k ks IH]; intros H; simpl; [done|].
  destruct (H k) as (v & Hv & Hne); [by left|].
  unfold mbind, M_bind, bind, attr_is_None, getattr, of_option at 1.
  rewrite Hv. simpl.
  assert (is_None v = false) as -> by (by apply bool_decide_eq_false).
  apply IH. intros k' Hk'. apply H. by right.
Qed.

End Fastq2bamChecks.

Lemma dispatch_fastq2bam_list_only host args w blist :
  (∀ k, k ∈ required_fastq2bam → ∃ v, args !! k = Some v ∧ v ≠ PyNone) →
  args !! "bpattern" = Some PyNone →
  args !! "blist" = Some blist →
  blist ≠ PyNone →
  dispatch_fastq2bam host args w = (Raise TypeError, w).
Proof.
  intros Hreq Hp Hl Hne.
  pose proof (any_of_attrs_present args required_fastq2bam w Hreq) as Hany.
  unfold required_fastq2bam in Hany.
  unfold dispatch_fastq2bam, mbind, M_bind, bind at 1. cbv beta.
  rewrite Hany.
  unfold bind, attr_is_None, getattr. rewrite Hp, Hl. simpl.
  by assert (is_None blist = false) as -> by (by apply bool_decide_eq_false).
Qed.

(** C6: a [fastq2bam] call that brings all the required arguments and a
    barcode list but no barcode pattern ends in a [TypeError]: the pattern
    check is applied to [None].  The world is left as it was, so neither
    the list is read nor any program started. *)
Theorem list_without_pattern_raises_TypeError host cl w args blist :
  read_args host cl w = (Ret args, w) →
  args !! "subparser_name" = Some (PyStr "fastq2bam") →
  (∀ k, k ∈ required_fastq2bam → ∃ v, args !! k = Some v ∧ v ≠ PyNone) →
  args !! "bpattern" = Some PyNone →
  args !! "blist" = Some blist →
  blist ≠ PyNone →
  main host cl w = (Raise TypeError, w).
Proof.
  intros Hr Hsub Hreq Hp Hl Hne.
  unfold main, mbind, M_bind, bind. rewrite Hr.
  unfold dispatch, mbind, M_bind, bind, getattr. rewrite Hsub. simpl.
  by apply (dispatch_fastq2bam_list_only host args w blist).
Qed.

Lemma list_without_pattern_raises_TypeError_witness :
  let cl := ListOnly.cmd [("-l", "/data/barcodes.txt")] in
  let args := Runs.parsed cl ListOnly.world in
  read_args Runs.host cl ListOnly.world = (Ret args, ListOnly.world)
  ∧ args !! "subparser_name" = Some (PyStr "fastq2bam")
  ∧ (∀ k, k ∈ required_fastq2bam → ∃ v, args !! k = Some v ∧ v ≠ PyNone)
  ∧ args !! "bpattern" = Some PyNone
  ∧ args !! "blist" = Some (PyStr "/data/barcodes.txt")
  ∧ PyStr "/data/barcodes.txt" ≠ PyNone
  ∧ main Runs.host cl ListOnly.world = (Raise TypeError, ListOnly.world).
Proof.
  intros cl args.
  assert (read_args Runs.host cl ListOnly.world = (Ret args, ListOnly.world)) as H0
    by (vm_cast_no_check (eq_refl (Ret args, ListOnly.world))).
  assert (args !! "subparser_name" = Some (PyStr "fastq2bam")) as Hs
    by (vm_cast_no_check (eq_refl (Some (PyStr "fastq2bam")))).
  assert (∀ k, k ∈ required_fastq2bam → ∃ v, args !! k = Some v ∧ v ≠ PyNone) as H1.
  { intros k Hk. unfold required_fastq2bam in Hk.
    rewrite !elem_of_cons, elem_of_nil in Hk.
    destruct Hk as [->|[->|[->|[->|[->|[->|[]]]]]]].
    - exists (PyStr "/data/s1_R1.fastq").
      split; [vm_cast_no_check (eq_refl (Some (PyStr "/data/s1_R1.fastq")))|discriminate].
    - exists (PyStr "/data/s1_R2.fastq").
      split; [vm_cast_no_check (eq_refl (Some (PyStr "/data/s1_R2.fastq")))|discriminate].
    - exists (PyStr "/out").
      split; [vm_cast_no_check (eq_refl (Some (PyStr "/out")))|discriminate].
    - exists (PyStr "bwa").
      split; [vm_cast_no_check (eq_refl (Some (PyStr "bwa")))|discriminate].
    - exists (PyStr "/ref/hg19.fa").
      split; [vm_cast_no_check (eq_refl (Some (PyStr "/ref/hg19.fa")))|discriminate].
    - exists (PyStr "samtools").
      split; [vm_cast_no_check (eq_refl (Some (PyStr "samtools")))|discriminate]. }
  assert (args !! "bpattern" = Some PyNone) as H2
    by (vm_cast_no_check (eq_refl (Some PyNone))).
  assert (args !! "blist" = Some (PyStr "/data/barcodes.txt")) as H3
    by (vm_cast_no_check (eq_refl (Some (PyStr "/data/barcodes.txt")))).
  assert (PyStr "/data/barcodes.txt" ≠ PyNone) as H4 by discriminate.
  split; [exact H0|]. split; [exact Hs|]. split; [exact H1|]. split; [exact H2|].
  split; [exact H3|]. split; [exact H4|].
  exact (list_without_pattern_raises_TypeError Runs.host cl ListOnly.world args
           (PyStr "/data/barcodes.txt") H0 Hs H1 H2 H3 H4).
Defined.

(** *** What the two barcode checks let through *)

Section BarcodeChecks.

Variable host : Host.

Lemma string_ind2 (P : string → Prop) :
  P "" → (∀ c, P (String c "")) →
  (∀ c d t, P t → P (String d t) → P (String c (String d t))) →
  ∀ t, P t.
Proof.
  intros H0 H1 H2 t.
  assert (P t ∧ ∀ c, P (String c t)) as [? _]; [|done].
  induction t as [|a t [IHt IHc]]; [by split|].
  split; [apply IHc|]. intros c. apply H2; [exact IHt|apply IHc].
Qed.

Lemma append_empty_r (s : string) : s +:+ "" = s.
Proof. induction s as [|c s IH]; [done|]. unfold String.app in *. simpl. by rewrite IH. Qed.

Lemma join_empty_cons x l : PyStr.join "" (x :: l) = x +:+ PyStr.join "" l.
Proof. destruct l; simpl; [by rewrite append_empty_r|done]. Qed.

(** Joining the lines of a text gives the text without its line ends. *)
Lemma join_splitlines t :
  PyStr.join "" (splitlines t) = PyStr.filter (λ c, negb (is_linebreak c)) t.
Proof.
  induction t as [|c|c d t IHt IHd] using string_ind2.
  - done.
  - simpl. by destruct (is_linebreak c).
  - change (splitlines (String c (String d t))) with
      (if is_linebreak c
       then "" :: (if Ascii.eqb c CR && Ascii.eqb d LF then splitlines t
                   else splitlines (String d t))
       else match splitlines (String d t) with
            | w :: rest => String c w :: rest
            | [] => [String c ""]
            end).
    change (PyStr.filter (λ c, negb (is_linebreak c)) (String c (String d t))) with
      (if negb (is_linebreak c)
       then String c (PyStr.filter (λ c, negb (is_linebreak c)) (String d t))
       else PyStr.filter (λ c, negb (is_linebreak c)) (String d t)).
    destruct (is_linebreak c) eqn:Hc; simpl negb; cbv iota.
    + rewrite join_empty_cons. change ("" +:+ ?x) with x.
      destruct (Ascii.eqb c CR && Ascii.eqb d LF) eqn:Hcrlf; [|exact IHd].
      apply andb_true_iff in Hcrlf as [_ Hd]. apply Ascii.eqb_eq in Hd as ->.
      rewrite IHt. reflexivity.
    + rewrite <- IHd. destruct (splitlines (String d t)) as [|w rest]; [done|].
      by rewrite !join_empty_cons.
Qed.

Lemma existsb_filter f g t :
  PyStr.existsb f (PyStr.filter g t) = PyStr.existsb (λ c, g c && f c) t.
Proof.
  induction t as [|c t IH]; [done|]. simpl.
  destruct (g c); simpl; by rewrite IH.
Qed.

Lemma list_check_spec t :
  outside_class "ACGTN" (PyStr.join "" (splitlines t)) = PyStr.existsb invalid_in_list t.
Proof. unfold outside_class. by rewrite join_splitlines, existsb_filter. Qed.

(** The class of the pattern check has the bar among its members. *)
Lemma pattern_class c : PyStr.mem c "A|C|G|T|N" = PyStr.mem c "ACGTN|".
Proof. by destruct c as [[] [] [] [] [] [] [] []]. Qed.

Lemma pattern_check_spec pat :
  outside_class "A|C|G|T|N" pat = outside_class "ACGTN|" pat.
Proof.
  unfold outside_class. induction pat as [|c pat IH]; [done|].
  cbn [PyStr.existsb]. by rewrite IH, pattern_class.
Qed.

(** A pattern with a character other than A, C, G, T, N and the bar stops
    the command before anything is touched. *)
Lemma invalid_pattern_rejected args w pat :
  args !! "bpattern" = Some (PyStr pat) →
  outside_class "ACGTN|" pat = true →
  ∃ e, dispatch_fastq2bam host args w = (Raise e, w).
Proof.
  intros Hp Hbad. rewrite <- pattern_check_spec in Hbad.
  destruct (any_of_attrs_world args required_fastq2bam w) as [r Hr].
  unfold required_fastq2bam in Hr.
  unfold dispatch_fastq2bam, mbind, M_bind, bind at 1. cbv beta. rewrite Hr.
  destruct r as [[]|e]; [by eexists| |by eexists].
  unfold bind, getattr. rewrite Hp. simpl. rewrite Hbad. by eexists.
Qed.

(** A list file with an invalid character stops the command as well: no
    program is started. *)
Lemma invalid_list_rejected args w pat path :
  args !! "bpattern" = Some (PyStr pat) →
  args !! "blist" = Some (PyStr path) →
  PyStr.existsb invalid_in_list (universal_newlines (file_text host path)) = true →
  ∃ e, dispatch_fastq2bam host args w = (Raise e, w).
Proof.
  intros Hp Hl Hbad.
  destruct (any_of_attrs_world args required_fastq2bam w) as [r Hr].
  unfold required_fastq2bam in Hr.
  unfold dispatch_fastq2bam, mbind, M_bind, bind at 1. cbv beta. rewrite Hr.
  destruct r as [[]|e]; [by eexists| |by eexists].
  unfold bind, getattr. rewrite Hp, Hl. simpl.
  destruct (outside_class "A|C|G|T|N" pat); [by eexists|].
  unfold read_text, mbind, M_bind, bind, get_fs. simpl.
  destruct (bool_decide (path ∈ files (fs w))); simpl; [|by eexists].
  rewrite list_check_spec, Hbad. by eexists.
Qed.

End BarcodeChecks.

(** C5, at the input where it fails: the pattern [NN|NN] has a character
    outside A, C, G, T, N, yet the command raises nothing and goes on to
    barcode extraction and alignment: the bar is a member of the character
    class [[^A|C|G|T|N]] of the check. *)
Theorem pattern_with_bar_reaches_extraction :
  let r := main Runs.host (ListOnly.cmd [("-p", "NN|NN")]) ListOnly.world in
  outside_class "ACGTN" "NN|NN" = true
  ∧ fst r = Ret tt
  ∧ Runs.engine_calls (trace (snd r))
    = [ "/opt/cc/ConsensusCruncher/extract_barcodes.py --read1 /data/s1_R1.fastq "
        +:+ "--read2 /data/s1_R2.fastq --outfile /out/fastq_tag/s1 --bpattern NN|NN" ].
Proof. by_compute. Qed.

(** ** Defaults of the [consensus] arguments *)

Section Defaults.

Variable host : Host.

Lemma foldl_defaults_lookup p acts : ∀ (ns : gmap string pyval) d,
  foldl (λ (ns : gmap string pyval) a, match ns !! dest a with
                 | None => <[dest a := action_default p a]> ns
                 | Some _ => ns
                 end) ns acts !! d
  = match ns !! d with
    | Some v => Some v
    | None => action_default p <$> List.find (λ a, bool_decide (dest a = d)) acts
    end.
Proof.
  induction acts as [|a acts IH]; intros ns d; simpl.
  - by destruct (ns !! d).
  - rewrite IH. destruct (ns !! dest a) as [v|] eqn:Ha.
    + destruct (ns !! d) as [v'|] eqn:Hd; [done|].
      case_bool_decide as Heq; [|done]. by rewrite Heq, Hd in Ha.
    + case_bool_decide as Heq.
      * subst d. by rewrite lookup_insert_eq, Ha.
      * by rewrite lookup_insert_ne.
Qed.

(** Before the command line is read, an argument holds its own default;
    the parser-level defaults fill in the other attributes only. *)
Lemma initial_namespace_lookup p d :
  initial_namespace p !! d
  = match first_for p d with
    | Some a => Some (action_default p a)
    | None => parser_defaults p !! d
    end.
Proof.
  unfold initial_namespace, first_for.
  rewrite lookup_union, foldl_defaults_lookup, lookup_empty.
  destruct (List.find _ (actions p)); simpl.
  - by destruct (parser_defaults p !! d).
  - by destruct (parser_defaults p !! d).
Qed.

(** Converting string defaults does not touch an attribute whose
    arguments have no string default. *)
Lemma convert_defaults_nonstr p seen acts d : ∀ ns ns',
  (∀ a, a ∈ acts → dest a = d → ∀ s, action_default p a ≠ PyStr s) →
  foldl (convert_default host p seen) (Some ns) acts = Some ns' →
  ns' !! d = ns !! d.
Proof.
  induction acts as [|a acts IH]; intros ns ns' Hno H.
  - simpl in H. by simplify_eq.
  - change (foldl (convert_default host p seen)
              (convert_default host p seen (Some ns) a) acts = Some ns') in H.
    destruct (convert_default host p seen (Some ns) a) as [ns1|] eqn:H1;
      [|by rewrite convert_defaults_None in H].
    rewrite (IH ns1 ns'); [|intros a' Ha'; apply Hno; by right|exact H].
    unfold convert_default in H1; simpl in H1.
    case_bool_decide; [by simplify_eq|].
    destruct (action_default p a) eqn:Hdef; simplify_eq; try done.
    case_bool_decide; [|by simplify_eq].
    destruct (convert host (atype a) s); simplify_eq/=.
    apply lookup_insert_ne. intros Heq.
    by apply (Hno a (ltac:(by left)) Heq s).
Qed.

Lemma get_value_str a s v :
  atype a = TStr → get_value host a s = Some v → v = PyStr s.
Proof.
  unfold get_value. intros ->. simpl.
  destruct (choices a); [case_bool_decide|]; intros Hv; by simplify_eq.
Qed.

Lemma consume_str_valued p d opts : ∀ ns seen ns' seen',
  (∀ a, a ∈ actions p → dest a = d → atype a = TStr) →
  consume host p opts ns seen = Some (ns', seen') →
  str_valued ns d → str_valued ns' d.
Proof.
  induction opts as [|[flag s] rest IH]; intros ns seen ns' seen' Hty H Hs; simpl in H.
  - by simplify_eq.
  - destruct (find_action p flag) as [a|] eqn:Ha; simpl in H; [|done].
    destruct (get_value host a s) as [v|] eqn:Hv; simpl in H; [|done].
    apply (IH _ _ _ _ Hty H). unfold str_valued.
    destruct (decide (dest a = d)) as [Heq|Hne].
    + apply find_action_in in Ha as [Hin _].
      rewrite (get_value_str a s v (Hty a Hin Heq) Hv), <- Heq, lookup_insert_eq.
      by eexists.
    + by rewrite lookup_insert_ne.
Qed.

Lemma convert_defaults_str_valued p seen d acts : ∀ ns ns',
  (∀ a, a ∈ acts → dest a = d → atype a = TStr) →
  foldl (convert_default host p seen) (Some ns) acts = Some ns' →
  str_valued ns d → str_valued ns' d.
Proof.
  induction acts as [|a acts IH]; intros ns ns' Hty H Hs.
  - simpl in H. by simplify_eq.
  - change (foldl (convert_default host p seen)
              (convert_default host p seen (Some ns) a) acts = Some ns') in H.
    destruct (convert_default host p seen (Some ns) a) as [ns1|] eqn:H1;
      [|by rewrite convert_defaults_None in H].
    apply (IH ns1 ns'); [intros a' Ha'; apply Hty; by right|exact H|].
    unfold convert_default in H1; simpl in H1.
    case_bool_decide; [by simplify_eq|].
    destruct (action_default p a) eqn:Hdef; simplify_eq; try done.
    case_bool_decide; [|by simplify_eq].
    destruct (convert host (atype a) s) as [v|] eqn:Hv; simplify_eq/=.
    unfold str_valued. destruct (decide (dest a = d)) as [Heq|Hne].
    + rewrite (Hty a (ltac:(by left)) Heq) in Hv. simpl in Hv. simplify_eq.
      rewrite lookup_insert_eq. by eexists.
    + by rewrite lookup_insert_ne.
Qed.

Lemma consensus_actions_in a :
  a ∈ consensus_actions host →
  (dest a = "bedfile" → atype a = TStr ∧ default_kw a = Some (PyStr (bedfile host)))
  ∧ (dest a = "scorrect" → default_kw a = None).
Proof.
  unfold consensus_actions, arg. rewrite !elem_of_cons, elem_of_nil.
  intros H. repeat (destruct H as [->|H]; [by split|]). destruct H.
Qed.

(** The region list of a parsed [consensus] command line is a string. *)
Lemma parse_sub_bedfile db opts ns :
  parse_sub host (sub_b host db) opts = Some ns → str_valued ns "bedfile".
Proof.
  unfold parse_sub. intros H.
  destruct (consume host _ opts _ []) as [[ns1 seen]|] eqn:Hc; [|done].
  change (foldl (convert_default host (sub_b host db) seen) (Some ns1)
            (actions (sub_b host db)) = Some ns) in H.
  assert (∀ a, a ∈ actions (sub_b host db) → dest a = "bedfile" → atype a = TStr) as Hty.
  { intros a Ha Hd. by apply (consensus_actions_in a Ha). }
  eapply convert_defaults_str_valued; [exact Hty|exact H|].
  eapply consume_str_valued; [exact Hty|exact Hc|].
  unfold str_valued. rewrite initial_namespace_lookup. by eexists.
Qed.

(** Without [--scorrect] on the command line, the switch is left at
    what [set_defaults] had stored for it when the argument was added,
    and at [None] if that was nothing (a string default apart, which
    [bool] converts). *)
Lemma parse_sub_scorrect_default db opts ns :
  last_value "--scorrect" opts = None →
  (∀ s, db !! "scorrect" ≠ Some (PyStr s)) →
  parse_sub host (sub_b host db) opts = Some ns →
  ns !! "scorrect" = Some (default PyNone (db !! "scorrect")).
Proof.
  unfold parse_sub. intros Hlast Hdb H.
  destruct (consume host _ opts _ []) as [[ns1 seen]|] eqn:Hc; [|done].
  change (foldl (convert_default host (sub_b host db) seen) (Some ns1)
            (actions (sub_b host db)) = Some ns) in H.
  pose proof (consume_cli_value host _ _ _ _ _ _ "scorrect" Hc) as Hv.
  change (sub_b host db) with (sub_parser host ∅ db Consensus) in Hv.
  rewrite (cli_value_bool_option host ∅ db "--scorrect" "scorrect" opts) in Hv
    by (by left).
  rewrite Hlast in Hv. simpl in Hv. destruct Hv as [Hns _].
  erewrite convert_defaults_nonstr; [|..|exact H].
  - rewrite Hns, initial_namespace_lookup. reflexivity.
  - intros a Ha Hd s. unfold action_default.
    rewrite (proj2 (consensus_actions_in a Ha) Hd), Hd. simpl.
    destruct (db !! "scorrect") as [v|] eqn:Heq; simpl; [|done].
    intros ->. by apply (Hdb s).
Qed.

End Defaults.

Section ConsensusArguments.

Variable host : Host.

Lemma read_args_consensus cl w args w' opts :
  read_args host cl w = (Ret args, w') →
  cl_sub cl = Some (Consensus, opts) →
  ∃ db ns, consensus_defaults host cl db
           ∧ parse_sub host (sub_b host db) opts = Some ns
           ∧ ∀ d v, ns !! d = Some v → args !! d = Some v.
Proof.
  unfold read_args, parse_args, config_defaults, consensus_defaults,
    mbind, M_bind, bind, mret, M_ret, ret.
  intros H Hsub. rewrite Hsub in H.
  destruct (cl_config cl) as [[path cfg]|]; simpl in H.
  - destruct (sec_fastq2bam cfg) as [ia|]; simpl in H; [|done].
    destruct (sec_consensus cfg) as [ib|]; simpl in H; [|done].
    match type of H with context [parse_sub host ?p opts] =>
      destruct (parse_sub host p opts) as [ns|] eqn:Hp end; simpl in H; [|done].
    simplify_eq. eexists _, ns. split; [by eexists _, _|]. split; [exact Hp|].
    intros d v Hd. by apply lookup_union_Some_l.
  - match type of H with context [parse_sub host ?p opts] =>
      destruct (parse_sub host p opts) as [ns|] eqn:Hp end; simpl in H; [|done].
    simplify_eq. eexists _, ns. split; [done|]. split; [exact Hp|].
    intros d v Hd. by apply lookup_union_Some_l.
Qed.

(** However the [consensus] command is called, its region list is a
    string: the test [args.bedfile is False] never succeeds, and every
    engine script is started with a [--bedfile] argument. *)
Lemma bedfile_is_never_False cl w args w' opts :
  read_args host cl w = (Ret args, w') →
  cl_sub cl = Some (Consensus, opts) →
  ∃ s, args !! "bedfile" = Some (PyStr s) ∧ is_False (PyStr s) = false.
Proof.
  intros Hr Hsub.
  destruct (read_args_consensus _ _ _ _ _ Hr Hsub) as (db & ns & _ & Hp & Hargs).
  destruct (parse_sub_bedfile host db opts ns Hp) as [s Hs].
  exists s. split; [by apply Hargs|done].
Qed.

(** Without a configuration file and without [--scorrect], the switch
    is [None]. *)
Lemma scorrect_unset_without_config cl w args w' opts :
  read_args host cl w = (Ret args, w') →
  cl_sub cl = Some (Consensus, opts) →
  cl_config cl = None →
  last_value "--scorrect" opts = None →
  args !! "scorrect" = Some PyNone ∧ is_True PyNone = false.
Proof.
  intros Hr Hsub Hcfg Hlast.
  destruct (read_args_consensus _ _ _ _ _ Hr Hsub) as (db & ns & Hdb & Hp & Hargs).
  unfold consensus_defaults in Hdb. rewrite Hcfg in Hdb. subst db.
  split; [|done]. apply Hargs.
  by rewrite (parse_sub_scorrect_default host ∅ opts ns Hlast).
Qed.

(** With a configuration file that does not mention [scorrect], the
    switch takes the [True] of the dictionary [defaults]. *)
Lemma scorrect_unset_with_config cl w args w' opts path cfg ia ib :
  read_args host cl w = (Ret args, w') →
  cl_sub cl = Some (Consensus, opts) →
  cl_config cl = Some (path, cfg) →
  sec_fastq2bam cfg = Some ia → ia !! "scorrect" = None →
  sec_consensus cfg = Some ib → ib !! "scorrect" = None →
  last_value "--scorrect" opts = None →
  args !! "scorrect" = Some (PyBool true).
Proof.
  intros Hr Hsub Hcfg Ha Hia Hb Hib Hlast.
  destruct (read_args_consensus _ _ _ _ _ Hr Hsub) as (db & ns & Hdb & Hp & Hargs).
  unfold consensus_defaults in Hdb. rewrite Hcfg in Hdb.
  destruct Hdb as (ia' & ib' & Ha' & Hb' & ->). simplify_eq.
  assert (((PyStr <$> ib) ∪ ((PyStr <$> ia) ∪ base_defaults host)) !! "scorrect"
          = Some (PyBool true)) as Hdef.
  { rewrite !lookup_union, !lookup_fmap, Hia, Hib. reflexivity. }
  apply Hargs.
  rewrite (parse_sub_scorrect_default host
             ((PyStr <$> ib) ∪ ((PyStr <$> ia) ∪ base_defaults host)) opts ns Hlast);
    [by rewrite Hdef| |exact Hp].
  intros s. by rewrite Hdef.
Qed.

End ConsensusArguments.

(** ** The [consensus] command at work *)

Section Cleanup.

Variable host : Host.

(** The removal of intermediate files stops at its second step whenever
    the sample has no [sssc] directory with a bad-read file in it: the
    time tracker is gone by then, and everything else is still there. *)
Lemma cleanup_block_stops sample_dir identifier w :
  let tracker := format "{}/{}.time_tracker.txt" [sample_dir; identifier] in
  let bad := format "{}/sssc/{}.badReads.bam" [sample_dir; identifier] in
  tracker ∈ files (fs w) →
  bad ∉ files (fs w) →
  cleanup_block sample_dir identifier w
  = (Raise (FileNotFoundError bad),
     {| fs := {| files := files (fs w) ∖ {[tracker]}; dirs := dirs (fs w) |};
        trace := trace w |}).
Proof.
  intros tracker bad Ht Hb. unfold cleanup_block.
  fold tracker. fold bad.
  unfold mbind, M_bind, bind at 1. cbv beta.
  unfold os_remove at 1. unfold mbind, M_bind, bind at 1. unfold get_fs at 1.
  rewrite bool_decide_true by done. unfold put_fs at 1.
  unfold bind at 1. unfold os_remove at 1.
  unfold mbind, M_bind, bind at 1. unfold get_fs at 1. cbv beta iota. simpl fs.
  rewrite bool_decide_false; [done|]. intros [? _]%elem_of_difference. done.
Qed.

(** The relocation stops at its first step whenever there is no
    statistics file under [dcs_sc]: nothing is moved. *)
Lemma relocation_block_stops sample_dir identifier w :
  let stats := format "{}/dcs_sc/{}.stats.txt" [sample_dir; identifier] in
  stats ∉ files (fs w) →
  relocation_block sample_dir identifier w = (Raise (FileNotFoundError stats), w).
Proof.
  intros stats Hs. unfold relocation_block. fold stats.
  unfold mbind, M_bind, bind at 1. cbv beta.
  unfold os_rename at 1. unfold mbind, M_bind, bind at 1. unfold get_fs at 1.
  cbv beta iota. by rewrite bool_decide_false.
Qed.

End Cleanup.

(** C8, at an input where it fails: with singleton correction and cleanup
    both requested, the run ends in [FileNotFoundError] on a path under
    [sssc], a directory that nothing makes.  Only the time tracker has
    been deleted by then; the bad-read file, the unpaired-SSCS files and
    the singleton-correction intermediates are all still in place. *)
Theorem cleanup_stops_at_misspelt_directory :
  let r := main Runs.host
             (Runs.consensus_cmd (Runs.basic ++ [("--scorrect", "True"); ("--cleanup", "True")]))
             Runs.world in
  let left_behind := files (fs (snd r)) in
  fst r = Raise (FileNotFoundError "/out/s1/sssc/s1.badReads.bam")
  ∧ ("/out/s1/s1.time_tracker.txt" ∉ left_behind)
  ∧ "/out/s1/sscs/s1.badReads.bam" ∈ left_behind
  ∧ "/out/s1/dcs/s1.sscs.singleton.sorted.bam" ∈ left_behind
  ∧ "/out/s1/dcs/s1.sscs.singleton.sorted.bam.bai" ∈ left_behind
  ∧ "/out/s1/sscs_sc/s1.singleton.correction.sorted.bam" ∈ left_behind
  ∧ "/out/s1/sscs_sc/s1.sscs.correction.sorted.bam" ∈ left_behind
  ∧ "/out/s1/sscs_sc/s1.uncorrected.sorted.bam" ∈ left_behind
  ∧ "/out/s1/dcs_sc/s1.sscs.sc.singleton.sorted.bam" ∈ left_behind.
Proof. intros r left_behind. subst left_behind r. by_compute. Qed.

(** C3, at an input where it fails: with singleton correction switched
    off the run makes no singleton-correction artifact and no merge, but
    it does not reach the end either.  The statistics file is looked for
    under [dcs_sc], which only the singleton-correction block makes, so
    the first relocation raises [FileNotFoundError]; statistics, timing
    log and plot stay where the earlier stages left them. *)
Theorem disabled_correction_stops_before_finalization :
  let r := main Runs.host (Runs.consensus_cmd (Runs.basic ++ [("--scorrect", "")]))
             Runs.world in
  let left_behind := files (fs (snd r)) in
  fst r = Raise (FileNotFoundError "/out/s1/dcs_sc/s1.stats.txt")
  ∧ Runs.merges (trace (snd r)) = []
  ∧ ("/out/s1/sscs_sc" ∉ dirs (fs (snd r)))
  ∧ ("/out/s1/dcs_sc" ∉ dirs (fs (snd r)))
  ∧ "/out/s1/dcs/s1.stats.txt" ∈ left_behind
  ∧ "/out/s1/dcs/s1.time_tracker.txt" ∈ left_behind
  ∧ "/out/s1/sscs/s1_tag_fam_size.png" ∈ left_behind
  ∧ ("/out/s1/s1.stats.txt" ∉ left_behind)
  ∧ ("/out/s1/s1.time_tracker.txt" ∉ left_behind)
  ∧ ("/out/s1/s1_tag_fam_size.png" ∉ left_behind).
Proof. intros r left_behind. subst left_behind r. by_compute. Qed.

(** C2, at an input where it fails: with singleton correction switched
    off the reads go through the SSCS and DCS makers, but no merge is
    run and no file of unique molecules is written: not one output record
    traces back to any input read. *)
Theorem no_unique_molecules_without_correction :
  let r := main Runs.host (Runs.consensus_cmd (Runs.basic ++ [("--scorrect", "")]))
             Runs.world in
  Runs.engine_calls (trace (snd r))
  = [ "/opt/cc/ConsensusCruncher/SSCS_maker.py --infile /data/s1.bam "
      +:+ "--outfile /out/s1/sscs/s1.sscs.bam --cutoff 0.7 "
      +:+ "--bedfile /opt/cc/ConsensusCruncher/cytoBand.txt";
      "/opt/cc/ConsensusCruncher/DCS_maker.py --infile /out/s1/sscs/s1.sscs.sorted.bam "
      +:+ "--outfile /out/s1/dcs/s1.dcs.bam "
      +:+ "--bedfile /opt/cc/ConsensusCruncher/cytoBand.txt" ]
  ∧ Runs.merges (trace (snd r)) = []
  ∧ List.filter (PyStr.contains "all.unique") (elements (files (fs (snd r)))) = []
  ∧ fst r = Raise (FileNotFoundError "/out/s1/dcs_sc/s1.stats.txt").
Proof. by_compute. Qed.

(** With singleton correction on, the same sample is merged twice: the
    consensus sequences with the corrected singletons, and then the
    duplexes, the unpaired consensus sequences and the uncorrected
    singletons into the file of unique molecules. *)
Example correction_run_merges :
  let r := main Runs.host (Runs.consensus_cmd (Runs.basic ++ [("--scorrect", "True")]))
             Runs.world in
  fst r = Ret tt
  ∧ Runs.merges (trace (snd r))
    = [ ["samtools"; "merge"; "/out/s1/sscs_sc/s1.sscs.sc.bam";
         "/out/s1/sscs/s1.sscs.sorted.bam";
         "/out/s1/sscs_sc/s1.sscs.correction.sorted.bam";
         "/out/s1/sscs_sc/s1.singleton.correction.sorted.bam"];
        ["samtools"; "merge"; "/out/s1/dcs_sc/s1.all.unique.dcs.bam";
         "/out/s1/dcs_sc/s1.dcs.sc.sorted.bam";
         "/out/s1/dcs_sc/s1.sscs.sc.singleton.sorted.bam";
         "/out/s1/sscs_sc/s1.uncorrected.sorted.bam"] ]
  ∧ "/out/s1/dcs_sc/s1.all.unique.dcs.sorted.bam" ∈ files (fs (snd r))
  ∧ "/out/s1/s1.stats.txt" ∈ files (fs (snd r)).
Proof. by_compute. Qed.

(** C4, at an input where it fails: called without configuration file
    and without [--scorrect], the command parses the switch to [None],
    and the run starts the SSCS and DCS makers only: singleton correction
    is off. *)
Theorem scorrect_left_out_means_no_correction :
  let cl := Runs.consensus_cmd Runs.basic in
  let r := main Runs.host cl Runs.world in
  (∃ args, read_args Runs.host cl Runs.world = (Ret args, Runs.world)
           ∧ args !! "scorrect" = Some PyNone)
  ∧ List.filter (PyStr.contains "singleton_correction.py") (Runs.engine_calls (trace (snd r)))
    = []
  ∧ length (Runs.engine_calls (trace (snd r))) = 2
  ∧ ("/out/s1/sscs_sc" ∉ dirs (fs (snd r))).
Proof.
  intros cl r. subst r cl. split.
  - eexists. split; vm_compute; reflexivity.
  - by_compute.
Qed.

(** C7, at an input where it fails: [-b False], the way the help text
    gives to turn the region list off, is parsed to the string ["False"],
    which is not the value [False] the command tests for; every engine
    script is started with [--bedfile False]. *)
Theorem bedfile_False_is_passed_on_as_a_path :
  let r := main Runs.host
             (Runs.consensus_cmd (Runs.basic ++ [("-b", "False"); ("--scorrect", "True")]))
             Runs.world in
  Runs.engine_calls (trace (snd r))
  = [ "/opt/cc/ConsensusCruncher/SSCS_maker.py --infile /data/s1.bam "
      +:+ "--outfile /out/s1/sscs/s1.sscs.bam --cutoff 0.7 --bedfile False";
      "/opt/cc/ConsensusCruncher/DCS_maker.py --infile /out/s1/sscs/s1.sscs.sorted.bam "
      +:+ "--outfile /out/s1/dcs/s1.dcs.bam --bedfile False";
      "/opt/cc/ConsensusCruncher/singleton_correction.py "
      +:+ "--singleton /out/s1/sscs/s1.singleton.sorted.bam --bedfile False";
      "/opt/cc/ConsensusCruncher/DCS_maker.py --infile /out/s1/sscs_sc/s1.sscs.sc.sorted.bam "
      +:+ "--outfile /out/s1/dcs_sc/s1.dcs.sc.bam --bedfile False" ].
Proof. by_compute. Qed.

(** The value [False] itself, which no command line produces, does start
    the engine scripts without a region list. *)
Example bedfile_value_False_drops_the_option :
  let r := consensus Runs.host
             (list_to_map [("bam", PyStr "/data/s1.bam"); ("c_output", PyStr "/out");
                           ("samtools", PyStr "samtools"); ("scorrect", PyBool true);
                           ("bedfile", PyBool false);
                           ("cutoff", PyFloat "0.7"); ("cleanup", PyNone)])
             Runs.world in
  Runs.engine_calls (trace (snd r))
  = [ "/opt/cc/ConsensusCruncher/SSCS_maker.py --infile /data/s1.bam "
      +:+ "--outfile /out/s1/sscs/s1.sscs.bam --cutoff 0.7";
      "/opt/cc/ConsensusCruncher/DCS_maker.py --infile /out/s1/sscs/s1.sscs.sorted.bam "
      +:+ "--outfile /out/s1/dcs/s1.dcs.bam";
      "/opt/cc/ConsensusCruncher/singleton_correction.py "
      +:+ "--singleton /out/s1/sscs/s1.singleton.sorted.bam";
      "/opt/cc/ConsensusCruncher/DCS_maker.py --infile /out/s1/sscs_sc/s1.sscs.sc.sorted.bam "
      +:+ "--outfile /out/s1/dcs_sc/s1.dcs.sc.bam" ].
Proof. by_compute. Qed.

Section SscsFacts.

Import Sscs.



















End SscsFacts.

Section SscsCalls.

Import Sscs.






End SscsCalls.




(** * Further properties of the driver *)

(** ** Arguments left off the command line *)

Section LeftOff.

Variable host : Host.

Lemma dest_inj (acts : list action) a a' :
  NoDup (dest <$> acts) → a ∈ acts → a' ∈ acts → dest a = dest a' → a = a'.
Proof.
  induction acts as [|x acts IH]; simpl; intros Hnd Ha Ha' Hd;
    [by apply elem_of_nil in Ha|].
  apply NoDup_cons in Hnd as [Hx Hnd].
  apply elem_of_cons in Ha as [->|Ha]; apply elem_of_cons in Ha' as [->|Ha'].
  - done.
  - exfalso. apply Hx. rewrite Hd. by apply list_elem_of_fmap_2.
  - exfalso. apply Hx. rewrite <- Hd. by apply list_elem_of_fmap_2.
  - by apply IH.
Qed.

Lemma fastq2bam_dests : NoDup (dest <$> fastq2bam_actions).
Proof. apply (bool_decide_unpack _). by vm_compute. Qed.

Lemma consensus_dests : NoDup (dest <$> consensus_actions host).
Proof. apply (bool_decide_unpack _). by vm_compute. Qed.

Lemma sub_parser_dests da db c : NoDup (dest <$> actions (sub_parser host da db c)).
Proof. destruct c; [apply fastq2bam_dests|apply consensus_dests]. Qed.

Lemma cli_value_not_given p opts a :
  NoDup (dest <$> actions p) → a ∈ actions p → given a opts = false →
  cli_value host p opts (dest a) = None.
Proof.
  intros Hnd Ha. induction opts as [|[flag s] rest IH]; simpl; [done|].
  intros [Hf Hrest]%orb_false_iff. rewrite (IH Hrest).
  apply bool_decide_eq_false in Hf.
  destruct (find_action p flag) as [a'|] eqn:Ha'; simpl; [|done].
  case_bool_decide as Hd; [|done]. exfalso.
  apply find_action_in in Ha' as [Hin Hfl].
  by rewrite (dest_inj _ _ _ Hnd Hin Ha Hd) in Hfl.
Qed.

Lemma first_for_in p a :
  NoDup (dest <$> actions p) → a ∈ actions p → first_for p (dest a) = Some a.
Proof.
  intros Hnd Ha. unfold first_for.
  destruct (List.find _ (actions p)) as [a'|] eqn:Hf.
  - apply find_some in Hf as [Hin Hd]. apply bool_decide_eq_true in Hd.
    f_equal. apply (dest_inj _ _ _ Hnd); [by apply list_elem_of_In|done|done].
  - apply list_elem_of_In in Ha.
    pose proof (find_none _ _ Hf a Ha) as Hd. by apply bool_decide_eq_false in Hd.
Qed.

Lemma first_for_none p d :
  (∀ a, a ∈ actions p → dest a ≠ d) → first_for p d = None.
Proof.
  intros Hno. unfold first_for.
  destruct (List.find _ (actions p)) as [a'|] eqn:Hf; [|done].
  apply find_some in Hf as [Hin Hd]. apply bool_decide_eq_true in Hd.
  by destruct (Hno a' (proj2 (list_elem_of_In _ _) Hin)).
Qed.

(** The conversion of the defaults, seen from one argument. *)
Lemma convert_defaults_at p seen acts a : ∀ ns ns',
  foldl (convert_default host p seen) (Some ns) acts = Some ns' →
  NoDup (dest <$> acts) → a ∈ acts → dest a ∉ seen →
  ns !! dest a = Some (action_default p a) →
  ns' !! dest a = converted_default host p a.
Proof.
  induction acts as [|x acts IH]; intros ns ns' H Hnd Ha Hseen Hns;
    [by apply elem_of_nil in Ha|].
  change (foldl (convert_default host p seen)
            (convert_default host p seen (Some ns) x) acts = Some ns') in H.
  destruct (convert_default host p seen (Some ns) x) as [ns1|] eqn:H1;
    [|by rewrite convert_defaults_None in H].
  simpl in Hnd. apply NoDup_cons in Hnd as [Hx Hnd].
  apply elem_of_cons in Ha as [->|Ha].
  - rewrite (convert_defaults_nonstr host p seen acts (dest x) ns1 ns'); [| |exact H].
    + unfold convert_default in H1. simpl in H1. rewrite bool_decide_false in H1 by done.
      unfold converted_default.
      destruct (action_default p x) as [|b|s|r|f] eqn:Hdef; simplify_eq; try done.
      rewrite bool_decide_true in H1 by done.
      destruct (convert host (atype x) s) as [v|]; simplify_eq/=.
      by rewrite lookup_insert_eq.
    + intros a' Ha' Hd. exfalso. apply Hx. rewrite <- Hd. by apply list_elem_of_fmap_2.
  - assert (dest x ≠ dest a) as Hne.
    { intros Hd. apply Hx. rewrite Hd. by apply list_elem_of_fmap_2. }
    apply (IH ns1 ns' H Hnd Ha Hseen).
    unfold convert_default in H1. simpl in H1.
    case_bool_decide; [by simplify_eq|].
    destruct (action_default p x) eqn:Hdef; simplify_eq; try done.
    case_bool_decide; [|by simplify_eq].
    destruct (convert host (atype x) s); simplify_eq/=.
    by rewrite lookup_insert_ne.
Qed.

(** An argument left off the command line is parsed to its converted
    default. *)
Lemma parse_sub_default p opts ns a :
  parse_sub host p opts = Some ns →
  NoDup (dest <$> actions p) → a ∈ actions p → given a opts = false →
  ns !! dest a = converted_default host p a.
Proof.
  unfold parse_sub. intros H Hnd Ha Hg.
  destruct (consume host p opts (initial_namespace p) []) as [[ns1 seen]|] eqn:Hc; [|done].
  change (foldl (convert_default host p seen) (Some ns1) (actions p) = Some ns) in H.
  pose proof (consume_cli_value host _ _ _ _ _ _ (dest a) Hc) as Hv.
  rewrite (cli_value_not_given p opts a Hnd Ha Hg) in Hv. destruct Hv as [Hns Hseen].
  apply (convert_defaults_at p seen (actions p) a ns1 ns H Hnd Ha).
  - rewrite Hseen. by intros ?%elem_of_nil.
  - by rewrite Hns, initial_namespace_lookup, (first_for_in p a Hnd Ha).
Qed.

Lemma consume_absent p d opts : ∀ ns seen ns' seen',
  (∀ a, a ∈ actions p → dest a ≠ d) →
  consume host p opts ns seen = Some (ns', seen') → ns' !! d = ns !! d.
Proof.
  induction opts as [|[flag s] rest IH]; intros ns seen ns' seen' Hno H; simpl in H.
  - by simplify_eq.
  - destruct (find_action p flag) as [a|] eqn:Ha; simpl in H; [|done].
    destruct (get_value host a s) as [v|] eqn:Hv; simpl in H; [|done].
    rewrite (IH _ _ _ _ Hno H). apply lookup_insert_ne.
    apply find_action_in in Ha as [Hin _]. by apply Hno.
Qed.

(** An attribute that no argument stores into holds what [set_defaults]
    gave it, or nothing. *)
Lemma parse_sub_absent p opts ns d :
  parse_sub host p opts = Some ns →
  (∀ a, a ∈ actions p → dest a ≠ d) →
  ns !! d = parser_defaults p !! d.
Proof.
  unfold parse_sub. intros H Hno.
  destruct (consume host p opts (initial_namespace p) []) as [[ns1 seen]|] eqn:Hc; [|done].
  change (foldl (convert_default host p seen) (Some ns1) (actions p) = Some ns) in H.
  rewrite (convert_defaults_nonstr host p seen (actions p) d ns1 ns); [| |exact H].
  - by rewrite (consume_absent p d opts _ _ _ _ Hno Hc), initial_namespace_lookup,
      (first_for_none p d Hno).
  - intros a Ha Hd. by destruct (Hno a Ha).
Qed.

(** From the command line to the namespace, in full. *)
Lemma read_args_sub cl w args w' c opts :
  read_args host cl w = (Ret args, w') →
  cl_sub cl = Some (c, opts) →
  w' = w ∧ ∃ da db ns,
    sub_defaults host cl da db
    ∧ parse_sub host (sub_parser host da db c) opts = Some ns
    ∧ args = ns ∪ main_attrs cl c.
Proof.
  unfold read_args, parse_args, config_defaults, sub_defaults, main_attrs,
    mbind, M_bind, bind, mret, M_ret, ret.
  intros H Hsub. rewrite Hsub in H.
  destruct (cl_config cl) as [[path cfg]|]; simpl in H.
  - destruct (sec_fastq2bam cfg) as [ia|]; simpl in H; [|done].
    destruct (sec_consensus cfg) as [ib|]; simpl in H; [|done].
    match type of H with context [parse_sub host ?p opts] =>
      destruct (parse_sub host p opts) as [ns|] eqn:Hp end; simpl in H; [|done].
    simplify_eq. split; [done|]. eexists _, _, ns. split; [by eexists _, _|].
    split; [exact Hp|done].
  - match type of H with context [parse_sub host ?p opts] =>
      destruct (parse_sub host p opts) as [ns|] eqn:Hp end; simpl in H; [|done].
    simplify_eq. split; [done|]. eexists _, _, ns. split; [done|].
    split; [exact Hp|done].
Qed.

Lemma given_last_value a opts :
  (∀ flag, flag ∈ flags a → last_value flag opts = None) → given a opts = false.
Proof.
  intros H. induction opts as [|[f s] rest IH]; simpl; [done|].
  apply orb_false_iff. split.
  - apply bool_decide_eq_false. intros Hf. specialize (H f Hf). simpl in H.
    destruct (last_value f rest); [done|]. by rewrite String.eqb_refl in H.
  - apply IH. intros flag Hf. specialize (H flag Hf). simpl in H.
    by destruct (last_value flag rest).
Qed.

End LeftOff.

(** A closed equation, checked by evaluation. *)
Ltac by_vm :=
  match goal with |- _ = ?b => vm_cast_no_check (eq_refl b) end.

Section Present.

Variable host : Host.

Lemma consume_present p d opts : ∀ ns seen ns' seen',
  consume host p opts ns seen = Some (ns', seen') → is_Some (ns !! d) → is_Some (ns' !! d).
Proof.
  induction opts as [|[flag s] rest IH]; intros ns seen ns' seen' H Hd; simpl in H.
  - by simplify_eq.
  - destruct (find_action p flag) as [a|]; simpl in H; [|done].
    destruct (get_value host a s) as [v|]; simpl in H; [|done].
    apply (IH _ _ _ _ H). destruct (decide (dest a = d)) as [<-|Hne].
    + by rewrite lookup_insert_eq.
    + by rewrite lookup_insert_ne.
Qed.

Lemma convert_defaults_present p seen d acts : ∀ ns ns',
  foldl (convert_default host p seen) (Some ns) acts = Some ns' →
  is_Some (ns !! d) → is_Some (ns' !! d).
Proof.
  induction acts as [|a acts IH]; intros ns ns' H Hd.
  - simpl in H. by simplify_eq.
  - change (foldl (convert_default host p seen)
              (convert_default host p seen (Some ns) a) acts = Some ns') in H.
    destruct (convert_default host p seen (Some ns) a) as [ns1|] eqn:H1;
      [|by rewrite convert_defaults_None in H].
    apply (IH ns1 ns' H).
    unfold convert_default in H1; simpl in H1.
    case_bool_decide; [by simplify_eq|].
    destruct (action_default p a) eqn:Hdef; simplify_eq; try done.
    case_bool_decide; [|by simplify_eq].
    destruct (convert host (atype a) s); simplify_eq/=.
    destruct (decide (dest a = d)) as [<-|Hne].
    + by rewrite lookup_insert_eq.
    + by rewrite lookup_insert_ne.
Qed.

(** Every argument of the parser is an attribute of the namespace. *)
Lemma parse_sub_present p opts ns a :
  parse_sub host p opts = Some ns → a ∈ actions p → is_Some (ns !! dest a).
Proof.
  unfold parse_sub. intros H Ha.
  destruct (consume host p opts (initial_namespace p) []) as [[ns1 seen]|] eqn:Hc; [|done].
  change (foldl (convert_default host p seen) (Some ns1) (actions p) = Some ns) in H.
  apply (convert_defaults_present _ _ _ _ _ _ H), (consume_present _ _ _ _ _ _ _ Hc).
  rewrite initial_namespace_lookup. unfold first_for.
  destruct (List.find _ (actions p)) as [a'|] eqn:Hf; [done|].
  apply list_elem_of_In in Ha.
  pose proof (find_none _ _ Hf a Ha) as Hd. by apply bool_decide_eq_false in Hd.
Qed.

(** The namespace of the main parser holds the arguments of the
    sub-command as the sub-parser left them. *)
Lemma read_args_default cl w args w' c opts :
  read_args host cl w = (Ret args, w') →
  cl_sub cl = Some (c, opts) →
  ∃ da db, sub_defaults host cl da db
    ∧ ∀ a, a ∈ actions (sub_parser host da db c) → given a opts = false →
           args !! dest a = converted_default host (sub_parser host da db c) a.
Proof.
  intros Hr Hsub.
  destruct (read_args_sub host _ _ _ _ _ _ Hr Hsub) as (_ & da & db & ns & Hd & Hp & ->).
  exists da, db. split; [done|]. intros a Ha Hg.
  rewrite <- (parse_sub_default host _ _ _ a Hp (sub_parser_dests host da db c) Ha Hg).
  destruct (parse_sub_present _ _ _ a Hp Ha) as [v Hv].
  rewrite Hv. by apply lookup_union_Some_l.
Qed.

End Present.

(** ** What the configuration file can and cannot set *)

Ltac in_actions :=
  unfold sub_parser, sub_a, sub_b, consensus_actions, fastq2bam_actions, arg; simpl;
  rewrite !elem_of_cons; repeat first [by left | right].

Ltac not_given_by H :=
  apply given_last_value; intros ? Hfl; simpl in Hfl;
  rewrite ?elem_of_cons, ?elem_of_nil in Hfl;
  repeat (destruct Hfl as [->|Hfl]; [by eauto using H|]); destruct Hfl.

Section ConfigFile.

Variable host : Host.

(** The dictionary that [set_defaults] gets: an entry of the [consensus]
    section, else one of the [fastq2bam] section, else the hard-coded
    one; for [fastq2bam], the [consensus] section plays no part. *)
Lemma sub_defaults_lookup cl path cfg ia ib da db k :
  sub_defaults host cl da db →
  cl_config cl = Some (path, cfg) →
  sec_fastq2bam cfg = Some ia → sec_consensus cfg = Some ib →
  da !! k = match ia !! k with
            | Some s => Some (PyStr s)
            | None => base_defaults host !! k
            end
  ∧ db !! k = match ib !! k with
              | Some s => Some (PyStr s)
              | None => da !! k
              end.
Proof.
  unfold sub_defaults. intros Hd Hcfg Ha Hb. rewrite Hcfg in Hd.
  destruct Hd as (ia' & ib' & Ha' & Hb' & -> & ->).
  rewrite Ha in Ha'. rewrite Hb in Hb'. injection Ha' as <-. injection Hb' as <-.
  rewrite !lookup_union, !lookup_fmap.
  destruct (ib !! k), (ia !! k), (base_defaults host !! k); done.
Qed.

End ConfigFile.

(** X1: the [bedfile] entry of a configuration file has no effect.
    Without [-b] on the command line the region list of [consensus] is
    the [cytoBand.txt] beside the script, whatever the file says: the
    argument is added with [default=bedfile], which goes before what
    [set_defaults] took from the file. *)
Theorem config_bedfile_is_ignored host cl w args w' opts :
  read_args host cl w = (Ret args, w') →
  cl_sub cl = Some (Consensus, opts) →
  last_value "-b" opts = None →
  last_value "--bedfile" opts = None →
  args !! "bedfile" = Some (PyStr (bedfile host)).
Proof.
  intros Hr Hsub H1 H2.
  destruct (read_args_default host _ _ _ _ _ _ Hr Hsub) as (da & db & _ & Hdef).
  apply (Hdef {| flags := ["-b"; "--bedfile"]; dest := "bedfile"; atype := TStr;
                 choices := None; default_kw := Some (PyStr (bedfile host)) |}).
  - in_actions.
  - apply given_last_value. intros flag Hfl. simpl in Hfl.
    rewrite !elem_of_cons, elem_of_nil in Hfl.
    by destruct Hfl as [->|[->|[]]].
Qed.

Lemma config_bedfile_is_ignored_witness :
  let cl := Scenes.consensus_with Scenes.config Runs.basic in
  let args := Runs.parsed cl Runs.world in
  read_args Runs.host cl Runs.world = (Ret args, Runs.world)
  ∧ cl_sub cl = Some (Consensus, Runs.basic)
  ∧ last_value "-b" Runs.basic = None
  ∧ last_value "--bedfile" Runs.basic = None
  ∧ args !! "bedfile" = Some (PyStr "/opt/cc/ConsensusCruncher/cytoBand.txt").
Proof.
  intros cl args.
  assert (read_args Runs.host cl Runs.world = (Ret args, Runs.world)) as H0 by by_vm.
  split; [exact H0|]. split; [reflexivity|]. split; [reflexivity|]. split; [reflexivity|].
  exact (config_bedfile_is_ignored Runs.host cl Runs.world args Runs.world Runs.basic
           H0 eq_refl eq_refl eq_refl).
Defined.

(** X2: with a configuration file that does not mention [cleanup], and
    without [--cleanup], the removal of intermediate files is on: the
    hard-coded default of [cleanup] is its help text, a non-empty string,
    which [type=bool] converts to [True]. *)
Theorem cleanup_is_on_with_a_config_file host cl w args w' opts path cfg ia ib :
  read_args host cl w = (Ret args, w') →
  cl_sub cl = Some (Consensus, opts) →
  cl_config cl = Some (path, cfg) →
  sec_fastq2bam cfg = Some ia → ia !! "cleanup" = None →
  sec_consensus cfg = Some ib → ib !! "cleanup" = None →
  last_value "--cleanup" opts = None →
  args !! "cleanup" = Some (PyBool true).
Proof.
  intros Hr Hsub Hcfg Ha Hia Hb Hib Hlast.
  destruct (read_args_default host _ _ _ _ _ _ Hr Hsub) as (da & db & Hd & Hdef).
  destruct (sub_defaults_lookup host _ _ _ _ _ _ _ "cleanup" Hd Hcfg Ha Hb) as [Hda Hdb].
  rewrite Hia in Hda. rewrite Hib, Hda in Hdb.
  etrans; [apply (Hdef {| flags := ["--cleanup"]; dest := "cleanup"; atype := TBool;
                          choices := Some [PyBool true; PyBool false];
                          default_kw := None |})|].
  - in_actions.
  - apply given_last_value. intros flag Hfl. simpl in Hfl.
    rewrite !elem_of_cons, elem_of_nil in Hfl.
    by destruct Hfl as [->|[]].
  - unfold converted_default, action_default. simpl. by rewrite Hdb.
Qed.

Lemma cleanup_is_on_with_a_config_file_witness :
  let cl := Scenes.consensus_with Scenes.config Runs.basic in
  let args := Runs.parsed cl Runs.world in
  let ia : gmap string string :=
    list_to_map [("samtools", "/cfg/samtools"); ("bwa", "/cfg/bwa")] in
  let ib : gmap string string :=
    list_to_map [("bedfile", "/cfg/regions.bed"); ("scorrect", "False"); ("c_output", "/out")] in
  read_args Runs.host cl Runs.world = (Ret args, Runs.world)
  ∧ ia !! "cleanup" = None ∧ ib !! "cleanup" = None
  ∧ last_value "--cleanup" Runs.basic = None
  ∧ args !! "cleanup" = Some (PyBool true).
Proof.
  intros cl args ia ib.
  assert (read_args Runs.host cl Runs.world = (Ret args, Runs.world)) as H0 by by_vm.
  assert (ia !! "cleanup" = None) as H1 by by_vm.
  assert (ib !! "cleanup" = None) as H2 by by_vm.
  split; [exact H0|]. split; [exact H1|]. split; [exact H2|]. split; [reflexivity|].
  exact (cleanup_is_on_with_a_config_file Runs.host cl Runs.world args Runs.world
           Runs.basic "config.ini" Scenes.config ia ib
           H0 eq_refl eq_refl eq_refl H1 eq_refl H2 eq_refl).
Defined.

(** X3: a configuration file cannot switch singleton correction off by
    text: whatever non-empty string its [consensus] section gives to
    [scorrect], the text [False] included, the switch is parsed to
    [True] when the command line leaves it out. *)
Theorem config_scorrect_text_is_True host cl w args w' opts path cfg ia ib s :
  read_args host cl w = (Ret args, w') →
  cl_sub cl = Some (Consensus, opts) →
  cl_config cl = Some (path, cfg) →
  sec_fastq2bam cfg = Some ia →
  sec_consensus cfg = Some ib → ib !! "scorrect" = Some s →
  s ≠ "" →
  last_value "--scorrect" opts = None →
  args !! "scorrect" = Some (PyBool true).
Proof.
  intros Hr Hsub Hcfg Ha Hb Hib Hs Hlast.
  destruct (read_args_default host _ _ _ _ _ _ Hr Hsub) as (da & db & Hd & Hdef).
  destruct (sub_defaults_lookup host _ _ _ _ _ _ _ "scorrect" Hd Hcfg Ha Hb) as [_ Hdb].
  rewrite Hib in Hdb.
  etrans; [apply (Hdef {| flags := ["--scorrect"]; dest := "scorrect"; atype := TBool;
                          choices := Some [PyBool true; PyBool false];
                          default_kw := None |})|].
  - in_actions.
  - apply given_last_value. intros flag Hfl. simpl in Hfl.
    rewrite !elem_of_cons, elem_of_nil in Hfl.
    by destruct Hfl as [->|[]].
  - unfold converted_default, action_default. simpl. rewrite Hdb. simpl.
    by destruct (String.eqb_spec s "").
Qed.

Lemma config_scorrect_text_is_True_witness :
  let cl := Scenes.consensus_with Scenes.config Runs.basic in
  let args := Runs.parsed cl Runs.world in
  let ia : gmap string string :=
    list_to_map [("samtools", "/cfg/samtools"); ("bwa", "/cfg/bwa")] in
  let ib : gmap string string :=
    list_to_map [("bedfile", "/cfg/regions.bed"); ("scorrect", "False"); ("c_output", "/out")] in
  read_args Runs.host cl Runs.world = (Ret args, Runs.world)
  ∧ ib !! "scorrect" = Some "False"
  ∧ "False" ≠ ""
  ∧ last_value "--scorrect" Runs.basic = None
  ∧ args !! "scorrect" = Some (PyBool true).
Proof.
  intros cl args ia ib.
  assert (read_args Runs.host cl Runs.world = (Ret args, Runs.world)) as H0 by by_vm.
  assert (ib !! "scorrect" = Some "False") as H1 by by_vm.
  assert ("False" ≠ "") as H2 by discriminate.
  split; [exact H0|]. split; [exact H1|]. split; [exact H2|]. split; [reflexivity|].
  exact (config_scorrect_text_is_True Runs.host cl Runs.world args Runs.world
           Runs.basic "config.ini" Scenes.config ia ib "False"
           H0 eq_refl eq_refl eq_refl eq_refl H1 H2 eq_refl).
Defined.

Section WithoutConfig.

Variable host : Host.

(** The parser-level defaults are empty, and so is the default of an
    argument without [default=]. *)
Lemma left_off_plain cl w args w' c opts a :
  read_args host cl w = (Ret args, w') →
  cl_sub cl = Some (c, opts) →
  cl_config cl = None →
  a ∈ actions (sub_parser host ∅ ∅ c) →
  default_kw a = None →
  given a opts = false →
  args !! dest a = Some PyNone.
Proof.
  intros Hr Hsub Hcfg Ha Hkw Hg.
  destruct (read_args_default host _ _ _ _ _ _ Hr Hsub) as (da & db & Hd & Hdef).
  unfold sub_defaults in Hd. rewrite Hcfg in Hd. destruct Hd as [-> ->].
  rewrite (Hdef a Ha Hg). unfold converted_default, action_default. rewrite Hkw.
  by destruct c.
Qed.

End WithoutConfig.

(** X4: without a configuration file, an argument that has no [default=]
    of its own and is left off the command line is [None], for both
    sub-commands: the documented defaults of [--name], [--cutoff],
    [--scorrect] and [--cleanup] are only in the dictionary that a
    configuration file brings into play. *)
Theorem left_off_without_config_is_None host cl w args w' c opts a :
  read_args host cl w = (Ret args, w') →
  cl_sub cl = Some (c, opts) →
  cl_config cl = None →
  a ∈ actions (sub_parser host ∅ ∅ c) →
  default_kw a = None →
  given a opts = false →
  args !! dest a = Some PyNone.
Proof.
  intros Hr Hsub Hcfg Ha Hkw Hg.
  exact (left_off_plain host cl w args w' c opts a Hr Hsub Hcfg Ha Hkw Hg).
Qed.

Lemma left_off_without_config_is_None_witness :
  let opts := [("-i", "/data/s1.bam"); ("-o", "/out"); ("-s", "samtools")] in
  let cl := Runs.consensus_cmd opts in
  let args := Runs.parsed cl Runs.world in
  let a := arg ["-c"; "--cutoff"] "cutoff" TFloat in
  read_args Runs.host cl Runs.world = (Ret args, Runs.world)
  ∧ a ∈ actions (sub_parser Runs.host ∅ ∅ Consensus)
  ∧ default_kw a = None
  ∧ given a opts = false
  ∧ args !! "cutoff" = Some PyNone.
Proof.
  intros opts cl args a.
  assert (read_args Runs.host cl Runs.world = (Ret args, Runs.world)) as H0 by by_vm.
  assert (a ∈ actions (sub_parser Runs.host ∅ ∅ Consensus)) as H1 by in_actions.
  split; [exact H0|]. split; [exact H1|]. split; [reflexivity|]. split; [reflexivity|].
  exact (left_off_without_config_is_None Runs.host cl Runs.world args Runs.world
           Consensus opts a H0 eq_refl eq_refl H1 eq_refl eq_refl).
Defined.

(** With nothing said about the cut-off, the SSCS maker is started with
    [--cutoff None]. *)
Example cutoff_left_off_is_passed_as_None :
  let r := main Runs.host
             (Runs.consensus_cmd [("-i", "/data/s1.bam"); ("-o", "/out"); ("-s", "samtools")])
             Runs.world in
  hd_error (Runs.engine_calls (trace (snd r)))
  = Some ("/opt/cc/ConsensusCruncher/SSCS_maker.py --infile /data/s1.bam "
          +:+ "--outfile /out/s1/sscs/s1.sscs.bam --cutoff None "
          +:+ "--bedfile /opt/cc/ConsensusCruncher/cytoBand.txt").
Proof. by_compute. Qed.

Section StringValued.

Variable host : Host.

(** An argument of [type=str] with a string default is a string, given
    or not. *)
Lemma parse_sub_str_valued p opts ns a :
  parse_sub host p opts = Some ns →
  NoDup (dest <$> actions p) → a ∈ actions p → atype a = TStr →
  (∃ s, action_default p a = PyStr s) →
  str_valued ns (dest a).
Proof.
  unfold parse_sub. intros H Hnd Ha Hty [s Hs].
  destruct (consume host p opts (initial_namespace p) []) as [[ns1 seen]|] eqn:Hc; [|done].
  change (foldl (convert_default host p seen) (Some ns1) (actions p) = Some ns) in H.
  assert (∀ a', a' ∈ actions p → dest a' = dest a → atype a' = TStr) as Hall.
  { intros a' Ha' Hd. by rewrite (dest_inj _ _ _ Hnd Ha' Ha Hd). }
  eapply convert_defaults_str_valued; [exact Hall|exact H|].
  eapply consume_str_valued; [exact Hall|exact Hc|].
  exists s. by rewrite initial_namespace_lookup, (first_for_in p a Hnd Ha), Hs.
Qed.

End StringValued.

(** X5: with a configuration file the required-argument check of
    [consensus] never fails.  The dictionary [defaults] holds the help
    texts of [--input], [--output] and [--samtools], so the three are
    strings whatever the file and the command line leave out, and the
    command goes on to [args.func(args)]. *)
Theorem required_check_is_void_with_a_config_file host cl w args w' opts pc :
  read_args host cl w = (Ret args, w') →
  cl_sub cl = Some (Consensus, opts) →
  cl_config cl = Some pc →
  dispatch_consensus host args w' = call_func host args w'.
Proof.
  intros Hr Hsub Hcfg. destruct pc as [path cfg].
  destruct (read_args_sub host _ _ _ _ _ _ Hr Hsub) as (_ & da & db & ns & Hd & Hp & ->).
  pose proof Hd as Hd'. unfold sub_defaults in Hd'. rewrite Hcfg in Hd'.
  destruct Hd' as (ia & ib & Ha & Hb & _ & _).
  assert (∀ k, k ∈ ["bam"; "c_output"; "samtools"] →
               ∃ v, (ns ∪ main_attrs cl Consensus) !! k = Some v ∧ v ≠ PyNone) as Hreq.
  { intros k Hk.
    assert (∃ a, a ∈ actions (sub_parser host da db Consensus) ∧ dest a = k
                 ∧ atype a = TStr ∧ default_kw a = None
                 ∧ ∃ s, base_defaults host !! k = Some (PyStr s)) as (a & Hin & <- & Hty & Hkw & s & Hs).
    { rewrite !elem_of_cons, elem_of_nil in Hk. destruct Hk as [->|[->|[->|[]]]].
      - exists (arg ["-i"; "--input"] "bam" TStr). split; [in_actions|]. by eauto.
      - exists (arg ["-o"; "--output"] "c_output" TStr). split; [in_actions|]. by eauto.
      - exists (arg ["-s"; "--samtools"] "samtools" TStr). split; [in_actions|]. by eauto. }
    destruct (sub_defaults_lookup host _ _ _ _ _ _ _ (dest a) Hd Hcfg Ha Hb) as [Hda Hdb].
    destruct (parse_sub_str_valued host _ _ _ a Hp (sub_parser_dests host da db Consensus)
                Hin Hty) as [s' Hs'].
    { unfold action_default. rewrite Hkw. simpl. rewrite Hdb, Hda, Hs.
      destruct (ib !! dest a), (ia !! dest a); by eexists. }
    exists (PyStr s'). split; [by apply lookup_union_Some_l|done]. }
  unfold dispatch_consensus, mbind, M_bind, bind.
  by rewrite (any_of_attrs_present _ _ w' Hreq).
Qed.

Lemma required_check_is_void_with_a_config_file_witness :
  let cl := Scenes.consensus_with Scenes.config [] in
  let args := Runs.parsed cl Runs.world in
  read_args Runs.host cl Runs.world = (Ret args, Runs.world)
  ∧ args !! "bam" = Some (PyStr "Input BAM file.")
  ∧ dispatch_consensus Runs.host args Runs.world = call_func Runs.host args Runs.world.
Proof.
  intros cl args.
  assert (read_args Runs.host cl Runs.world = (Ret args, Runs.world)) as H0 by by_vm.
  split; [exact H0|]. split; [by_vm|].
  exact (required_check_is_void_with_a_config_file Runs.host cl Runs.world args Runs.world
           [] ("config.ini", Scenes.config) H0 eq_refl eq_refl).
Defined.

(** X6: the two sections of the configuration file are not kept apart
    for [consensus]: an entry that only the [fastq2bam] section has is
    the default of the [consensus] argument of that name, the dictionary
    being updated with one section after the other. *)
Theorem fastq2bam_section_reaches_consensus host cl w args w' opts path cfg ia ib s :
  read_args host cl w = (Ret args, w') →
  cl_sub cl = Some (Consensus, opts) →
  cl_config cl = Some (path, cfg) →
  sec_fastq2bam cfg = Some ia → ia !! "samtools" = Some s →
  sec_consensus cfg = Some ib → ib !! "samtools" = None →
  last_value "-s" opts = None → last_value "--samtools" opts = None →
  args !! "samtools" = Some (PyStr s).
Proof.
  intros Hr Hsub Hcfg Ha Hia Hb Hib H1 H2.
  destruct (read_args_default host _ _ _ _ _ _ Hr Hsub) as (da & db & Hd & Hdef).
  destruct (sub_defaults_lookup host _ _ _ _ _ _ _ "samtools" Hd Hcfg Ha Hb) as [Hda Hdb].
  rewrite Hia in Hda. rewrite Hib, Hda in Hdb.
  etrans; [apply (Hdef (arg ["-s"; "--samtools"] "samtools" TStr))|].
  - in_actions.
  - apply given_last_value. intros flag Hfl. simpl in Hfl.
    rewrite !elem_of_cons, elem_of_nil in Hfl.
    by destruct Hfl as [->|[->|[]]].
  - unfold converted_default, action_default. simpl. by rewrite Hdb.
Qed.

Lemma fastq2bam_section_reaches_consensus_witness :
  let opts := [("-i", "/data/s1.bam")] in
  let cl := Scenes.consensus_with Scenes.config opts in
  let args := Runs.parsed cl Runs.world in
  let ia : gmap string string :=
    list_to_map [("samtools", "/cfg/samtools"); ("bwa", "/cfg/bwa")] in
  let ib : gmap string string :=
    list_to_map [("bedfile", "/cfg/regions.bed"); ("scorrect", "False"); ("c_output", "/out")] in
  read_args Runs.host cl Runs.world = (Ret args, Runs.world)
  ∧ ia !! "samtools" = Some "/cfg/samtools"
  ∧ ib !! "samtools" = None
  ∧ last_value "-s" opts = None ∧ last_value "--samtools" opts = None
  ∧ args !! "samtools" = Some (PyStr "/cfg/samtools").
Proof.
  intros opts cl args ia ib.
  assert (read_args Runs.host cl Runs.world = (Ret args, Runs.world)) as H0 by by_vm.
  assert (ia !! "samtools" = Some "/cfg/samtools") as H1 by by_vm.
  assert (ib !! "samtools" = None) as H2 by by_vm.
  split; [exact H0|]. split; [exact H1|]. split; [exact H2|].
  split; [reflexivity|]. split; [reflexivity|].
  exact (fastq2bam_section_reaches_consensus Runs.host cl Runs.world args Runs.world
           opts "config.ini" Scenes.config ia ib "/cfg/samtools"
           H0 eq_refl eq_refl eq_refl H1 eq_refl H2 eq_refl eq_refl).
Defined.

(** X7: the other way round the sections are kept apart: [fastq2bam]
    gets its defaults before the [consensus] section is read, so an
    entry of that section alone does not reach it, and the argument is
    left at the hard-coded default, the help text. *)
Theorem consensus_section_does_not_reach_fastq2bam host cl w args w' opts path cfg ia ib :
  read_args host cl w = (Ret args, w') →
  cl_sub cl = Some (Fastq2bam, opts) →
  cl_config cl = Some (path, cfg) →
  sec_fastq2bam cfg = Some ia → ia !! "samtools" = None →
  sec_consensus cfg = Some ib →
  last_value "-s" opts = None → last_value "--samtools" opts = None →
  args !! "samtools" = Some (PyStr samtools_help).
Proof.
  intros Hr Hsub Hcfg Ha Hia Hb H1 H2.
  destruct (read_args_default host _ _ _ _ _ _ Hr Hsub) as (da & db & Hd & Hdef).
  destruct (sub_defaults_lookup host _ _ _ _ _ _ _ "samtools" Hd Hcfg Ha Hb) as [Hda _].
  rewrite Hia in Hda.
  etrans; [apply (Hdef (arg ["-s"; "--samtools"] "samtools" TStr))|].
  - in_actions.
  - apply given_last_value. intros flag Hfl. simpl in Hfl.
    rewrite !elem_of_cons, elem_of_nil in Hfl.
    by destruct Hfl as [->|[->|[]]].
  - unfold converted_default, action_default. simpl. by rewrite Hda.
Qed.

Lemma consensus_section_does_not_reach_fastq2bam_witness :
  let opts := [("--fastq1", "/data/s1_R1.fastq")] in
  let cl := Scenes.fastq2bam_with Scenes.config_consensus_only opts in
  let args := Runs.parsed cl Runs.world in
  let ib : gmap string string := list_to_map [("samtools", "/cfg/samtools")] in
  read_args Runs.host cl Runs.world = (Ret args, Runs.world)
  ∧ (∅ : gmap string string) !! "samtools" = None
  ∧ ib !! "samtools" = Some "/cfg/samtools"
  ∧ last_value "-s" opts = None ∧ last_value "--samtools" opts = None
  ∧ args !! "samtools" = Some (PyStr "Path to executable samtools").
Proof.
  intros opts cl args ib.
  assert (read_args Runs.host cl Runs.world = (Ret args, Runs.world)) as H0 by by_vm.
  assert ((∅ : gmap string string) !! "samtools" = None) as H1 by by_vm.
  split; [exact H0|]. split; [exact H1|]. split; [by_vm|].
  split; [reflexivity|]. split; [reflexivity|].
  exact (consensus_section_does_not_reach_fastq2bam Runs.host cl Runs.world args Runs.world
           opts "config.ini" Scenes.config_consensus_only ∅ ib
           H0 eq_refl eq_refl eq_refl H1 eq_refl eq_refl eq_refl).
Defined.

(** X8: a configuration file must have both sections, whichever
    sub-command is called and even when none is: the items of
    [fastq2bam] and then of [consensus] are read before the command line
    is parsed, and a missing section raises [NoSectionError] with nothing
    done. *)
Theorem config_file_needs_both_sections host cl w path cfg :
  cl_config cl = Some (path, cfg) →
  (sec_fastq2bam cfg = None → main host cl w = (Raise (NoSectionError "fastq2bam"), w))
  ∧ (is_Some (sec_fastq2bam cfg) → sec_consensus cfg = None →
     main host cl w = (Raise (NoSectionError "consensus"), w)).
Proof.
  intros Hcfg.
  unfold main, read_args, config_defaults, mbind, M_bind, bind. rewrite Hcfg.
  split.
  - by intros ->.
  - intros [ia ->] ->. done.
Qed.

Lemma config_file_needs_both_sections_witness :
  let cl := Scenes.consensus_with Scenes.config_one_section Runs.basic in
  cl_config cl = Some ("config.ini", Scenes.config_one_section)
  ∧ sec_fastq2bam Scenes.config_one_section = None
  ∧ main Runs.host cl Runs.world = (Raise (NoSectionError "fastq2bam"), Runs.world).
Proof.
  intros cl. split; [reflexivity|]. split; [reflexivity|].
  exact (proj1 (config_file_needs_both_sections Runs.host cl Runs.world "config.ini"
                  Scenes.config_one_section eq_refl) eq_refl).
Defined.

(** ** The checks before a sub-command is run *)

(** No argument of the parser stores into the attribute. *)
Ltac no_dest :=
  let a := fresh "a" in
  let Ha := fresh "Ha" in
  let Hd := fresh "Hd" in
  intros a Ha Hd; apply (list_elem_of_fmap_2 dest) in Ha; rewrite Hd in Ha;
  revert Ha; apply (bool_decide_unpack _); by vm_compute.

Section Checks.

Variable host : Host.

Lemma any_of_attrs_missing args ks w :
  (∀ k, k ∈ ks → is_Some (args !! k)) →
  (∃ k, k ∈ ks ∧ args !! k = Some PyNone) →
  any_of (attr_is_None args <$> ks) w = (Ret true, w).
Proof.
  induction ks as [|k ks IH]; intros Hall (k0 & Hk0 & Hnone);
    [by apply elem_of_nil in Hk0|].
  simpl. unfold mbind, M_bind, bind, attr_is_None, getattr, of_option at 1.
  destruct (Hall k) as [v Hv]; [by left|]. rewrite Hv. simpl.
  destruct (is_None v) eqn:Hn; [done|].
  apply IH; [intros k' Hk'; apply Hall; by right|].
  exists k0. split; [|done]. apply elem_of_cons in Hk0 as [->|Hk0]; [|done].
  rewrite Hv in Hnone. injection Hnone as ->. done.
Qed.

Lemma any_of_attrs_bool args ks w :
  (∀ k, k ∈ ks → is_Some (args !! k)) →
  ∃ b, any_of (attr_is_None args <$> ks) w = (Ret b, w).
Proof.
  induction ks as [|k ks IH]; intros Hall; simpl; [by eexists|].
  unfold mbind, M_bind, bind, attr_is_None, getattr, of_option at 1.
  destruct (Hall k) as [v Hv]; [by left|]. rewrite Hv. simpl.
  destruct (is_None v); [by eexists|].
  apply IH. intros k' Hk'. apply Hall. by right.
Qed.

(** Every attribute that is tested is stored into by an argument without
    a [default=] of its own. *)
Lemma required_actions da db c k :
  k ∈ required c →
  ∃ a, a ∈ actions (sub_parser host da db c) ∧ dest a = k ∧ default_kw a = None.
Proof.
  destruct c; unfold required, required_fastq2bam;
    rewrite !elem_of_cons, elem_of_nil; intros H.
  - destruct H as [->|[->|[->|[->|[->|[->|[]]]]]]].
    + exists (arg ["--fastq1"] "fastq1" TStr). split; [in_actions|done].
    + exists (arg ["--fastq2"] "fastq2" TStr). split; [in_actions|done].
    + exists (arg ["-o"; "--output"] "output" TStr). split; [in_actions|done].
    + exists (arg ["-b"; "--bwa"] "bwa" TStr). split; [in_actions|done].
    + exists (arg ["-r"; "--ref"] "ref" TStr). split; [in_actions|done].
    + exists (arg ["-s"; "--samtools"] "samtools" TStr). split; [in_actions|done].
  - destruct H as [->|[->|[->|[]]]].
    + exists (arg ["-i"; "--input"] "bam" TStr). split; [in_actions|done].
    + exists (arg ["-o"; "--output"] "c_output" TStr). split; [in_actions|done].
    + exists (arg ["-s"; "--samtools"] "samtools" TStr). split; [in_actions|done].
Qed.

(** The function stored by the last [set_defaults] is that of the
    sub-command, whatever the configuration file holds. *)
Lemma read_args_func cl w args w' c opts :
  read_args host cl w = (Ret args, w') →
  cl_sub cl = Some (c, opts) →
  args !! "func" = Some (PyFunc c).
Proof.
  intros Hr Hsub.
  destruct (read_args_sub host _ _ _ _ _ _ Hr Hsub) as (_ & da & db & ns & _ & Hp & ->).
  apply lookup_union_Some_l.
  rewrite (parse_sub_absent host _ _ _ "func" Hp); [|destruct c; no_dest].
  unfold parser_defaults. rewrite lookup_insert_eq. by destruct c.
Qed.

(** Without a configuration file the name of the sub-command is the one
    on the command line, and nothing stores into an attribute that is
    not an argument of the sub-command. *)
Lemma read_args_plain cl w args w' c opts :
  read_args host cl w = (Ret args, w') →
  cl_sub cl = Some (c, opts) →
  cl_config cl = None →
  w' = w
  ∧ args !! "subparser_name" = Some (PyStr (subcmd_name c))
  ∧ (c = Consensus → args !! "output" = None).
Proof.
  intros Hr Hsub Hcfg.
  destruct (read_args_sub host _ _ _ _ _ _ Hr Hsub) as (-> & da & db & ns & Hd & Hp & ->).
  unfold sub_defaults in Hd. rewrite Hcfg in Hd. destruct Hd as [-> ->].
  split; [done|]. split.
  - rewrite lookup_union_r.
    + unfold main_attrs. by rewrite lookup_insert_ne, lookup_insert_eq.
    + rewrite (parse_sub_absent host _ _ _ "subparser_name" Hp); [|destruct c; no_dest].
      unfold parser_defaults. rewrite lookup_insert_ne by done. by destruct c.
  - intros ->. rewrite lookup_union_r.
    + unfold main_attrs. by rewrite !lookup_insert_ne.
    + rewrite (parse_sub_absent host _ _ _ "output" Hp); [|no_dest].
      unfold parser_defaults. by rewrite lookup_insert_ne.
Qed.

(** A command line that the parser refuses ends the script with exit
    status 2. *)
Lemma read_args_exit cl w e w' :
  sections_present cl →
  read_args host cl w = (Raise e, w') → e = SystemExit 2 ∧ w' = w.
Proof.
  unfold sections_present, read_args, parse_args, config_defaults,
    mbind, M_bind, bind, mret, M_ret, ret.
  intros Hok H.
  destruct (cl_config cl) as [[path cfg]|]; simpl in H.
  - destruct (Hok path cfg eq_refl) as [[ia Ha] [ib Hb]].
    rewrite Ha, Hb in H. simpl in H.
    destruct (cl_sub cl) as [[c opts]|]; simpl in H; [|done].
    match type of H with context [parse_sub host ?p opts] =>
      destruct (parse_sub host p opts) end; simpl in H; by simplify_eq.
  - destruct (cl_sub cl) as [[c opts]|]; simpl in H; [|done].
    match type of H with context [parse_sub host ?p opts] =>
      destruct (parse_sub host p opts) end; simpl in H; by simplify_eq.
Qed.

Lemma dispatch_sub args w c :
  args !! "subparser_name" = Some (PyStr (subcmd_name c)) →
  dispatch host args w = match c with
                         | Fastq2bam => dispatch_fastq2bam host args w
                         | Consensus => dispatch_consensus host args w
                         end.
Proof.
  intros H. unfold dispatch, mbind, M_bind, bind, getattr. rewrite H. by destruct c.
Qed.

Lemma main_dispatch cl w args c :
  read_args host cl w = (Ret args, w) →
  args !! "subparser_name" = Some (PyStr (subcmd_name c)) →
  main host cl w = match c with
                   | Fastq2bam => dispatch_fastq2bam host args w
                   | Consensus => dispatch_consensus host args w
                   end.
Proof.
  intros Hr Hn. unfold main, mbind, M_bind, bind. rewrite Hr. by apply dispatch_sub.
Qed.


End Checks.

(** X9: without a configuration file, either sub-command called without
    one of the arguments it tests (six for [fastq2bam], three for
    [consensus]) leaves with exit status 2, whatever the options of the
    command line, written in full, give to the other arguments; nothing
    is created and no program is started. *)
Theorem missing_required_option_exits host cl w c opts a :
  cl_config cl = None →
  cl_sub cl = Some (c, opts) →
  written_in_full (sub_parser host ∅ ∅ c) opts →
  a ∈ actions (sub_parser host ∅ ∅ c) →
  dest a ∈ required c →
  given a opts = false →
  main host cl w = (Raise (SystemExit 2), w).
Proof.
  intros Hcfg Hsub _ Ha Hreq Hg.
  assert (sections_present cl) as Hok.
  { intros path cfg Hc. by rewrite Hcfg in Hc. }
  destruct (read_args host cl w) as [[args|e] w'] eqn:Hr.
  - destruct (read_args_plain host _ _ _ _ _ _ Hr Hsub Hcfg) as (-> & Hname & _).
    rewrite (main_dispatch host cl w args c Hr Hname).
    assert (any_of (attr_is_None args <$> required c) w = (Ret true, w)) as Hany.
    { destruct (read_args_sub host _ _ _ _ _ _ Hr Hsub)
        as (_ & da & db & ns & Hd & Hp & Hargs).
      apply any_of_attrs_missing.
      - intros k Hk.
        destruct (required_actions host da db c k Hk) as (a' & Hin & <- & _).
        destruct (parse_sub_present host _ _ _ a' Hp Hin) as [v Hv].
        exists v. rewrite Hargs. by apply lookup_union_Some_l.
      - exists (dest a). split; [done|].
        destruct (required_actions host ∅ ∅ c (dest a) Hreq) as (a' & Hin & Hd' & Hkw).
        rewrite (dest_inj _ _ _ (sub_parser_dests host ∅ ∅ c) Hin Ha Hd') in Hkw.
        by apply (left_off_plain host cl w args w c opts a). }
    destruct c; unfold required, required_fastq2bam in Hany.
    + unfold dispatch_fastq2bam, mbind, M_bind, bind at 1. cbv beta. by rewrite Hany.
    + unfold dispatch_consensus, mbind, M_bind, bind at 1. cbv beta. by rewrite Hany.
  - destruct (read_args_exit host _ _ _ _ Hok Hr) as [-> ->].
    unfold main, mbind, M_bind, bind. by rewrite Hr.
Qed.

Lemma missing_required_option_exits_witness :
  let opts := [("-i", "/data/s1.bam"); ("-o", "/out"); ("-c", "0.7")] in
  let cl := Runs.consensus_cmd opts in
  let a := arg ["-s"; "--samtools"] "samtools" TStr in
  written_in_full (sub_parser Runs.host ∅ ∅ Consensus) opts
  ∧ a ∈ actions (sub_parser Runs.host ∅ ∅ Consensus)
  ∧ dest a ∈ required Consensus
  ∧ given a opts = false
  ∧ main Runs.host cl Runs.world = (Raise (SystemExit 2), Runs.world).
Proof.
  intros opts cl a.
  assert (written_in_full (sub_parser Runs.host ∅ ∅ Consensus) opts) as H0.
  { apply (bool_decide_unpack _). vm_compute. exact I. }
  assert (a ∈ actions (sub_parser Runs.host ∅ ∅ Consensus)) as H1 by in_actions.
  assert (dest a ∈ required Consensus) as H2.
  { unfold required. simpl. rewrite !elem_of_cons. tauto. }
  split; [exact H0|]. split; [exact H1|]. split; [exact H2|]. split; [reflexivity|].
  exact (missing_required_option_exits Runs.host cl Runs.world Consensus opts a
           eq_refl eq_refl H0 H1 H2 eq_refl).
Defined.

(** X10: without a configuration file, a [fastq2bam] command line
    whose options, written in full, give neither a barcode pattern nor a
    barcode list leaves with exit status 2 before anything is done,
    whether or not the required arguments are there. *)
Theorem no_barcode_design_exits host cl w opts :
  cl_config cl = None →
  cl_sub cl = Some (Fastq2bam, opts) →
  written_in_full (sub_parser host ∅ ∅ Fastq2bam) opts →
  given (arg ["-p"; "--bpattern"] "bpattern" TStr) opts = false →
  given (arg ["-l"; "--blist"] "blist" TStr) opts = false →
  main host cl w = (Raise (SystemExit 2), w).
Proof.
  intros Hcfg Hsub _ Hp Hl.
  assert (sections_present cl) as Hok.
  { intros path cfg Hc. by rewrite Hcfg in Hc. }
  destruct (read_args host cl w) as [[args|e] w'] eqn:Hr.
  - destruct (read_args_plain host _ _ _ _ _ _ Hr Hsub Hcfg) as (-> & Hname & _).
    rewrite (main_dispatch host cl w args Fastq2bam Hr Hname).
    assert (args !! "bpattern" = Some PyNone) as Hpat.
    { apply (left_off_plain host cl w args w Fastq2bam opts
               (arg ["-p"; "--bpattern"] "bpattern" TStr)); try done. in_actions. }
    assert (args !! "blist" = Some PyNone) as Hlist.
    { apply (left_off_plain host cl w args w Fastq2bam opts
               (arg ["-l"; "--blist"] "blist" TStr)); try done. in_actions. }
    destruct (any_of_attrs_bool args required_fastq2bam w) as [b Hany].
    { destruct (read_args_sub host _ _ _ _ _ _ Hr Hsub)
        as (_ & da & db & ns & Hd & Hps & Hargs).
      intros k Hk.
      destruct (required_actions host da db Fastq2bam k Hk) as (a' & Hin & <- & _).
      destruct (parse_sub_present host _ _ _ a' Hps Hin) as [v Hv].
      exists v. rewrite Hargs. by apply lookup_union_Some_l. }
    unfold required_fastq2bam in Hany.
    unfold dispatch_fastq2bam, mbind, M_bind, bind at 1. cbv beta. rewrite Hany.
    destruct b; [done|].
    unfold bind, attr_is_None, getattr. by rewrite Hpat, Hlist.
  - destruct (read_args_exit host _ _ _ _ Hok Hr) as [-> ->].
    unfold main, mbind, M_bind, bind. by rewrite Hr.
Qed.

Lemma no_barcode_design_exits_witness :
  let cl := ListOnly.cmd [] in
  written_in_full (sub_parser Runs.host ∅ ∅ Fastq2bam) (ListOnly.required ++ [])
  ∧ given (arg ["-p"; "--bpattern"] "bpattern" TStr) (ListOnly.required ++ []) = false
  ∧ given (arg ["-l"; "--blist"] "blist" TStr) (ListOnly.required ++ []) = false
  ∧ main Runs.host cl ListOnly.world = (Raise (SystemExit 2), ListOnly.world).
Proof.
  intros cl.
  assert (written_in_full (sub_parser Runs.host ∅ ∅ Fastq2bam) (ListOnly.required ++ []))
    as H0.
  { apply (bool_decide_unpack _). vm_compute. exact I. }
  split; [exact H0|]. split; [reflexivity|]. split; [reflexivity|].
  exact (no_barcode_design_exits Runs.host cl ListOnly.world (ListOnly.required ++ [])
           eq_refl eq_refl H0 eq_refl eq_refl).
Defined.

(** X11: what the two barcode checks let through.  With the required
    arguments there, a pattern made of A, C, G, T, N and the bar, and
    either no list or a list file that holds nothing but A, C, G, T, N
    and line ends, the command is [fastq2bam] applied to the parsed
    arguments: the checks have raised nothing and left the world as it
    was. *)
Theorem valid_barcodes_reach_fastq2bam host cl w args opts pat blist :
  read_args host cl w = (Ret args, w) →
  cl_sub cl = Some (Fastq2bam, opts) →
  args !! "subparser_name" = Some (PyStr "fastq2bam") →
  (∀ k, k ∈ required_fastq2bam → ∃ v, args !! k = Some v ∧ v ≠ PyNone) →
  args !! "bpattern" = Some (PyStr pat) →
  outside_class "ACGTN|" pat = false →
  args !! "blist" = Some blist →
  (blist = PyNone
   ∨ ∃ path, blist = PyStr path ∧ path ∈ files (fs w)
             ∧ PyStr.existsb invalid_in_list (universal_newlines (file_text host path)) = false) →
  main host cl w = fastq2bam host args w.
Proof.
  intros Hr Hsub Hname Hreq Hp Hpat Hl Hlist.
  rewrite (main_dispatch host cl w args Fastq2bam Hr Hname).
  pose proof (read_args_func host _ _ _ _ _ _ Hr Hsub) as Hfunc.
  pose proof (any_of_attrs_present args required_fastq2bam w Hreq) as Hany.
  unfold required_fastq2bam in Hany.
  rewrite <- pattern_check_spec in Hpat.
  unfold dispatch_fastq2bam, mbind, M_bind, bind at 1. cbv beta. rewrite Hany.
  unfold bind, getattr. rewrite Hp, Hl. simpl. rewrite Hpat.
  destruct Hlist as [->|(path & -> & Hin & Hok)]; simpl.
  - unfold call_func, mbind, M_bind, bind, getattr. by rewrite Hfunc.
  - unfold read_text, mbind, M_bind, bind, get_fs. simpl.
    rewrite bool_decide_true by done. simpl.
    rewrite list_check_spec, Hok.
    unfold call_func, mbind, M_bind, bind, getattr. by rewrite Hfunc.
Qed.

(** The required arguments of a [fastq2bam] namespace are there. *)
Ltac required_there :=
  let k := fresh "k" in
  let Hk := fresh "Hk" in
  intros k Hk; unfold required_fastq2bam in Hk;
  rewrite !elem_of_cons, elem_of_nil in Hk;
  destruct Hk as [->|[->|[->|[->|[->|[->|[]]]]]]];
  [ exists (PyStr "/data/s1_R1.fastq") | exists (PyStr "/data/s1_R2.fastq")
  | exists (PyStr "/out") | exists (PyStr "bwa") | exists (PyStr "/ref/hg19.fa")
  | exists (PyStr "samtools") ];
  (split; [by_vm|discriminate]).

Lemma valid_barcodes_reach_fastq2bam_witness :
  let opts := ListOnly.required ++ [("-p", "NNT"); ("-l", "/data/barcodes.txt")] in
  let cl := ListOnly.cmd [("-p", "NNT"); ("-l", "/data/barcodes.txt")] in
  let args := Runs.parsed cl ListOnly.world in
  let host := Scenes.valid_list_host in
  read_args host cl ListOnly.world = (Ret args, ListOnly.world)
  ∧ args !! "subparser_name" = Some (PyStr "fastq2bam")
  ∧ (∀ k, k ∈ required_fastq2bam → ∃ v, args !! k = Some v ∧ v ≠ PyNone)
  ∧ args !! "bpattern" = Some (PyStr "NNT")
  ∧ outside_class "ACGTN|" "NNT" = false
  ∧ args !! "blist" = Some (PyStr "/data/barcodes.txt")
  ∧ "/data/barcodes.txt" ∈ files (fs ListOnly.world)
  ∧ PyStr.existsb invalid_in_list
      (universal_newlines (file_text host "/data/barcodes.txt")) = false
  ∧ main host cl ListOnly.world = fastq2bam host args ListOnly.world.
Proof.
  intros opts cl args host.
  assert (read_args host cl ListOnly.world = (Ret args, ListOnly.world)) as H0 by by_vm.
  assert (args !! "subparser_name" = Some (PyStr "fastq2bam")) as H1 by by_vm.
  assert (∀ k, k ∈ required_fastq2bam → ∃ v, args !! k = Some v ∧ v ≠ PyNone) as H2
    by required_there.
  assert (args !! "bpattern" = Some (PyStr "NNT")) as H3 by by_vm.
  assert (args !! "blist" = Some (PyStr "/data/barcodes.txt")) as H4 by by_vm.
  assert ("/data/barcodes.txt" ∈ files (fs ListOnly.world)) as H5.
  { apply (bool_decide_unpack _). vm_compute. exact I. }
  assert (PyStr.existsb invalid_in_list
            (universal_newlines (file_text host "/data/barcodes.txt")) = false) as H6 by by_vm.
  split; [exact H0|]. split; [exact H1|]. split; [exact H2|]. split; [exact H3|].
  split; [reflexivity|]. split; [exact H4|]. split; [exact H5|]. split; [exact H6|].
  exact (valid_barcodes_reach_fastq2bam host cl ListOnly.world args opts "NNT"
           (PyStr "/data/barcodes.txt") H0 eq_refl H1 H2 H3 eq_refl H4
           (or_intror (ex_intro _ "/data/barcodes.txt" (conj eq_refl (conj H5 H6))))).
Defined.

(** X12: what the two barcode checks stop.  With the required arguments
    there, a pattern with a character other than A, C, G, T, N and the
    bar raises the [ValueError] of line 424; a sound pattern with a list
    file that holds any character other than A, C, G, T, N and line ends
    raises that of line 429.  Either way the world is left as it was: no
    directory is made and no program started. *)
Theorem invalid_barcodes_raise_ValueError host cl w args pat :
  read_args host cl w = (Ret args, w) →
  args !! "subparser_name" = Some (PyStr "fastq2bam") →
  (∀ k, k ∈ required_fastq2bam → ∃ v, args !! k = Some v ∧ v ≠ PyNone) →
  args !! "bpattern" = Some (PyStr pat) →
  (outside_class "ACGTN|" pat = true →
   main host cl w
   = (Raise (ValueError
        "Invalid barcode pattern containing characters other than A, C, G, T, and N."), w))
  ∧ (∀ path,
       outside_class "ACGTN|" pat = false →
       args !! "blist" = Some (PyStr path) →
       path ∈ files (fs w) →
       PyStr.existsb invalid_in_list (universal_newlines (file_text host path)) = true →
       main host cl w
       = (Raise (ValueError
            "List contains invalid barcodes. Please specify barcodes with A|C|G|T."), w)).
Proof.
  intros Hr Hname Hreq Hp.
  pose proof (any_of_attrs_present args required_fastq2bam w Hreq) as Hany.
  unfold required_fastq2bam in Hany.
  split; [intros Hbad|intros path Hok Hl Hin Hbad];
    rewrite (main_dispatch host cl w args Fastq2bam Hr Hname);
    unfold dispatch_fastq2bam, mbind, M_bind, bind at 1; cbv beta; rewrite Hany;
    unfold bind, getattr; rewrite Hp; simpl.
  - rewrite <- pattern_check_spec in Hbad. by rewrite Hbad.
  - rewrite <- pattern_check_spec in Hok.
    rewrite Hok, Hl. simpl.
    unfold read_text, mbind, M_bind, bind, get_fs. simpl.
    rewrite bool_decide_true by done. simpl.
    by rewrite list_check_spec, Hbad.
Qed.

Lemma invalid_barcodes_raise_ValueError_witness :
  let cl := ListOnly.cmd [("-p", "NNT"); ("-l", "/data/barcodes.txt")] in
  let args := Runs.parsed cl ListOnly.world in
  let host := Scenes.faulty_list_host in
  read_args host cl ListOnly.world = (Ret args, ListOnly.world)
  ∧ args !! "subparser_name" = Some (PyStr "fastq2bam")
  ∧ (∀ k, k ∈ required_fastq2bam → ∃ v, args !! k = Some v ∧ v ≠ PyNone)
  ∧ args !! "bpattern" = Some (PyStr "NNT")
  ∧ outside_class "ACGTN|" "NNT" = false
  ∧ args !! "blist" = Some (PyStr "/data/barcodes.txt")
  ∧ "/data/barcodes.txt" ∈ files (fs ListOnly.world)
  ∧ PyStr.existsb invalid_in_list
      (universal_newlines (file_text host "/data/barcodes.txt")) = true
  ∧ main host cl ListOnly.world
    = (Raise (ValueError
         "List contains invalid barcodes. Please specify barcodes with A|C|G|T."),
       ListOnly.world).
Proof.
  intros cl args host.
  assert (read_args host cl ListOnly.world = (Ret args, ListOnly.world)) as H0 by by_vm.
  assert (args !! "subparser_name" = Some (PyStr "fastq2bam")) as H1 by by_vm.
  assert (∀ k, k ∈ required_fastq2bam → ∃ v, args !! k = Some v ∧ v ≠ PyNone) as H2
    by required_there.
  assert (args !! "bpattern" = Some (PyStr "NNT")) as H3 by by_vm.
  assert (args !! "blist" = Some (PyStr "/data/barcodes.txt")) as H4 by by_vm.
  assert ("/data/barcodes.txt" ∈ files (fs ListOnly.world)) as H5.
  { apply (bool_decide_unpack _). vm_compute. exact I. }
  assert (PyStr.existsb invalid_in_list
            (universal_newlines (file_text host "/data/barcodes.txt")) = true) as H6 by by_vm.
  split; [exact H0|]. split; [exact H1|]. split; [exact H2|]. split; [exact H3|].
  split; [reflexivity|]. split; [exact H4|]. split; [exact H5|]. split; [exact H6|].
  exact (proj2 (invalid_barcodes_raise_ValueError host cl ListOnly.world args "NNT"
                  H0 H1 H2 H3) "/data/barcodes.txt" eq_refl H4 H5 H6).
Defined.



(** ** The first steps of [consensus] *)

Section FirstSteps.

Variable host : Host.

(** With its three arguments there, [consensus] is reached. *)
Lemma main_reaches_consensus cl w args opts :
  read_args host cl w = (Ret args, w) →
  cl_sub cl = Some (Consensus, opts) →
  args !! "subparser_name" = Some (PyStr "consensus") →
  (∀ k, k ∈ required Consensus → ∃ v, args !! k = Some v ∧ v ≠ PyNone) →
  main host cl w = consensus host args w.
Proof.
  intros Hr Hsub Hname Hreq.
  rewrite (main_dispatch host cl w args Consensus Hr Hname).
  pose proof (read_args_func host _ _ _ _ _ _ Hr Hsub) as Hfunc.
  pose proof (any_of_attrs_present args (required Consensus) w Hreq) as Hany.
  unfold required in Hany.
  unfold dispatch_consensus, mbind, M_bind, bind at 1. cbv beta. rewrite Hany.
  unfold call_func, mbind, M_bind, bind, getattr. by rewrite Hfunc.
Qed.

Lemma required_consensus (args : gmap string pyval) b o st :
  args !! "bam" = Some (PyStr b) →
  args !! "c_output" = Some (PyStr o) →
  args !! "samtools" = Some (PyStr st) →
  ∀ k, k ∈ required Consensus → ∃ v, args !! k = Some v ∧ v ≠ PyNone.
Proof.
  intros Hb Ho Hs k Hk. unfold required in Hk.
  rewrite !elem_of_cons, elem_of_nil in Hk.
  destruct Hk as [->|[->|[->|[]]]]; by eexists.
Qed.

End FirstSteps.

(** X14: without a configuration file, [consensus] on a sample whose
    directory is not there yet ends in an [AttributeError]: line 160
    asks for [args.output], an argument of [fastq2bam]; the output
    directory of [consensus] is [args.c_output].  Nothing is created. *)
Theorem consensus_asks_for_the_output_of_fastq2bam host cl w args opts b o st :
  read_args host cl w = (Ret args, w) →
  cl_config cl = None →
  cl_sub cl = Some (Consensus, opts) →
  args !! "bam" = Some (PyStr b) →
  args !! "c_output" = Some (PyStr o) →
  args !! "samtools" = Some (PyStr st) →
  path_exists (fs w)
    (format "{}/{}" [o; PyStr.before_first ".bam" (PyStr.basename b)]) = false →
  main host cl w = (Raise (AttributeError "output"), w).
Proof.
  intros Hr Hcfg Hsub Hb Ho Hs Hfresh.
  destruct (read_args_plain host _ _ _ _ _ _ Hr Hsub Hcfg) as (_ & Hname & Hout).
  rewrite (main_reaches_consensus host cl w args opts Hr Hsub Hname
             (required_consensus args b o st Hb Ho Hs)).
  unfold consensus, mbind, M_bind, bind, getattr, os_path_exists, get_fs.
  rewrite Hb, Ho, (Hout eq_refl). simpl. unfold bind. simpl.
  simpl in Hfresh. by rewrite Hfresh.
Qed.

Lemma consensus_asks_for_the_output_of_fastq2bam_witness :
  let cl := Runs.consensus_cmd Runs.basic in
  let w := Scenes.fresh_world in
  let args := Runs.parsed cl w in
  read_args Runs.host cl w = (Ret args, w)
  ∧ args !! "bam" = Some (PyStr "/data/s1.bam")
  ∧ args !! "c_output" = Some (PyStr "/out")
  ∧ args !! "samtools" = Some (PyStr "samtools")
  ∧ path_exists (fs w)
      (format "{}/{}" ["/out"; PyStr.before_first ".bam" (PyStr.basename "/data/s1.bam")])
    = false
  ∧ main Runs.host cl w = (Raise (AttributeError "output"), w).
Proof.
  intros cl w args.
  assert (read_args Runs.host cl w = (Ret args, w)) as H0 by by_vm.
  assert (args !! "bam" = Some (PyStr "/data/s1.bam")) as H1 by by_vm.
  assert (args !! "c_output" = Some (PyStr "/out")) as H2 by by_vm.
  assert (args !! "samtools" = Some (PyStr "samtools")) as H3 by by_vm.
  assert (path_exists (fs w)
            (format "{}/{}" ["/out"; PyStr.before_first ".bam" (PyStr.basename "/data/s1.bam")])
          = false) as H4 by by_vm.
  split; [exact H0|]. split; [exact H1|]. split; [exact H2|]. split; [exact H3|].
  split; [exact H4|].
  exact (consensus_asks_for_the_output_of_fastq2bam Runs.host cl w args Runs.basic
           "/data/s1.bam" "/out" "samtools" H0 eq_refl eq_refl H1 H2 H3 H4).
Defined.

(** X15: [consensus] cannot be run twice on a sample.  When the
    directory [sscs] of the sample is there, from a finished or an
    interrupted run, [os.makedirs] of line 167 raises [FileExistsError]
    before any program is started, with or without a configuration
    file. *)
Theorem consensus_refuses_a_second_run host cl w args opts b o st :
  read_args host cl w = (Ret args, w) →
  cl_sub cl = Some (Consensus, opts) →
  args !! "subparser_name" = Some (PyStr "consensus") →
  args !! "bam" = Some (PyStr b) →
  args !! "c_output" = Some (PyStr o) →
  args !! "samtools" = Some (PyStr st) →
  let sample_dir := format "{}/{}" [o; PyStr.before_first ".bam" (PyStr.basename b)] in
  path_exists (fs w) sample_dir = true →
  path_exists (fs w) (sample_dir +:+ "/sscs") = true →
  main host cl w = (Raise (FileExistsError (sample_dir +:+ "/sscs")), w).
Proof.
  intros Hr Hsub Hname Hb Ho Hs sample_dir Hdir Hsscs.
  rewrite (main_reaches_consensus host cl w args opts Hr Hsub Hname
             (required_consensus args b o st Hb Ho Hs)).
  unfold consensus, mbind, M_bind, bind, getattr, os_path_exists, get_fs.
  rewrite Hb, Ho. simpl. unfold bind. simpl.
  unfold sample_dir in *. simpl in Hdir, Hsscs. rewrite Hdir. simpl.
  unfold os_makedirs, mbind, M_bind, bind, get_fs. simpl. by rewrite Hsscs.
Qed.

Lemma consensus_refuses_a_second_run_witness :
  let cl := Runs.consensus_cmd Runs.basic in
  let w := Scenes.second_run_world in
  let args := Runs.parsed cl w in
  let sample_dir :=
    format "{}/{}" ["/out"; PyStr.before_first ".bam" (PyStr.basename "/data/s1.bam")] in
  read_args Runs.host cl w = (Ret args, w)
  ∧ args !! "subparser_name" = Some (PyStr "consensus")
  ∧ args !! "bam" = Some (PyStr "/data/s1.bam")
  ∧ args !! "c_output" = Some (PyStr "/out")
  ∧ args !! "samtools" = Some (PyStr "samtools")
  ∧ path_exists (fs w) sample_dir = true
  ∧ path_exists (fs w) (sample_dir +:+ "/sscs") = true
  ∧ main Runs.host cl w = (Raise (FileExistsError "/out/s1/sscs"), w).
Proof.
  intros cl w args sample_dir.
  assert (read_args Runs.host cl w = (Ret args, w)) as H0 by by_vm.
  assert (args !! "subparser_name" = Some (PyStr "consensus")) as Hn by by_vm.
  assert (args !! "bam" = Some (PyStr "/data/s1.bam")) as H1 by by_vm.
  assert (args !! "c_output" = Some (PyStr "/out")) as H2 by by_vm.
  assert (args !! "samtools" = Some (PyStr "samtools")) as H3 by by_vm.
  assert (path_exists (fs w) sample_dir = true) as H4 by by_vm.
  assert (path_exists (fs w) (sample_dir +:+ "/sscs") = true) as H5 by by_vm.
  split; [exact H0|]. split; [exact Hn|]. split; [exact H1|]. split; [exact H2|].
  split; [exact H3|]. split; [exact H4|]. split; [exact H5|].
  exact (consensus_refuses_a_second_run Runs.host cl w args Runs.basic
           "/data/s1.bam" "/out" "samtools" H0 eq_refl Hn H1 H2 H3 H4 H5).
Defined.

(** ** Paths and names *)

Section Names.

Lemma append_nil (b : string) : "" +:+ b = b.
Proof. reflexivity. Qed.

Lemma append_cons c (a b : string) : String c a +:+ b = String c (a +:+ b).
Proof. reflexivity. Qed.

Lemma append_assoc (a b c : string) : (a +:+ b) +:+ c = a +:+ (b +:+ c).
Proof. induction a as [|x a IH]; [done|]. by rewrite !append_cons, IH. Qed.

Lemma mem_append c (a b : string) : PyStr.mem c (a +:+ b) = PyStr.mem c a || PyStr.mem c b.
Proof.
  induction a as [|x a IH]; [done|]. rewrite append_cons. cbn [PyStr.mem].
  by rewrite <- orb_assoc, <- IH.
Qed.

Lemma mem_rev_app c (a b : string) :
  PyStr.mem c (String.rev_app a b) = PyStr.mem c a || PyStr.mem c b.
Proof.
  revert b. induction a as [|x a IH]; intros b; [done|].
  cbn [String.rev_app PyStr.mem]. rewrite IH. cbn [PyStr.mem].
  by destruct (Ascii.eqb x c), (PyStr.mem c a), (PyStr.mem c b).
Qed.

Lemma rev_app_append (a b t : string) :
  String.rev_app a b +:+ t = String.rev_app a (b +:+ t).
Proof.
  revert b. induction a as [|x a IH]; intros b; [done|].
  cbn [String.rev_app]. by rewrite IH, append_cons.
Qed.

(** A base name has no slash. *)
Lemma basename_from_no_slash cur s :
  PyStr.mem "/" cur = false → PyStr.mem "/" (PyStr.basename_from cur s) = false.
Proof.
  revert cur. induction s as [|c s IH]; intros cur Hcur; cbn [PyStr.basename_from].
  - unfold String.rev. by rewrite mem_rev_app, Hcur.
  - destruct (Ascii.eqb c "/") eqn:Hc; apply IH; [done|].
    cbn [PyStr.mem]. by rewrite Hc.
Qed.

Lemma basename_no_slash s : PyStr.mem "/" (PyStr.basename s) = false.
Proof. by apply basename_from_no_slash. Qed.

(** Cutting a string at a separator brings in no character. *)
Lemma before_first_mem c sep s :
  PyStr.mem c s = false → PyStr.mem c (PyStr.before_first sep s) = false.
Proof.
  induction s as [|x s IH]; [done|]. cbn [PyStr.mem PyStr.before_first].
  intros [Hx Hs]%orb_false_iff.
  destruct (PyStr.startswith sep (String x s)); [done|].
  cbn [PyStr.mem]. by rewrite Hx, IH.
Qed.

Lemma dirname_from_no_slash seen cur s :
  PyStr.mem "/" s = false → PyStr.dirname_from seen cur s = seen.
Proof.
  revert cur. induction s as [|c s IH]; intros cur; [done|].
  cbn [PyStr.mem PyStr.dirname_from].
  intros [Hc Hs]%orb_false_iff. rewrite Hc. by apply IH.
Qed.

Lemma dirname_from_append a b : ∀ seen cur,
  PyStr.mem "/" b = false →
  PyStr.dirname_from seen cur (a +:+ String "/" b) = seen +:+ String.rev cur +:+ a.
Proof.
  induction a as [|c a IH]; intros seen cur Hb.
  - rewrite append_nil. cbn [PyStr.dirname_from].
    change (Ascii.eqb "/" "/") with true. cbv iota.
    rewrite (dirname_from_no_slash _ _ _ Hb).
    by rewrite append_empty_r.
  - rewrite append_cons. cbn [PyStr.dirname_from]. destruct (Ascii.eqb c "/") eqn:Hc.
    + apply Ascii.eqb_eq in Hc as ->. rewrite (IH _ _ Hb).
      change (String.rev "/") with "/". by rewrite append_assoc.
    + rewrite (IH _ _ Hb). f_equal. unfold String.rev. cbn [String.rev_app].
      by rewrite !rev_app_append.
Qed.

(** The directory of a file is what stands before its last slash. *)
Lemma dirname_append a b :
  PyStr.mem "/" b = false → PyStr.dirname (a +:+ String "/" b) = a.
Proof. intros Hb. unfold PyStr.dirname. by rewrite (dirname_from_append a b "" "" Hb). Qed.

(** A path that does not start with [.bam] does not come to start with
    it by having [.bam] appended. *)
Lemma startswith_dot_bam c p r :
  PyStr.startswith ".bam" (String c p) = false →
  PyStr.startswith ".bam" (String c p +:+ ".bam" +:+ r) = false.
Proof.
  destruct p as [|c1 [|c2 [|c3 p]]]; rewrite ?append_cons, ?append_nil;
    cbn [PyStr.startswith];
    destruct (Ascii.eqb "." c); try done;
    try (destruct (Ascii.eqb "b" c1); try done);
    try (destruct (Ascii.eqb "a" c2); try done);
    try (destruct (Ascii.eqb "m" c3); try done).
Qed.

(** What [split('.bam', 1)[0]] leaves of a name with [.bam] in it. *)
Lemma before_first_dot_bam p r :
  PyStr.contains ".bam" p = false →
  PyStr.before_first ".bam" (p +:+ ".bam" +:+ r) = p.
Proof.
  induction p as [|c p IH]; [done|].
  cbn [PyStr.contains]. intros [Hc Hp]%orb_false_iff.
  pose proof (startswith_dot_bam c p r Hc) as Hs.
  rewrite (append_cons c p (".bam" +:+ r)) in Hs |- *. cbn [PyStr.before_first].
  by rewrite Hs, (IH Hp).
Qed.

End Names.

(** X16: [sort_index] names its output after what stands before the
    first [.bam] of the whole path, directories included, and so the
    same for every path that starts alike.  When the directory of that
    name exists once [samtools view] has been started, and the input is
    there after [samtools sort], the call returns the name, having
    started [view], [sort] and [index] in this order and removed the
    input in between. *)
Theorem sort_index_result host p rest st w :
  let bam := p +:+ ".bam" +:+ rest in
  let sorted := p +:+ ".sorted.bam" in
  let view := Ev_spawn (PyStr.split_char " " (st +:+ " view -bu " +:+ bam)) in
  let sort := Ev_spawn (PyStr.split_char " " (st +:+ " sort -")) in
  let index := Ev_spawn (PyStr.split_char " " (format "{} index {}" [st; sorted])) in
  let f1 := tool_effect host view (fs w) in
  let f2 := tool_effect host sort {| files := files f1 ∪ {[sorted]}; dirs := dirs f1 |} in
  PyStr.contains ".bam" p = false →
  PyStr.dirname sorted ∈ dirs f1 →
  bam ∈ files f2 →
  sort_index host bam (PyStr st) w
  = (Ret sorted,
     {| fs := tool_effect host index {| files := files f2 ∖ {[bam]}; dirs := dirs f2 |};
        trace := trace w ++ [view; sort; index] |}).
Proof.
  intros bam sorted view sort index f1 f2 Hp Hdir Hin.
  assert (format "{}.sorted.bam" [PyStr.before_first ".bam" bam] = sorted) as Hname.
  { unfold bam. rewrite (before_first_dot_bam p rest Hp). reflexivity. }
  unfold sort_index. rewrite Hname.
  unfold as_str, Popen, call, run, open_w, os_remove, get_fs, put_fs, mret, M_ret, ret.
  repeat (unfold mbind, M_bind, bind; cbn beta iota delta [fs trace]).
  fold view f1. rewrite (bool_decide_true _ Hdir).
  cbn beta iota delta [fs trace]. fold sort f2. rewrite (bool_decide_true _ Hin).
  cbn beta iota delta [fs trace]. fold index.
  by rewrite <- !app_assoc.
Qed.

Lemma sort_index_result_witness :
  let p := "/runs/x" in
  let rest := ".d/s1.sscs.bam" in
  let st := "samtools" in
  let w := Scenes.nested_world in
  let bam := p +:+ ".bam" +:+ rest in
  let sorted := p +:+ ".sorted.bam" in
  let view := Ev_spawn (PyStr.split_char " " (st +:+ " view -bu " +:+ bam)) in
  let sort := Ev_spawn (PyStr.split_char " " (st +:+ " sort -")) in
  let index := Ev_spawn (PyStr.split_char " " (format "{} index {}" [st; sorted])) in
  let f1 := tool_effect Runs.host view (fs w) in
  let f2 := tool_effect Runs.host sort
              {| files := files f1 ∪ {[sorted]}; dirs := dirs f1 |} in
  PyStr.contains ".bam" p = false
  ∧ PyStr.dirname sorted ∈ dirs f1
  ∧ bam ∈ files f2
  ∧ sort_index Runs.host bam (PyStr st) w
    = (Ret "/runs/x.sorted.bam",
       {| fs := tool_effect Runs.host index
                  {| files := files f2 ∖ {[bam]}; dirs := dirs f2 |};
          trace := trace w ++ [view; sort; index] |}).
Proof.
  intros p rest st w bam sorted view sort index f1 f2.
  assert (PyStr.contains ".bam" p = false) as H1 by by_vm.
  assert (PyStr.dirname sorted ∈ dirs f1) as H2.
  { apply (bool_decide_unpack _). vm_compute. exact I. }
  assert (bam ∈ files f2) as H3.
  { apply (bool_decide_unpack _). vm_compute. exact I. }
  split; [exact H1|]. split; [exact H2|]. split; [exact H3|].
  exact (sort_index_result Runs.host p rest st w H1 H2 H3).
Defined.

(** ** Runs of [fastq2bam] *)

Section Fastq2bamRuns.

Variable host : Host.

Lemma run_either (b : bool) (x y : string) :
  (if b then os_system host x else os_system host y) = os_system host (if b then x else y).
Proof. by destruct b. Qed.

End Fastq2bamRuns.


(** The tools of the contract make no directory. *)
Lemma contract_keeps_dirs texts ev f :
  dirs (tool_effect (Contract.host texts) ev f) = dirs f.
Proof.
  destruct ev as [cmd|argv|]; cbn [tool_effect Contract.host Contract.effect]; [| |done].
  - unfold Contract.system_effect, Contract.add_files. by repeat case_match.
  - unfold Contract.spawn_effect, Contract.add_files. by repeat case_match.
Qed.


(** ** File names *)

Section Templates.

Lemma format_plain s args : cut_field s = None → format s args = s.
Proof.
  induction s as [|c|c d t IHt IHd] using string_ind2; [done|done|].
  change (cut_field (String c (String d t))) with
    (if Ascii.eqb c "{" && Ascii.eqb d "}" then Some (EmptyString, t)
     else '(m, s) ← cut_field (String d t); Some (String c m, s)).
  change (format (String c (String d t)) args) with
    (if Ascii.eqb c "{" && Ascii.eqb d "}"
     then match args with a :: rest => a +:+ format t rest | [] => format t [] end
     else String c (format (String d t) args)).
  destruct (Ascii.eqb c "{" && Ascii.eqb d "}"); [done|].
  destruct (cut_field (String d t)) as [[m s]|] eqn:Hcut; [done|].
  intros _. by rewrite IHd.
Qed.

Lemma format_cut t : ∀ m s a rest,
  cut_field t = Some (m, s) → format t (a :: rest) = m +:+ a +:+ format s rest.
Proof.
  induction t as [|c|c d t IHt IHd] using string_ind2; intros m s a rest; [done|done|].
  change (cut_field (String c (String d t))) with
    (if Ascii.eqb c "{" && Ascii.eqb d "}" then Some (EmptyString, t)
     else '(m, s) ← cut_field (String d t); Some (String c m, s)).
  change (format (String c (String d t)) (a :: rest)) with
    (if Ascii.eqb c "{" && Ascii.eqb d "}"
     then a +:+ format t rest
     else String c (format (String d t) (a :: rest))).
  destruct (Ascii.eqb c "{" && Ascii.eqb d "}").
  - intros H. by simplify_eq.
  - destruct (cut_field (String d t)) as [[m' s']|] eqn:Hcut; [|done].
    intros H. simpl in H. simplify_eq. by rewrite (IHd m' s a rest eq_refl).
Qed.

Lemma format_template1 t s a : template1 t = Some s → format t [a] = a +:+ s.
Proof.
  unfold template1. destruct (cut_field t) as [[[|] r]|] eqn:Ht; try done.
  destruct (cut_field r) eqn:Hr; [done|]. intros H. simplify_eq.
  by rewrite (format_cut t "" s a [] Ht), (format_plain s [] Hr).
Qed.

Lemma format_template2 t m s a b :
  template2 t = Some (m, s) → format t [a; b] = a +:+ m +:+ b +:+ s.
Proof.
  unfold template2. destruct (cut_field t) as [[[|] r]|] eqn:Ht; try done.
  destruct (cut_field r) as [[m' s']|] eqn:Hr; [|done].
  destruct (cut_field s') eqn:Hs; [done|]. intros H. simplify_eq.
  by rewrite (format_cut t "" r a [b] Ht), (format_cut r m s b [] Hr), (format_plain s [] Hs).
Qed.

Lemma prefix_clash m m' x y : clash m m' = true → m +:+ x ≠ m' +:+ y.
Proof.
  revert m'. induction m as [|a m IH]; intros [|b m']; try done.
  cbn [clash]. rewrite !append_cons. intros H Heq. injection Heq as -> Heq.
  rewrite Ascii.eqb_refl in H. by apply (IH m' H).
Qed.

Lemma append_cancel (a x y : string) : a +:+ x = a +:+ y → x = y.
Proof.
  induction a as [|c a IH]; [done|]. rewrite !append_cons. intros H.
  injection H as H. by apply IH.
Qed.

Lemma rev_app_split (a b c : string) :
  String.rev_app (a +:+ b) c = String.rev_app b (String.rev_app a c).
Proof.
  revert c. induction a as [|x a IH]; intros c; [done|].
  rewrite append_cons. cbn [String.rev_app]. by rewrite IH.
Qed.

Lemma rev_append (a b : string) : String.rev (a +:+ b) = String.rev b +:+ String.rev a.
Proof. unfold String.rev. by rewrite rev_app_split, rev_app_append. Qed.

Lemma suffix_clash s t x y : ends_differ s t = true → x +:+ s ≠ y +:+ t.
Proof.
  intros H Heq. apply (f_equal String.rev) in Heq. rewrite !rev_append in Heq.
  by apply (prefix_clash _ _ _ _ H) in Heq.
Qed.

(** Two names of the same directory whose middle parts part ways. *)
Lemma format2_ne_prefix t t' m s m' s' a b b' :
  template2 t = Some (m, s) → template2 t' = Some (m', s') → clash m m' = true →
  format t [a; b] ≠ format t' [a; b'].
Proof.
  intros Ht Ht' H. rewrite (format_template2 _ _ _ _ _ Ht), (format_template2 _ _ _ _ _ Ht').
  intros Heq. apply append_cancel in Heq. by apply (prefix_clash _ _ _ _ H) in Heq.
Qed.

(** Two names whose endings part ways. *)
Lemma format2_ne_suffix t t' m s m' s' a b a' b' :
  template2 t = Some (m, s) → template2 t' = Some (m', s') → ends_differ s s' = true →
  format t [a; b] ≠ format t' [a'; b'].
Proof.
  intros Ht Ht' H. rewrite (format_template2 _ _ _ _ _ Ht), (format_template2 _ _ _ _ _ Ht').
  rewrite <- !append_assoc. by apply suffix_clash.
Qed.

Lemma format1_ne_suffix t t' s m' s' a a' b' :
  template1 t = Some s → template2 t' = Some (m', s') → ends_differ s s' = true →
  format t [a] ≠ format t' [a'; b'].
Proof.
  intros Ht Ht' H. rewrite (format_template1 _ _ _ Ht), (format_template2 _ _ _ _ _ Ht').
  rewrite <- !append_assoc. by apply suffix_clash.
Qed.

End Templates.

(** ** Files that only a program can bring about *)

Section Absent.

Variable host : Host.
Variable p : string.

Lemma tracks_ret {A} (a : A) : tracks host p (mret a).
Proof.
  intros w r w' H. injection H as <- <-. exists []. by rewrite app_nil_r.
Qed.

Lemma tracks_raise {A} e : tracks host p (raise e : M A).
Proof.
  intros w r w' H. injection H as <- <-. exists []. by rewrite app_nil_r.
Qed.

Lemma tracks_bind {A B} (m : M A) (k : A → M B) :
  tracks host p m → (∀ a, tracks host p (k a)) → tracks host p (m ≫= k).
Proof.
  intros Hm Hk w r w' H. unfold mbind, M_bind, bind in H.
  destruct (m w) as [[a|e] w1] eqn:Hmw.
  - destruct (Hm _ _ _ Hmw) as (l1 & Ht1 & H1).
    destruct (Hk a _ _ _ H) as (l2 & Ht2 & H2).
    exists (l1 ++ l2). split; [by rewrite Ht2, Ht1, app_assoc|].
    intros [Hl1 Hl2]%Forall_app Hw. by apply H2, H1.
  - injection H as <- <-. by apply (Hm _ _ _ Hmw).
Qed.

Lemma tracks_if {A} (b : bool) (m1 m2 : M A) :
  tracks host p m1 → tracks host p m2 → tracks host p (if b then m1 else m2).
Proof. by destruct b. Qed.

Lemma tracks_of_option {A} (o : option A) e : tracks host p (of_option o e).
Proof. destruct o; [apply tracks_ret|apply tracks_raise]. Qed.

Lemma tracks_getattr args n : tracks host p (getattr args n).
Proof. apply tracks_of_option. Qed.

Lemma tracks_as_str v : tracks host p (as_str v).
Proof. destruct v; first [apply tracks_ret|apply tracks_raise]. Qed.

(** A step that starts no program and adds no file. *)
Lemma tracks_fs {A} (m : M A) :
  (∀ w r w', m w = (r, w') → trace w' = trace w ∧ files (fs w') ⊆ files (fs w)) →
  tracks host p m.
Proof.
  intros Hm w r w' H. destruct (Hm _ _ _ H) as [Ht Hf].
  exists []. split; [by rewrite app_nil_r|]. intros _ Hw Hin. by apply Hw, Hf.
Qed.

Lemma tracks_path_exists q : tracks host p (os_path_exists q).
Proof. apply tracks_fs. intros w r w' H. by injection H as <- <-. Qed.

Lemma tracks_access q : tracks host p (os_access_W host q).
Proof. apply tracks_fs. intros w r w' H. by injection H as <- <-. Qed.

Lemma tracks_makedirs q : tracks host p (os_makedirs q).
Proof.
  apply tracks_fs. intros w r w'.
  unfold os_makedirs, mbind, M_bind, bind, get_fs, put_fs. cbn [fs trace].
  destruct (path_exists (fs w) q); [by intros H; injection H as <- <-|].
  destruct (List.find _ _); intros H; by injection H as <- <-.
Qed.

Lemma tracks_remove q : tracks host p (os_remove q).
Proof.
  apply tracks_fs. intros w r w'.
  unfold os_remove, mbind, M_bind, bind, get_fs, put_fs. cbn [fs trace].
  destruct (bool_decide (q ∈ files (fs w))); intros H; injection H as <- <-; [|done].
  split; [done|]. cbn [fs files]. intros x Hx. by apply elem_of_difference in Hx as [? _].
Qed.

Lemma tracks_rename src dst : dst ≠ p → tracks host p (os_rename src dst).
Proof.
  intros Hne w r w'.
  unfold os_rename, mbind, M_bind, bind, get_fs, put_fs. cbn [fs trace].
  destruct (negb (bool_decide (src ∈ files (fs w))));
    [intros H; injection H as <- <-; exists []; by rewrite app_nil_r|].
  destruct (negb (bool_decide (PyStr.dirname dst ∈ dirs (fs w))));
    intros H; injection H as <- <-; exists []; (split; [by rewrite app_nil_r|]); [done|].
  intros _ Hw. cbn [fs files]. intros [Hx|Hx]%elem_of_union.
  - by apply elem_of_difference in Hx as [? _].
  - apply elem_of_singleton in Hx. by destruct Hne.
Qed.

Lemma tracks_open q : q ≠ p → tracks host p (open_w q).
Proof.
  intros Hne w r w'.
  unfold open_w, mbind, M_bind, bind, get_fs, put_fs. cbn [fs trace].
  destruct (bool_decide (PyStr.dirname q ∈ dirs (fs w)));
    intros H; injection H as <- <-; exists []; (split; [by rewrite app_nil_r|]); [|done].
  intros _ Hw. cbn [fs files]. intros [Hx|Hx]%elem_of_union; [done|].
  apply elem_of_singleton in Hx. by destruct Hne.
Qed.

Lemma tracks_run ev : tracks host p (run host ev).
Proof.
  intros w r w' H. injection H as <- <-. exists [ev]. split; [done|].
  intros Hsafe Hw. cbn [fs]. by apply (Forall_inv Hsafe).
Qed.

Lemma tracks_sort_index bam st :
  format "{}.sorted.bam" [PyStr.before_first ".bam" bam] ≠ p →
  tracks host p (sort_index host bam st).
Proof.
  intros Hne. unfold sort_index.
  apply tracks_bind; [apply tracks_as_str|intros s].
  apply tracks_bind; [apply tracks_run|intros _].
  apply tracks_bind; [by apply tracks_open|intros _].
  apply tracks_bind; [apply tracks_run|intros _].
  apply tracks_bind; [apply tracks_remove|intros _].
  apply tracks_bind; [apply tracks_run|intros _].
  apply tracks_ret.
Qed.

Lemma blocked_ret_bind {A B} (a : A) (k : A → M B) :
  blocked host p (k a) → blocked host p (mret a ≫= k).
Proof. intros Hk w r w' H. by apply Hk. Qed.

Lemma blocked_bind_r {A B} (m : M A) (k : A → M B) :
  tracks host p m → (∀ a, blocked host p (k a)) → blocked host p (m ≫= k).
Proof.
  intros Hm Hk w r w' H. unfold mbind, M_bind, bind in H.
  destruct (m w) as [[a|e] w1] eqn:Hmw.
  - destruct (Hm _ _ _ Hmw) as (l1 & Ht1 & H1).
    destruct (Hk a _ _ _ H) as (l2 & Ht2 & H2).
    exists (l1 ++ l2). split; [by rewrite Ht2, Ht1, app_assoc|].
    intros [Hl1 Hl2]%Forall_app Hw. by apply H2, H1.
  - injection H as <- <-. destruct (Hm _ _ _ Hmw) as (l1 & Ht1 & _).
    exists l1. split; [done|]. by eexists.
Qed.

Lemma blocked_bind_l {A B} (m : M A) (k : A → M B) :
  blocked host p m → (∀ a, tracks host p (k a)) → blocked host p (m ≫= k).
Proof.
  intros Hm Hk w r w' H. unfold mbind, M_bind, bind in H.
  destruct (m w) as [[a|e] w1] eqn:Hmw.
  - destruct (Hm _ _ _ Hmw) as (l1 & Ht1 & H1).
    destruct (Hk a _ _ _ H) as (l2 & Ht2 & _).
    exists (l1 ++ l2). split; [by rewrite Ht2, Ht1, app_assoc|].
    intros [Hl1 Hl2]%Forall_app Hw. by destruct (H1 Hl1 Hw).
  - injection H as <- <-. destruct (Hm _ _ _ Hmw) as (l1 & Ht1 & _).
    exists l1. split; [done|]. by eexists.
Qed.

Lemma blocked_rename dst : blocked host p (os_rename p dst).
Proof.
  intros w r w'.
  unfold os_rename, mbind, M_bind, bind, get_fs, put_fs. cbn [fs trace].
  intros H. exists []. split.
  - destruct (negb (bool_decide (p ∈ files (fs w))));
      [|destruct (negb (bool_decide (PyStr.dirname dst ∈ dirs (fs w))))];
      injection H as <- <-; by rewrite app_nil_r.
  - intros _ Hw. rewrite bool_decide_false in H by done. injection H as <- <-. by eexists.
Qed.

Lemma blocked_remove : blocked host p (os_remove p).
Proof.
  intros w r w'.
  unfold os_remove, mbind, M_bind, bind, get_fs, put_fs. cbn [fs trace].
  intros H. exists []. split.
  - destruct (bool_decide (p ∈ files (fs w))); injection H as <- <-; by rewrite app_nil_r.
  - intros _ Hw. rewrite bool_decide_false in H by done. injection H as <- <-. by eexists.
Qed.

End Absent.

(** Two file names of the script that cannot be the same. *)
Ltac names_differ :=
  first
    [ by eapply format2_ne_prefix; [reflexivity|reflexivity|reflexivity]
    | by eapply format2_ne_suffix; [reflexivity|reflexivity|reflexivity]
    | by eapply format1_ne_suffix; [reflexivity|reflexivity|reflexivity] ].

(** The steps that leave a file out. *)
Ltac tracks_all :=
  repeat first
    [ apply tracks_ret | apply tracks_raise | apply tracks_getattr | apply tracks_as_str
    | apply tracks_path_exists | apply tracks_access | apply tracks_makedirs
    | apply tracks_remove | apply tracks_run
    | apply tracks_if
    | apply tracks_rename; names_differ
    | apply tracks_sort_index; names_differ
    | apply tracks_bind; [|intros ?] ].

(** The steps up to the one that asks for the file. *)
Ltac reach :=
  repeat first
    [ apply blocked_bind_l;
        [first [apply blocked_remove | apply blocked_rename] | intros ?; tracks_all]
    | apply blocked_ret_bind; cbv beta zeta
    | apply blocked_bind_r; [solve [tracks_all] | intros ?] ].

(** X18: with singleton correction not [True], [consensus] does not
    return.  The relocation of line 276 takes the statistics file from
    [dcs_sc], where only the singleton-correction block moves it; so
    unless one of the programs that were started wrote that file itself,
    the call raises, for every host and every world without the file. *)
Theorem consensus_without_correction_never_completes host args w r w' b co v :
  args !! "bam" = Some (PyStr b) →
  args !! "c_output" = Some co →
  args !! "scorrect" = Some v →
  v ≠ PyBool true →
  let identifier := PyStr.before_first ".bam" (PyStr.basename b) in
  let sample_dir := format "{}/{}" [py_str co; identifier] in
  let stats := format "{}/dcs_sc/{}.stats.txt" [sample_dir; identifier] in
  stats ∉ files (fs w) →
  consensus host args w = (r, w') →
  ∃ started, trace w' = trace w ++ started
             ∧ (Forall (leaves_out host stats) started → ∃ e, r = Raise e).
Proof.
  intros Hb Hco Hsc Hv identifier sample_dir stats Hw Hrun.
  assert (blocked host stats (consensus host args)) as Hblocked.
  { unfold consensus, getattr. rewrite Hb, Hco, Hsc.
    cbn [of_option as_str]. unfold os_system, Popen, call.
    fold identifier. fold sample_dir.
    reach.
    unfold is_True. rewrite bool_decide_false by done.
    apply blocked_bind_r; [apply tracks_ret|intros _].
    apply blocked_bind_l.
    - unfold relocation_block. reach.
    - intros _. unfold cleanup_block. tracks_all. }
  destruct (Hblocked w r w' Hrun) as (l & Ht & Hl).
  exists l. split; [done|]. intros Hsafe. by apply Hl.
Qed.

(** X19: with [--cleanup] on, [consensus] does not return either.  The
    second removal of the cleanup asks for the bad-read file under
    [sssc], a directory the script never makes; so unless one of the
    programs that were started wrote a file of that name, the call
    raises, with or without singleton correction, for every host and
    every world without the file. *)
Theorem consensus_with_cleanup_never_completes host args w r w' b co :
  args !! "bam" = Some (PyStr b) →
  args !! "c_output" = Some co →
  args !! "cleanup" = Some (PyBool true) →
  let identifier := PyStr.before_first ".bam" (PyStr.basename b) in
  let sample_dir := format "{}/{}" [py_str co; identifier] in
  let bad_reads := format "{}/sssc/{}.badReads.bam" [sample_dir; identifier] in
  bad_reads ∉ files (fs w) →
  consensus host args w = (r, w') →
  ∃ started, trace w' = trace w ++ started
             ∧ (Forall (leaves_out host bad_reads) started → ∃ e, r = Raise e).
Proof.
  intros Hb Hco Hcl identifier sample_dir bad_reads Hw Hrun.
  assert (blocked host bad_reads (consensus host args)) as Hblocked.
  { unfold consensus, singleton_correction_block, relocation_block, getattr.
    rewrite Hb, Hco, Hcl.
    cbn [of_option as_str]. unfold os_system, Popen, call.
    fold identifier. fold sample_dir.
    reach. }
  destruct (Hblocked w r w' Hrun) as (l & Ht & Hl).
  exists l. split; [done|]. intros Hsafe. by apply Hl.
Qed.

Lemma consensus_without_correction_never_completes_witness :
  let cl := Runs.consensus_cmd (Runs.basic ++ [("--scorrect", "")]) in
  let w := Runs.world in
  let args := Runs.parsed cl w in
  let res := consensus Runs.host args w in
  let identifier := PyStr.before_first ".bam" (PyStr.basename "/data/s1.bam") in
  let sample_dir := format "{}/{}" [py_str (PyStr "/out"); identifier] in
  let stats := format "{}/dcs_sc/{}.stats.txt" [sample_dir; identifier] in
  args !! "bam" = Some (PyStr "/data/s1.bam")
  ∧ args !! "c_output" = Some (PyStr "/out")
  ∧ args !! "scorrect" = Some (PyBool false)
  ∧ PyBool false ≠ PyBool true
  ∧ (stats ∉ files (fs w))
  ∧ ∃ started, trace (snd res) = trace w ++ started
               ∧ (Forall (leaves_out Runs.host stats) started → ∃ e, fst res = Raise e).
Proof.
  intros cl w args res identifier sample_dir stats.
  assert (args !! "bam" = Some (PyStr "/data/s1.bam")) as H1 by by_vm.
  assert (args !! "c_output" = Some (PyStr "/out")) as H2 by by_vm.
  assert (args !! "scorrect" = Some (PyBool false)) as H3 by by_vm.
  assert (PyBool false ≠ PyBool true) as H4 by discriminate.
  assert (stats ∉ files (fs w)) as H5.
  { apply (bool_decide_unpack _). vm_compute. exact I. }
  split; [exact H1|]. split; [exact H2|]. split; [exact H3|]. split; [exact H4|].
  split; [exact H5|].
  exact (consensus_without_correction_never_completes Runs.host args w (fst res) (snd res)
           "/data/s1.bam" (PyStr "/out") (PyBool false) H1 H2 H3 H4 H5
           (surjective_pairing res)).
Defined.

Lemma consensus_with_cleanup_never_completes_witness :
  let cl := Runs.consensus_cmd
              (Runs.basic ++ [("--scorrect", "True"); ("--cleanup", "True")]) in
  let w := Runs.world in
  let args := Runs.parsed cl w in
  let res := consensus Runs.host args w in
  let identifier := PyStr.before_first ".bam" (PyStr.basename "/data/s1.bam") in
  let sample_dir := format "{}/{}" [py_str (PyStr "/out"); identifier] in
  let bad_reads := format "{}/sssc/{}.badReads.bam" [sample_dir; identifier] in
  args !! "bam" = Some (PyStr "/data/s1.bam")
  ∧ args !! "c_output" = Some (PyStr "/out")
  ∧ args !! "cleanup" = Some (PyBool true)
  ∧ (bad_reads ∉ files (fs w))
  ∧ ∃ started, trace (snd res) = trace w ++ started
               ∧ (Forall (leaves_out Runs.host bad_reads) started → ∃ e, fst res = Raise e).
Proof.
  intros cl w args res identifier sample_dir bad_reads.
  assert (args !! "bam" = Some (PyStr "/data/s1.bam")) as H1 by by_vm.
  assert (args !! "c_output" = Some (PyStr "/out")) as H2 by by_vm.
  assert (args !! "cleanup" = Some (PyBool true)) as H3 by by_vm.
  assert (bad_reads ∉ files (fs w)) as H5.
  { apply (bool_decide_unpack _). vm_compute. exact I. }
  split; [exact H1|]. split; [exact H2|]. split; [exact H3|]. split; [exact H5|].
  exact (consensus_with_cleanup_never_completes Runs.host args w (fst res) (snd res)
           "/data/s1.bam" (PyStr "/out") H1 H2 H3 H5 (surjective_pairing res)).
Defined.

(** ** [fastq2bam] in an output directory *)

Section OutputDirectory.

Variable host : Host.

Lemma ret_bind {A B} (a : A) (k : A → M B) w : (ret a ≫= k) w = k a w.
Proof. reflexivity. Qed.

(** [os.makedirs] makes the directory it is asked for. *)
Lemma prefixes_from_self cur s :
  String.rev cur +:+ s ∈ PyStr.prefixes_from cur s.
Proof.
  revert cur. induction s as [|c s IH]; intros cur; cbn [PyStr.prefixes_from].
  - rewrite append_empty_r. by left.
  - assert (String.rev cur +:+ String c s = String.rev (String c cur) +:+ s) as ->.
    { unfold String.rev. cbn [String.rev_app]. by rewrite !rev_app_append. }
    destruct (Ascii.eqb c "/"); [apply elem_of_app; right|]; apply IH.
Qed.

Lemma prefixes_self q : q ∈ PyStr.prefixes q.
Proof. apply (prefixes_from_self "" q). Qed.

(** The directory check of lines 80 to 83: afterwards the directory is
    there, and nothing else has changed but directories. *)
Lemma directory_step (o d : string) w :
  path_exists (fs w) o = true →
  writable host o = true →
  (∀ q, q ∈ PyStr.prefixes d → q ∉ files (fs w)) →
  ∃ w1,
    (∀ B (k : M B),
       (ex ← os_path_exists d;
        (if negb ex
         then out ← as_str (PyStr o); ok ← os_access_W host out;
              if ok : bool then os_makedirs d else mret tt
         else mret tt);;
        k) w = k w1)
    ∧ trace w1 = trace w ∧ files (fs w1) = files (fs w)
    ∧ dirs (fs w) ⊆ dirs (fs w1) ∧ d ∈ dirs (fs w1).
Proof.
  intros Ho Hwr Hfiles.
  unfold os_path_exists, os_access_W, as_str, os_makedirs, get_fs, put_fs, mret, M_ret, ret.
  destruct (path_exists (fs w) d) eqn:Hd.
  - exists w. split.
    + intros B k.
      repeat (unfold mbind, M_bind, bind; cbn beta iota delta [fs trace]).
      by rewrite Hd.
    + repeat split; [done|].
      apply orb_true_iff in Hd as [Hd|Hd]; apply bool_decide_eq_true in Hd; [|done].
      by destruct (Hfiles d (prefixes_self d)).
  - exists {| fs := {| files := files (fs w);
                       dirs := dirs (fs w) ∪ list_to_set (PyStr.prefixes d) |};
              trace := trace w |}.
    split.
    + intros B k.
      repeat (unfold mbind, M_bind, bind; cbn beta iota delta [fs trace]).
      rewrite Hd. cbn beta iota delta [negb fs trace]. rewrite Ho, Hwr.
      cbn beta iota delta [andb fs trace]. rewrite Hd. cbn beta iota.
      destruct (List.find _ (PyStr.prefixes d)) as [q|] eqn:Hfind; [|done].
      apply find_some in Hfind as [Hin Hq]. apply bool_decide_eq_true in Hq.
      by destruct (Hfiles q (proj2 (list_elem_of_In _ _) Hin)).
    + cbn [fs trace files dirs]. repeat split; [by apply union_subseteq_l|].
      apply elem_of_union. right. apply elem_of_list_to_set, prefixes_self.
Qed.

End OutputDirectory.

(** X20: in an output directory that exists and that the user may
    write to, [fastq2bam] makes the sub-directories [fastq_tag] and
    [bamfiles] where they are missing, starts five programs and returns.
    Provided the programs remove nothing, both sub-directories and the
    sorted BAM, named after what stands in the base name of [fastq1]
    before [args.name], are there at the end. *)
Theorem fastq2bam_in_an_output_directory host args w o f1 sep v2 vp vl bw vr st :
  args !! "output" = Some (PyStr o) →
  args !! "fastq1" = Some (PyStr f1) →
  args !! "name" = Some (PyStr sep) →
  sep ≠ "" →
  args !! "fastq2" = Some v2 →
  args !! "bpattern" = Some vp →
  args !! "blist" = Some vl →
  args !! "bwa" = Some (PyStr bw) →
  args !! "ref" = Some vr →
  args !! "samtools" = Some (PyStr st) →
  path_exists (fs w) o = true →
  writable host o = true →
  (∀ q, q ∈ PyStr.prefixes (o +:+ "/fastq_tag") ++ PyStr.prefixes (o +:+ "/bamfiles") →
        q ∉ files (fs w)) →
  (∀ ev f, dirs f ⊆ dirs (tool_effect host ev f) ∧ files f ⊆ files (tool_effect host ev f)) →
  ∃ started w',
    fastq2bam host args w = (Ret tt, w')
    ∧ trace w' = trace w ++ started
    ∧ length started = 5
    ∧ o +:+ "/fastq_tag" ∈ dirs (fs w')
    ∧ o +:+ "/bamfiles" ∈ dirs (fs w')
    ∧ format "{}/{}.bam" [o +:+ "/bamfiles"; PyStr.before_first sep (PyStr.basename f1)]
      ∈ files (fs w').
Proof.
  intros Ho Hf1 Hname Hsep Hf2 Hp Hl Hbwa Href Hst Hout Hwr Hfiles Htools.
  destruct (directory_step host o (o +:+ "/fastq_tag") w Hout Hwr)
    as (w1 & Hk1 & Ht1 & Hfs1 & Hd1 & Htag).
  { intros q Hq. apply Hfiles, elem_of_app. by left. }
  destruct (directory_step host o (o +:+ "/bamfiles") w1)
    as (w2 & Hk2 & Ht2 & Hfs2 & Hd2 & Hbam); [|exact Hwr|..].
  { apply orb_true_iff in Hout as [Hin|Hin]; apply bool_decide_eq_true in Hin;
      apply orb_true_iff; [left|right]; apply bool_decide_eq_true.
    - by rewrite Hfs1.
    - by apply Hd1. }
  { intros q Hq. rewrite Hfs1. apply Hfiles, elem_of_app. by right. }
  unfold fastq2bam, getattr. rewrite Ho, Hf1, Hname, Hf2, Hp, Hl, Hbwa, Href, Hst.
  cbn [of_option]. rewrite ret_bind.
  change (format "{}/fastq_tag" [py_str (PyStr o)]) with (o +:+ "/fastq_tag").
  change (format "{}/bamfiles" [py_str (PyStr o)]) with (o +:+ "/bamfiles").
  rewrite Hk1, Hk2. rewrite ret_bind. cbn [as_str]. rewrite !ret_bind.
  destruct sep as [|c sep]; [done|].
  set (filename := PyStr.before_first (String c sep) (PyStr.basename f1)).
  unfold mret, M_ret. rewrite !ret_bind.
  rewrite !run_either.
  unfold os_system, Popen, call, run, open_w, as_str, get_fs, put_fs, ret.
  repeat (unfold mbind, M_bind, bind; cbn beta iota delta [fs trace]).
  match goal with |- context [tool_effect host (Ev_spawn ?v) (tool_effect host (Ev_spawn ?b)
                                (tool_effect host (Ev_system ?e) (fs w2)))] =>
    set (view := Ev_spawn v); set (bwa := Ev_spawn b); set (extract := Ev_system e) end.
  set (f3 := tool_effect host view (tool_effect host bwa (tool_effect host extract (fs w2)))).
  assert (PyStr.dirname (format "{}/{}.bam" [o +:+ "/bamfiles"; filename])
          = o +:+ "/bamfiles") as Hdir.
  { change (format "{}/{}.bam" [o +:+ "/bamfiles"; filename])
      with ((o +:+ "/bamfiles") +:+ String "/" (filename +:+ ".bam")).
    apply dirname_append. rewrite mem_append. unfold filename.
    by rewrite (before_first_mem _ _ _ (basename_no_slash f1)). }
  assert (dirs (fs w2) ⊆ dirs f3) as Hdirs.
  { unfold f3. etrans; [apply (Htools extract)|]. etrans; [apply (Htools bwa)|].
    apply (Htools view). }
  rewrite Hdir, bool_decide_true by (by apply Hdirs).
  cbn beta iota delta [fs trace].
  eexists _, _. split; [reflexivity|]. cbn [fs trace].
  split; [by rewrite Ht2, Ht1, <- !app_assoc|]. split; [done|].
  split; [by apply Htools, Htools, Hdirs, Hd2|].
  split; [by apply Htools, Htools, Hdirs|].
  apply Htools, Htools. cbn [files]. apply elem_of_union. right. by apply elem_of_singleton.
Qed.

(** The tools of the contract remove no file. *)
Lemma contract_keeps_files texts ev f :
  files f ⊆ files (tool_effect (Contract.host texts) ev f).
Proof.
  destruct ev as [cmd|argv|]; cbn [tool_effect Contract.host Contract.effect]; [| |done].
  - unfold Contract.system_effect, Contract.add_files.
    repeat case_match; first [done | apply union_subseteq_l].
  - unfold Contract.spawn_effect, Contract.add_files.
    repeat case_match; first [done | apply union_subseteq_l].
Qed.

Lemma fastq2bam_in_an_output_directory_witness :
  let w := ListOnly.world in
  let args := Runs.parsed (ListOnly.cmd [("-p", "NNT")]) w in
  args !! "output" = Some (PyStr "/out")
  ∧ args !! "fastq1" = Some (PyStr "/data/s1_R1.fastq")
  ∧ args !! "name" = Some (PyStr "_R")
  ∧ "_R" ≠ ""
  ∧ args !! "fastq2" = Some (PyStr "/data/s1_R2.fastq")
  ∧ args !! "bpattern" = Some (PyStr "NNT")
  ∧ args !! "blist" = Some PyNone
  ∧ args !! "bwa" = Some (PyStr "bwa")
  ∧ args !! "ref" = Some (PyStr "/ref/hg19.fa")
  ∧ args !! "samtools" = Some (PyStr "samtools")
  ∧ path_exists (fs w) "/out" = true
  ∧ writable Runs.host "/out" = true
  ∧ (∀ q, q ∈ PyStr.prefixes ("/out" +:+ "/fastq_tag")
              ++ PyStr.prefixes ("/out" +:+ "/bamfiles") →
          q ∉ files (fs w))
  ∧ (∀ ev f, dirs f ⊆ dirs (tool_effect Runs.host ev f)
             ∧ files f ⊆ files (tool_effect Runs.host ev f))
  ∧ ∃ started w',
      fastq2bam Runs.host args w = (Ret tt, w')
      ∧ trace w' = trace w ++ started
      ∧ length started = 5
      ∧ "/out" +:+ "/fastq_tag" ∈ dirs (fs w')
      ∧ "/out" +:+ "/bamfiles" ∈ dirs (fs w')
      ∧ format "{}/{}.bam"
          ["/out" +:+ "/bamfiles";
           PyStr.before_first "_R" (PyStr.basename "/data/s1_R1.fastq")]
        ∈ files (fs w').
Proof.
  intros w args.
  assert (args !! "output" = Some (PyStr "/out")) as H1 by by_vm.
  assert (args !! "fastq1" = Some (PyStr "/data/s1_R1.fastq")) as H2 by by_vm.
  assert (args !! "name" = Some (PyStr "_R")) as H3 by by_vm.
  assert ("_R" ≠ "") as H4 by discriminate.
  assert (args !! "fastq2" = Some (PyStr "/data/s1_R2.fastq")) as H5 by by_vm.
  assert (args !! "bpattern" = Some (PyStr "NNT")) as H6 by by_vm.
  assert (args !! "blist" = Some PyNone) as H7 by by_vm.
  assert (args !! "bwa" = Some (PyStr "bwa")) as H8 by by_vm.
  assert (args !! "ref" = Some (PyStr "/ref/hg19.fa")) as H9 by by_vm.
  assert (args !! "samtools" = Some (PyStr "samtools")) as H10 by by_vm.
  assert (path_exists (fs w) "/out" = true) as H11 by by_vm.
  assert (writable Runs.host "/out" = true) as Hwr by reflexivity.
  assert (∀ q, q ∈ PyStr.prefixes ("/out" +:+ "/fastq_tag")
                   ++ PyStr.prefixes ("/out" +:+ "/bamfiles") →
               q ∉ files (fs w)) as H12.
  { apply Forall_forall. apply (bool_decide_unpack _). vm_compute. exact I. }
  assert (∀ ev f, dirs f ⊆ dirs (tool_effect Runs.host ev f)
                  ∧ files f ⊆ files (tool_effect Runs.host ev f)) as H13.
  { intros ev f. unfold Runs.host. split.
    - by rewrite contract_keeps_dirs.
    - apply contract_keeps_files. }
  repeat (split; [assumption|]).
  exact (fastq2bam_in_an_output_directory Runs.host args w "/out" "/data/s1_R1.fastq" "_R"
           (PyStr "/data/s1_R2.fastq") (PyStr "NNT") PyNone "bwa" (PyStr "/ref/hg19.fa")
           "samtools" H1 H2 H3 H4 H5 H6 H7 H8 H9 H10 H11 Hwr H12 H13).
Defined.

(** ** The programs [consensus] starts and the files they are given *)

Section Pipeline.

Variable host : Host.
Context {X : Type} (proj : event → option X).

Lemma emits_ret {A} (a : A) : emits proj (mret a) [] (λ x, x = a).
Proof. intros w r w' H. injection H as <- <-. exists []. by rewrite app_nil_r. Qed.

Lemma emits_raise {A} e l (Q : A → Prop) : emits proj (raise e) l Q.
Proof.
  intros w r w' H. injection H as <- <-. exists []. rewrite app_nil_r.
  split; [done|]. apply prefix_nil.
Qed.

Lemma emits_weaken {A} (m : M A) l (Q Q' : A → Prop) :
  emits proj m l Q → (∀ a, Q a → Q' a) → emits proj m l Q'.
Proof.
  intros Hm HQ w r w' H. destruct (Hm _ _ _ H) as (new & Ht & Hr).
  exists new. split; [done|]. destruct r; [|done]. destruct Hr. by auto.
Qed.

Lemma emits_bind {A B} (m : M A) (k : A → M B) l1 l2 (Q : A → Prop) (R : B → Prop) :
  emits proj m l1 Q → (∀ a, Q a → emits proj (k a) l2 R) →
  emits proj (m ≫= k) (l1 ++ l2) R.
Proof.
  intros Hm Hk w r w' H. unfold mbind, M_bind, bind in H.
  destruct (m w) as [[a|e] w1] eqn:Hmw.
  - destruct (Hm _ _ _ Hmw) as (n1 & Ht1 & <- & Ha).
    destruct (Hk a Ha _ _ _ H) as (n2 & Ht2 & Hr).
    exists (n1 ++ n2). split; [by rewrite Ht2, Ht1, app_assoc|].
    rewrite omap_app. destruct r as [c|e].
    + destruct Hr as [<- Hc]. done.
    + by apply prefix_app.
  - injection H as <- <-. destruct (Hm _ _ _ Hmw) as (n1 & Ht1 & Hp).
    exists n1. split; [done|]. by apply prefix_app_r.
Qed.

Lemma emits_ret_bind {A B} (a : A) (k : A → M B) l (R : B → Prop) :
  emits proj (k a) l R → emits proj (mret a ≫= k) l R.
Proof. intros Hk w r w' H. by apply Hk. Qed.

Lemma emits_step {A B} (m : M A) (k : A → M B) l (Q : A → Prop) (R : B → Prop) :
  emits proj m [] Q → (∀ a, Q a → emits proj (k a) l R) → emits proj (m ≫= k) l R.
Proof. intros Hm Hk. by apply (emits_bind m k [] l Q R). Qed.

Lemma emits_call {A B} (m : M A) (k : A → M B) c l (Q : A → Prop) (R : B → Prop) :
  emits proj m [c] Q → (∀ a, Q a → emits proj (k a) l R) → emits proj (m ≫= k) (c :: l) R.
Proof. intros Hm Hk. by apply (emits_bind m k [c] l Q R). Qed.

(** A step that starts no program. *)
Lemma emits_quiet {A} (m : M A) :
  (∀ w r w', m w = (r, w') → trace w' = trace w) → emits proj m [] (λ _, True).
Proof.
  intros Hm w r w' H. exists []. rewrite app_nil_r. split; [by apply (Hm _ _ _ H)|].
  by destruct r.
Qed.

Lemma emits_any {A} (m : M A) l (Q : A → Prop) :
  emits proj m l Q → emits proj m l (λ _, True).
Proof. intros H. by apply (emits_weaken m l Q). Qed.

Lemma emits_done {A} (a : A) : emits proj (mret a) [] (λ _, True).
Proof. apply (emits_any (mret a) [] (λ x, x = a)). apply emits_ret. Qed.

Lemma emits_getattr args n : emits proj (getattr args n) [] (λ _, True).
Proof.
  apply emits_quiet. intros w r w'. unfold getattr.
  by destruct (args !! n); intros [= <- <-].
Qed.

Lemma emits_as_str v : emits proj (as_str v) [] (λ _, True).
Proof. apply emits_quiet. intros w r w'. by destruct v; intros [= <- <-]. Qed.

Lemma emits_path_exists q : emits proj (os_path_exists q) [] (λ _, True).
Proof. apply emits_quiet. intros w r w'. by intros [= <- <-]. Qed.

Lemma emits_access q : emits proj (os_access_W host q) [] (λ _, True).
Proof. apply emits_quiet. intros w r w'. by intros [= <- <-]. Qed.

Lemma emits_makedirs q : emits proj (os_makedirs q) [] (λ _, True).
Proof.
  apply emits_quiet. intros w r w'.
  unfold os_makedirs, mbind, M_bind, bind, get_fs, put_fs. cbn [fs trace].
  destruct (path_exists (fs w) q); [by intros [= <- <-]|].
  by destruct (List.find _ _); intros [= <- <-].
Qed.

Lemma emits_rename src dst : emits proj (os_rename src dst) [] (λ _, True).
Proof.
  apply emits_quiet. intros w r w'.
  unfold os_rename, mbind, M_bind, bind, get_fs, put_fs. cbn [fs trace].
  destruct (negb _); [by intros [= <- <-]|].
  by destruct (negb _); intros [= <- <-].
Qed.

Lemma emits_remove q : emits proj (os_remove q) [] (λ _, True).
Proof.
  apply emits_quiet. intros w r w'.
  unfold os_remove, mbind, M_bind, bind, get_fs, put_fs. cbn [fs trace].
  by destruct (bool_decide _); intros [= <- <-].
Qed.

Lemma emits_open q : emits proj (open_w q) [] (λ _, True).
Proof.
  apply emits_quiet. intros w r w'.
  unfold open_w, mbind, M_bind, bind, get_fs, put_fs. cbn [fs trace].
  by destruct (bool_decide _); intros [= <- <-].
Qed.

Lemma emits_run_none ev : proj ev = None → emits proj (run host ev) [] (λ _, True).
Proof.
  intros Hev w r w' [= <- <-]. exists [ev]. split; [done|]. cbn [omap list_omap].
  by rewrite Hev.
Qed.

Lemma emits_run_some ev x : proj ev = Some x → emits proj (run host ev) [x] (λ _, True).
Proof.
  intros Hev w r w' [= <- <-]. exists [ev]. split; [done|]. cbn [omap list_omap].
  by rewrite Hev.
Qed.

Lemma emits_if {A} (b : bool) (m1 m2 : M A) l (Q : A → Prop) :
  emits proj m1 l Q → emits proj m2 l Q → emits proj (if b then m1 else m2) l Q.
Proof. by destruct b. Qed.

End Pipeline.

Section Sorting.

Variable host : Host.

(** [sort_index] starts no engine script and returns the sorted name. *)
Lemma sort_index_engine bam st :
  emits engine_call (sort_index host bam st) []
    (λ r, r = format "{}.sorted.bam" [PyStr.before_first ".bam" bam]).
Proof.
  unfold sort_index, Popen, call.
  apply emits_step with (Q := λ _, True); [apply emits_as_str|intros s _].
  apply emits_step with (Q := λ _, True); [by apply emits_run_none|intros _ _].
  apply emits_step with (Q := λ _, True); [apply emits_open|intros _ _].
  apply emits_step with (Q := λ _, True); [by apply emits_run_none|intros _ _].
  apply emits_step with (Q := λ _, True); [apply emits_remove|intros _ _].
  apply emits_step with (Q := λ _, True); [by apply emits_run_none|intros _ _].
  apply emits_ret.
Qed.

(** A command line that starts with a program whose name has no space
    is split after the name. *)
Lemma split_char_prefix st rest :
  PyStr.mem " " st = false →
  PyStr.split_char " " (st +:+ String " " rest) = st :: PyStr.split_char " " rest.
Proof.
  induction st as [|a st IH]; [done|]. cbn [PyStr.mem].
  intros [Ha Hst]%orb_false_iff. rewrite append_cons. cbn [PyStr.split_char].
  by rewrite Ha, (IH Hst).
Qed.

Lemma split_format st t args :
  PyStr.mem " " st = false →
  PyStr.split_char " " (format (String "{" (String "}" (String " " t))) (st :: args))
  = st :: PyStr.split_char " " (format t args).
Proof.
  intros Hst.
  change (format (String "{" (String "}" (String " " t))) (st :: args))
    with (st +:+ format (String " " t) args).
  assert (format (String " " t) args = String " " (format t args)) as ->.
  { by destruct t. }
  by apply split_char_prefix.
Qed.

(** [sort_index] merges nothing. *)
Lemma sort_index_merges bam st :
  PyStr.mem " " st = false →
  emits merge_call (sort_index host bam (PyStr st)) []
    (λ r, r = format "{}.sorted.bam" [PyStr.before_first ".bam" bam]).
Proof.
  intros Hst. unfold sort_index, Popen, call. cbn [as_str].
  apply emits_ret_bind.
  apply emits_step with (Q := λ _, True); [|intros _ _].
  { apply emits_run_none.
    change (st +:+ " view -bu " +:+ bam) with (st +:+ String " " ("view -bu " +:+ bam)).
    by rewrite (split_char_prefix _ _ Hst). }
  apply emits_step with (Q := λ _, True); [apply emits_open|intros _ _].
  apply emits_step with (Q := λ _, True); [|intros _ _].
  { apply emits_run_none.
    change (st +:+ " sort -") with (st +:+ String " " "sort -").
    by rewrite (split_char_prefix _ _ Hst). }
  apply emits_step with (Q := λ _, True); [apply emits_remove|intros _ _].
  apply emits_step with (Q := λ _, True); [|intros _ _].
  { apply emits_run_none. by rewrite (split_format _ _ _ Hst). }
  apply emits_ret.
Qed.

End Sorting.

Lemma is_False_str s : is_False (PyStr s) = false.
Proof. reflexivity. Qed.

(** The steps that start none of the programs looked for. *)
Ltac quiet_all :=
  repeat first
    [ apply emits_getattr | apply emits_as_str | apply emits_path_exists
    | apply emits_access | apply emits_makedirs | apply emits_rename
    | apply emits_remove | apply emits_open
    | apply emits_done
    | apply emits_raise
    | apply emits_if
    | apply emits_run_none; reflexivity
    | eapply emits_any; apply sort_index_engine
    | eapply emits_any; apply sort_index_merges; assumption
    | apply emits_step with (Q := λ _, True); [|intros ? _] ].

(** From one engine script to the next. *)
Ltac pipe :=
  repeat first
    [ apply emits_ret_bind; cbv beta zeta; rewrite ?is_False_str; cbv iota
    | eapply emits_call; [apply emits_run_some; reflexivity | intros _ _]
    | eapply emits_step; [apply sort_index_engine | intros ? ->]
    | apply emits_step with (Q := λ _, True); [solve [quiet_all] | intros ? _] ].

(** X21: the engine scripts [consensus] starts and the files it hands
    from one to the next, for every host and every world.  The SSCS maker
    reads the input; the DCS maker reads the sorted SSCS file; with
    singleton correction on, the correction reads the sorted singleton
    file and a second DCS maker the sorted merge of SSCS and corrected
    singletons.  A call that returns has started all of them in this
    order, a call that raises the first few, and nothing else goes
    through [os.system]. *)
Theorem consensus_engine_calls host args w r w' b co bed vc st v :
  args !! "bam" = Some (PyStr b) →
  args !! "c_output" = Some co →
  args !! "bedfile" = Some (PyStr bed) →
  args !! "cutoff" = Some vc →
  args !! "samtools" = Some st →
  args !! "scorrect" = Some v →
  let identifier := PyStr.before_first ".bam" (PyStr.basename b) in
  let sample_dir := format "{}/{}" [py_str co; identifier] in
  let sorted x := format "{}.sorted.bam" [PyStr.before_first ".bam" x] in
  let sscs := format "{}/sscs/{}.sscs.bam" [sample_dir; identifier] in
  let sing := format "{}/sscs/{}.singleton.bam" [sample_dir; identifier] in
  let dcs := format "{}/dcs/{}.dcs.bam" [sample_dir; identifier] in
  let sscs_sc := format "{}/sscs_sc/{}.sscs.sc.bam" [sample_dir; identifier] in
  let dcs_sc := format "{}/dcs_sc/{}.dcs.sc.bam" [sample_dir; identifier] in
  let calls :=
    [ format "{}/ConsensusCruncher/SSCS_maker.py --infile {} --outfile {} --cutoff {} --bedfile {}"
        [code_dir host; b; sscs; py_str vc; bed];
      format "{}/ConsensusCruncher/DCS_maker.py --infile {} --outfile {} --bedfile {}"
        [code_dir host; sorted sscs; dcs; bed] ]
    ++ (if is_True v
        then [ format "{}/ConsensusCruncher/singleton_correction.py --singleton {} --bedfile {}"
                 [code_dir host; sorted sing; bed];
               format "{}/ConsensusCruncher/DCS_maker.py --infile {} --outfile {} --bedfile {}"
                 [code_dir host; sorted sscs_sc; dcs_sc; bed] ]
        else []) in
  consensus host args w = (r, w') →
  ∃ started, trace w' = trace w ++ started
             ∧ Runs.engine_calls started `prefix_of` calls
             ∧ (r = Ret tt → Runs.engine_calls started = calls).
Proof.
  intros Hb Hco Hbed Hvc Hst Hsc identifier sample_dir sorted sscs sing dcs sscs_sc dcs_sc
    calls Hrun.
  assert (emits engine_call (consensus host args) calls (λ _, True)) as Hy.
  { unfold consensus, singleton_correction_block, relocation_block, cleanup_block, getattr.
    rewrite Hb, Hco, Hbed, Hvc, Hst, Hsc.
    cbn [of_option as_str py_str]. unfold os_system, Popen, call.
    unfold calls. destruct (is_True v) eqn:Hv; cbn [app].
    - pipe. rewrite Hv.
      eapply (emits_bind _ _ _ [_; _] []).
      + pipe. apply emits_ret.
      + intros ? _. pipe. quiet_all.
    - pipe. rewrite Hv.
      apply emits_step with (Q := λ _, True); [apply emits_done|intros ? _].
      pipe. quiet_all. }
  destruct (Hy w r w' Hrun) as (started & Ht & Hr).
  exists started. split; [done|].
  change (Runs.engine_calls started) with (omap engine_call started).
  destruct r as [[]|e].
  - destruct Hr as [-> _]. done.
  - split; [done|]. intros Heq. discriminate Heq.
Qed.

(** From one [samtools merge] to the next. *)
Ltac pipe_merges H :=
  repeat first
    [ apply emits_ret_bind; cbv beta zeta; cbn [py_str]
    | eapply emits_call;
        [apply emits_run_some; rewrite (split_format _ _ _ H); reflexivity | intros _ _]
    | eapply emits_step; [apply sort_index_merges; assumption | intros ? ->]
    | apply emits_step with (Q := λ _, True); [solve [quiet_all] | intros ? _] ].

(** X22: what [consensus] merges, for every host and every world, when
    the name of [samtools] has no space in it.  Without singleton
    correction no [samtools merge] is started at all, so no file of all
    unique molecules is made.  With it there are two: the SSCS with the
    corrected singletons, from the sorted files of the three, and all
    unique molecules, from the sorted DCS, the sorted unpaired SSCS and
    the sorted uncorrected singletons. *)
Theorem consensus_merges host args w r w' b co st v :
  args !! "bam" = Some (PyStr b) →
  args !! "c_output" = Some co →
  args !! "samtools" = Some (PyStr st) →
  PyStr.mem " " st = false →
  args !! "scorrect" = Some v →
  let identifier := PyStr.before_first ".bam" (PyStr.basename b) in
  let sample_dir := format "{}/{}" [py_str co; identifier] in
  let sorted x := format "{}.sorted.bam" [PyStr.before_first ".bam" x] in
  let file t := format t [sample_dir; identifier] in
  let merges :=
    if is_True v
    then [ st :: PyStr.split_char " "
             (format "merge {} {} {} {}"
                [file "{}/sscs_sc/{}.sscs.sc.bam";
                 sorted (file "{}/sscs/{}.sscs.bam");
                 sorted (file "{}/sscs_sc/{}.sscs.correction.bam");
                 sorted (file "{}/sscs_sc/{}.singleton.correction.bam")]);
           st :: PyStr.split_char " "
             (format "merge {} {} {} {}"
                [file "{}/dcs_sc/{}.all.unique.dcs.bam";
                 sorted (file "{}/dcs_sc/{}.dcs.sc.bam");
                 sorted (file "{}/dcs_sc/{}.sscs.sc.singleton.bam");
                 sorted (file "{}/sscs_sc/{}.uncorrected.bam")]) ]
    else [] in
  consensus host args w = (r, w') →
  ∃ started, trace w' = trace w ++ started
             ∧ Runs.merges started `prefix_of` merges
             ∧ (r = Ret tt → Runs.merges started = merges).
Proof.
  intros Hb Hco Hst Hsp Hsc identifier sample_dir sorted file merges Hrun.
  assert (emits merge_call (consensus host args) merges (λ _, True)) as Hy.
  { unfold consensus, singleton_correction_block, relocation_block, cleanup_block, getattr.
    rewrite Hb, Hco, Hst, Hsc.
    cbn [of_option as_str py_str]. unfold os_system, Popen, call.
    unfold merges. destruct (is_True v) eqn:Hv.
    - pipe_merges Hsp. rewrite Hv.
      eapply (emits_bind _ _ _ [_; _] []).
      + pipe_merges Hsp. apply emits_ret.
      + intros ? _. pipe_merges Hsp. quiet_all.
    - pipe_merges Hsp. rewrite Hv.
      apply emits_step with (Q := λ _, True); [apply emits_done|intros ? _].
      pipe_merges Hsp. quiet_all. }
  destruct (Hy w r w' Hrun) as (started & Ht & Hr).
  exists started. split; [done|].
  change (Runs.merges started) with (omap merge_call started).
  destruct r as [[]|e].
  - destruct Hr as [-> _]. done.
  - split; [done|]. intros Heq. discriminate Heq.
Qed.

Lemma consensus_engine_calls_witness :
  let cl := Runs.consensus_cmd (Runs.basic ++ [("--scorrect", "True")]) in
  let w := Runs.world in
  let args := Runs.parsed cl w in
  let res := consensus Runs.host args w in
  let bed := "/opt/cc/ConsensusCruncher/cytoBand.txt" in
  let calls :=
    [ "/opt/cc/ConsensusCruncher/SSCS_maker.py --infile /data/s1.bam "
      +:+ "--outfile /out/s1/sscs/s1.sscs.bam --cutoff 0.7 --bedfile " +:+ bed;
      "/opt/cc/ConsensusCruncher/DCS_maker.py --infile /out/s1/sscs/s1.sscs.sorted.bam "
      +:+ "--outfile /out/s1/dcs/s1.dcs.bam --bedfile " +:+ bed;
      "/opt/cc/ConsensusCruncher/singleton_correction.py "
      +:+ "--singleton /out/s1/sscs/s1.singleton.sorted.bam --bedfile " +:+ bed;
      "/opt/cc/ConsensusCruncher/DCS_maker.py --infile /out/s1/sscs_sc/s1.sscs.sc.sorted.bam "
      +:+ "--outfile /out/s1/dcs_sc/s1.dcs.sc.bam --bedfile " +:+ bed ] in
  args !! "bam" = Some (PyStr "/data/s1.bam")
  ∧ args !! "c_output" = Some (PyStr "/out")
  ∧ args !! "bedfile" = Some (PyStr bed)
  ∧ args !! "cutoff" = Some (PyFloat "0.7")
  ∧ args !! "samtools" = Some (PyStr "samtools")
  ∧ args !! "scorrect" = Some (PyBool true)
  ∧ ∃ started, trace (snd res) = trace w ++ started
               ∧ Runs.engine_calls started `prefix_of` calls
               ∧ (fst res = Ret tt → Runs.engine_calls started = calls).
Proof.
  intros cl w args res bed calls.
  assert (args !! "bam" = Some (PyStr "/data/s1.bam")) as H1 by by_vm.
  assert (args !! "c_output" = Some (PyStr "/out")) as H2 by by_vm.
  assert (args !! "bedfile" = Some (PyStr bed)) as H3 by by_vm.
  assert (args !! "cutoff" = Some (PyFloat "0.7")) as H4 by by_vm.
  assert (args !! "samtools" = Some (PyStr "samtools")) as H5 by by_vm.
  assert (args !! "scorrect" = Some (PyBool true)) as H6 by by_vm.
  repeat (split; [assumption|]).
  exact (consensus_engine_calls Runs.host args w (fst res) (snd res) "/data/s1.bam"
           (PyStr "/out") bed (PyFloat "0.7") (PyStr "samtools") (PyBool true)
           H1 H2 H3 H4 H5 H6 (surjective_pairing res)).
Defined.

Lemma consensus_merges_witness :
  let cl := Runs.consensus_cmd (Runs.basic ++ [("--scorrect", "True")]) in
  let w := Runs.world in
  let args := Runs.parsed cl w in
  let res := consensus Runs.host args w in
  let merges :=
    [ ["samtools"; "merge"; "/out/s1/sscs_sc/s1.sscs.sc.bam";
       "/out/s1/sscs/s1.sscs.sorted.bam";
       "/out/s1/sscs_sc/s1.sscs.correction.sorted.bam";
       "/out/s1/sscs_sc/s1.singleton.correction.sorted.bam"];
      ["samtools"; "merge"; "/out/s1/dcs_sc/s1.all.unique.dcs.bam";
       "/out/s1/dcs_sc/s1.dcs.sc.sorted.bam";
       "/out/s1/dcs_sc/s1.sscs.sc.singleton.sorted.bam";
       "/out/s1/sscs_sc/s1.uncorrected.sorted.bam"] ] in
  args !! "bam" = Some (PyStr "/data/s1.bam")
  ∧ args !! "c_output" = Some (PyStr "/out")
  ∧ args !! "samtools" = Some (PyStr "samtools")
  ∧ PyStr.mem " " "samtools" = false
  ∧ args !! "scorrect" = Some (PyBool true)
  ∧ ∃ started, trace (snd res) = trace w ++ started
               ∧ Runs.merges started `prefix_of` merges
               ∧ (fst res = Ret tt → Runs.merges started = merges).
Proof.
  intros cl w args res merges.
  assert (args !! "bam" = Some (PyStr "/data/s1.bam")) as H1 by by_vm.
  assert (args !! "c_output" = Some (PyStr "/out")) as H2 by by_vm.
  assert (args !! "samtools" = Some (PyStr "samtools")) as H3 by by_vm.
  assert (PyStr.mem " " "samtools" = false) as H4 by by_vm.
  assert (args !! "scorrect" = Some (PyBool true)) as H5 by by_vm.
  repeat (split; [assumption|]).
  exact (consensus_merges Runs.host args w (fst res) (snd res) "/data/s1.bam"
           (PyStr "/out") "samtools" (PyBool true) H1 H2 H3 H4 H5 (surjective_pairing res)).
Defined.
